(** * PID Simulator Pro: controller, plant models and auto-tuner

    A shallow embedding of the numeric core of the simulator
    (advanced-pid.js, pid-controller.js, plant-models.js, the industrial
    plants and the auto-tune logic of the application class), with the
    properties of its specification stated over it.

    JavaScript numbers are IEEE 754 binary64 values.  They are modelled
    with the executable specification of the Standard Library
    ([spec_float] at precision 53 and maximal exponent 1024), so that
    division by zero, infinities and NaN behave as they do in the
    program. *)

From Stdlib Require Import ZArith List Bool String Lia.
From Stdlib Require Import Floats.SpecFloat.
Import ListNotations.

Local Open Scope Z_scope.

(** ** JavaScript numbers *)

Module Num.

Definition prec : Z := 53.
Definition emax : Z := 1024.

Definition number : Type := spec_float.

Definition add : number -> number -> number := SFadd prec emax.
Definition sub : number -> number -> number := SFsub prec emax.
Definition mul : number -> number -> number := SFmul prec emax.
Definition div : number -> number -> number := SFdiv prec emax.
Definition sqrt : number -> number := SFsqrt prec emax.
Definition neg : number -> number := SFopp.
Definition abs : number -> number := SFabs.

(** The comparison operators [<], [<=], [>], [>=], [===] and [!==] on
    numbers: every ordered comparison with NaN is false, and
    [NaN !== NaN] is true. *)
Definition ltb (x y : number) : bool := SFltb x y.
Definition leb (x y : number) : bool := SFleb x y.
Definition gtb (x y : number) : bool := SFltb y x.
Definition geb (x y : number) : bool := SFleb y x.
Definition strict_eq (x y : number) : bool := SFeqb x y.
Definition strict_neq (x y : number) : bool := negb (SFeqb x y).

Definition isNaN (x : number) : bool :=
  match x with S754_nan => true | _ => false end.

(** Integer literals, and decimal literals as correctly rounded
    quotients of integers. *)
Definition ofZ (z : Z) : number := binary_normalize prec emax z 0 false.
Definition ratio (p q : Z) : number := div (ofZ p) (ofZ q).

Definition zero : number := S754_zero false.
Definition one : number := Eval vm_compute in ofZ 1.
Definition NaN : number := S754_nan.
Definition Infinity : number := S754_infinity false.
Definition negInfinity : number := S754_infinity true.

(** Truthiness of a number, as used by [x || default]: [0], [-0] and
    [NaN] are falsy. *)
Definition truthy (x : number) : bool :=
  match x with
  | S754_zero _ | S754_nan => false
  | _ => true
  end.

(** [Math.max] and [Math.min] of two numbers: NaN if either argument is
    NaN, and [+0] is larger than [-0]. *)
Definition Math_max (a b : number) : number :=
  match a, b with
  | S754_nan, _ | _, S754_nan => S754_nan
  | S754_zero sa, S754_zero sb => S754_zero (andb sa sb)
  | _, _ => if ltb a b then b else a
  end.

Definition Math_min (a b : number) : number :=
  match a, b with
  | S754_nan, _ | _, S754_nan => S754_nan
  | S754_zero sa, S754_zero sb => S754_zero (orb sa sb)
  | _, _ => if ltb b a then b else a
  end.

(** The saturation idiom [Math.max(lo, Math.min(hi, x))]. *)
Definition saturate (lo hi x : number) : number :=
  Math_max lo (Math_min hi x).

(** [within lo hi x]: [lo <= x && x <= hi]. *)
Definition within (lo hi x : number) : bool := leb lo x && leb x hi.

End Num.

Import Num.

#[global] Arguments Num.add : simpl never.
#[global] Arguments Num.sub : simpl never.
#[global] Arguments Num.mul : simpl never.
#[global] Arguments Num.div : simpl never.
#[global] Arguments Num.sqrt : simpl never.
#[global] Arguments Num.ofZ : simpl never.
#[global] Arguments Num.ratio : simpl never.
#[global] Arguments Num.leb : simpl never.
#[global] Arguments Num.ltb : simpl never.
#[global] Arguments Num.Math_max : simpl never.
#[global] Arguments Num.Math_min : simpl never.

(** ** The advanced controller (advanced-pid.js) *)

Module AdvancedPID.

Record Config := mkConfig {
  outputMin : number;
  outputMax : number;
  derivativeFilter : number;
  setpointWeightP : number;
  setpointWeightD : number;
  integralMode : string;
  antiWindupMethod : string
}.

Record State := mkState {
  lastError : number;
  lastPV : number;
  integralSum : number;
  derivativeFiltered : number;
  lastOutput : number;
  isManual : bool;
  manualOutput : number
}.

Record Terms := mkTerms {
  proportional : number;
  integral : number;
  derivative : number;
  total : number
}.

Record Metrics := mkMetrics {
  integralAbsoluteError : number;
  integralSquaredError : number;
  integralTimeAbsoluteError : number;
  maxOutput : number;
  outputVariability : number;
  lastOutputs : list number
}.

Record AdvancedPIDController := mk {
  _Kp : number;
  _Ki : number;
  _Kd : number;
  config : Config;
  state : State;
  terms : Terms;
  metrics : Metrics;
  simulationTime : number
}.

(** The [options] object of the constructor: a missing key is [None]. *)
Record Options := mkOptions {
  opt_outputMin : option number;
  opt_outputMax : option number;
  opt_derivativeFilter : option number;
  opt_setpointWeightP : option number;
  opt_setpointWeightD : option number;
  opt_integralMode : option string;
  opt_antiWindupMethod : option string
}.

Definition noOptions : Options :=
  mkOptions None None None None None None None.

(** [x || d] on an optional number and on an optional string. *)
Definition or_number (x : option number) (d : number) : number :=
  match x with
  | Some v => if truthy v then v else d
  | None => d
  end.

Definition or_string (x : option string) (d : string) : string :=
  match x with
  | Some v => if String.eqb v "" then d else v
  | None => d
  end.

(** A default parameter value [x = d]. *)
Definition default_arg (x : option number) (d : number) : number :=
  match x with Some v => v | None => d end.

Definition initialState : State :=
  mkState zero zero zero zero zero false zero.

Definition initialTerms : Terms := mkTerms zero zero zero zero.

Definition initialMetrics : Metrics := mkMetrics zero zero zero zero zero [].

Definition constructor (Kp Ki Kd : option number) (options : Options)
  : AdvancedPIDController :=
  mk (default_arg Kp one) (default_arg Ki zero) (default_arg Kd zero)
     (mkConfig
        (or_number (opt_outputMin options) (neg (ofZ 100)))
        (or_number (opt_outputMax options) (ofZ 100))
        (or_number (opt_derivativeFilter options) (ratio 1 10))
        (or_number (opt_setpointWeightP options) one)
        (or_number (opt_setpointWeightD options) zero)
        (or_string (opt_integralMode options) "standard")
        (or_string (opt_antiWindupMethod options) "clamping"))
     initialState initialTerms initialMetrics zero.

(** Field assignments. *)
Definition set_simulationTime (v : number) (c : AdvancedPIDController) :=
  mk (_Kp c) (_Ki c) (_Kd c) (config c) (state c) (terms c) (metrics c) v.
Definition set_state (s : State) (c : AdvancedPIDController) :=
  mk (_Kp c) (_Ki c) (_Kd c) (config c) s (terms c) (metrics c)
     (simulationTime c).
Definition set_terms (tm : Terms) (c : AdvancedPIDController) :=
  mk (_Kp c) (_Ki c) (_Kd c) (config c) (state c) tm (metrics c)
     (simulationTime c).
Definition set_metrics (m : Metrics) (c : AdvancedPIDController) :=
  mk (_Kp c) (_Ki c) (_Kd c) (config c) (state c) (terms c) m
     (simulationTime c).
Definition set_config (cf : Config) (c : AdvancedPIDController) :=
  mk (_Kp c) (_Ki c) (_Kd c) cf (state c) (terms c) (metrics c)
     (simulationTime c).

Definition set_lastError (v : number) (c : AdvancedPIDController) :=
  let s := state c in
  set_state (mkState v (lastPV s) (integralSum s) (derivativeFiltered s)
               (lastOutput s) (isManual s) (manualOutput s)) c.
Definition set_lastPV (v : number) (c : AdvancedPIDController) :=
  let s := state c in
  set_state (mkState (lastError s) v (integralSum s) (derivativeFiltered s)
               (lastOutput s) (isManual s) (manualOutput s)) c.
Definition set_integralSum (v : number) (c : AdvancedPIDController) :=
  let s := state c in
  set_state (mkState (lastError s) (lastPV s) v (derivativeFiltered s)
               (lastOutput s) (isManual s) (manualOutput s)) c.
Definition set_derivativeFiltered (v : number) (c : AdvancedPIDController) :=
  let s := state c in
  set_state (mkState (lastError s) (lastPV s) (integralSum s) v
               (lastOutput s) (isManual s) (manualOutput s)) c.
Definition set_lastOutput (v : number) (c : AdvancedPIDController) :=
  let s := state c in
  set_state (mkState (lastError s) (lastPV s) (integralSum s)
               (derivativeFiltered s) v (isManual s) (manualOutput s)) c.
Definition set_isManual (v : bool) (c : AdvancedPIDController) :=
  let s := state c in
  set_state (mkState (lastError s) (lastPV s) (integralSum s)
               (derivativeFiltered s) (lastOutput s) v (manualOutput s)) c.
Definition set_manualOutput (v : number) (c : AdvancedPIDController) :=
  let s := state c in
  set_state (mkState (lastError s) (lastPV s) (integralSum s)
               (derivativeFiltered s) (lastOutput s) (isManual s) v) c.

Definition set_proportional (v : number) (c : AdvancedPIDController) :=
  let tm := terms c in
  set_terms (mkTerms v (integral tm) (derivative tm) (total tm)) c.
Definition set_integral (v : number) (c : AdvancedPIDController) :=
  let tm := terms c in
  set_terms (mkTerms (proportional tm) v (derivative tm) (total tm)) c.
Definition set_derivative (v : number) (c : AdvancedPIDController) :=
  let tm := terms c in
  set_terms (mkTerms (proportional tm) (integral tm) v (total tm)) c.
Definition set_total (v : number) (c : AdvancedPIDController) :=
  let tm := terms c in
  set_terms (mkTerms (proportional tm) (integral tm) (derivative tm) v) c.

(** [lastOutputs.slice(1).map((val, i) => Math.abs(val - lastOutputs[i]))] *)
Definition outputChanges (outs : list number) : list number :=
  map (fun p => abs (sub (fst p) (snd p))) (combine (tl outs) outs).

Definition updateMetrics (error output deltaTime : number)
  (c : AdvancedPIDController) : AdvancedPIDController :=
  let m := metrics c in
  let iae := add (integralAbsoluteError m) (mul (abs error) deltaTime) in
  let ise :=
    add (integralSquaredError m) (mul (mul error error) deltaTime) in
  let itae :=
    add (integralTimeAbsoluteError m)
        (mul (mul (simulationTime c) (abs error)) deltaTime) in
  let maxOut := Math_max (maxOutput m) (abs output) in
  let pushed := lastOutputs m ++ [output] in
  let outs := if Nat.ltb 50 (List.length pushed) then tl pushed else pushed in
  let variability :=
    if Nat.ltb 1 (List.length outs)
    then div (fold_left (fun sum change => add sum change)
                (outputChanges outs) zero)
             (ofZ (Z.of_nat (List.length (outputChanges outs))))
    else outputVariability m in
  set_metrics (mkMetrics iae ise itae maxOut variability outs) c.

(** The integral accumulation of one tick (standard or conditional). *)
Definition integrate (error deltaTime : number)
  (c : AdvancedPIDController) : AdvancedPIDController :=
  if String.eqb (integralMode (config c)) "conditional" then
    let wouldSaturate :=
      geb (abs (lastOutput (state c)))
          (abs (mul (outputMax (config c)) (ratio 95 100))) in
    if negb wouldSaturate || ltb (mul error (integralSum (state c))) zero
    then set_integralSum (add (integralSum (state c)) (mul error deltaTime)) c
    else c
  else set_integralSum (add (integralSum (state c)) (mul error deltaTime)) c.

(** The anti-windup step: it receives the unsaturated sum and returns
    the output together with the adjusted controller. *)
Definition antiWindup (output deltaTime : number)
  (c : AdvancedPIDController) : number * AdvancedPIDController :=
  if String.eqb (antiWindupMethod (config c)) "clamping" then
    let saturatedOutput :=
      Math_max (outputMin (config c))
               (Math_min (outputMax (config c)) output) in
    if strict_neq saturatedOutput output then
      let excessOutput := sub output saturatedOutput in
      let c := set_integralSum
                 (sub (integralSum (state c)) (div excessOutput (_Ki c))) c in
      let c := set_integral (mul (_Ki c) (integralSum (state c))) c in
      (saturatedOutput, c)
    else (output, c)
  else if String.eqb (antiWindupMethod (config c)) "back-calculation" then
    let saturatedOutput :=
      Math_max (outputMin (config c))
               (Math_min (outputMax (config c)) output) in
    let c :=
      if strict_neq saturatedOutput output && strict_neq (_Ki c) zero then
        let Tt := one in
        let backCalcError := div (sub saturatedOutput output) Tt in
        let c := set_integralSum
                   (add (integralSum (state c)) (mul backCalcError deltaTime))
                   c in
        set_integral (mul (_Ki c) (integralSum (state c))) c
      else c in
    (saturatedOutput, c)
  else (output, c).

Definition update (setpoint processVariable deltaTime : number)
  (c : AdvancedPIDController) : number * AdvancedPIDController :=
  let c := set_simulationTime (add (simulationTime c) deltaTime) c in
  if leb deltaTime zero then (lastOutput (state c), c)
  else if isManual (state c) then
    let c := set_lastOutput (manualOutput (state c)) c in
    (lastOutput (state c), c)
  else
    let error := sub setpoint processVariable in
    (* proportional term, with setpoint weighting *)
    let proportionalError :=
      sub (mul (setpointWeightP (config c)) setpoint) processVariable in
    let c := set_proportional (mul (_Kp c) proportionalError) c in
    (* integral term *)
    let c := integrate error deltaTime c in
    let c := set_integral (mul (_Ki c) (integralSum (state c))) c in
    (* derivative term, on the process variable, low-pass filtered *)
    let pvDerivative :=
      div (sub processVariable (lastPV (state c))) deltaTime in
    let alpha := derivativeFilter (config c) in
    let c := set_derivativeFiltered
               (add (mul alpha (neg pvDerivative))
                    (mul (sub one alpha) (derivativeFiltered (state c)))) c in
    let derivativeSetpointEffect :=
      div (mul (setpointWeightD (config c))
               (sub setpoint (lastPV (state c)))) deltaTime in
    let c := set_derivative
               (mul (_Kd c)
                    (add (derivativeFiltered (state c))
                         derivativeSetpointEffect)) c in
    (* total output and anti-windup *)
    let output :=
      add (add (proportional (terms c)) (integral (terms c)))
          (derivative (terms c)) in
    let '(output, c) := antiWindup output deltaTime c in
    let c := updateMetrics error output deltaTime c in
    let c := set_lastError error c in
    let c := set_lastPV processVariable c in
    let c := set_lastOutput output c in
    let c := set_total output c in
    (output, c).

Definition setGains (Kp Ki Kd : number) (c : AdvancedPIDController) :=
  mk Kp Ki Kd (config c) (state c) (terms c) (metrics c) (simulationTime c).

Definition setOutputLimits (min max : number) (c : AdvancedPIDController) :=
  let cf := config c in
  set_config (mkConfig min max (derivativeFilter cf) (setpointWeightP cf)
                (setpointWeightD cf) (integralMode cf) (antiWindupMethod cf))
             c.

Definition setManualMode (isManual' : bool) (manualOutput' : option number)
  (c : AdvancedPIDController) : AdvancedPIDController :=
  let manualOutput' := default_arg manualOutput' zero in
  let c :=
    if isManual' && negb (isManual (state c)) then
      set_manualOutput (lastOutput (state c)) c
    else if negb isManual' && isManual (state c) then
      let c := set_integralSum
                 (div (manualOutput (state c)) (_Ki c)) c in
      set_integral (manualOutput (state c)) c
    else c in
  let c := set_isManual isManual' c in
  if isManual' then set_manualOutput manualOutput' c else c.

Definition reset (c : AdvancedPIDController) : AdvancedPIDController :=
  mk (_Kp c) (_Ki c) (_Kd c) (config c)
     (mkState zero zero zero zero zero false zero)
     (mkTerms zero zero zero zero)
     (mkMetrics zero zero zero zero zero [])
     zero.

(** The calls that drive a controller between construction and reset. *)
Inductive Call :=
| CallUpdate (setpoint processVariable deltaTime : number)
| CallSetManualMode (isManual : bool) (manualOutput : option number).

Definition perform (call : Call) (c : AdvancedPIDController)
  : option number * AdvancedPIDController :=
  match call with
  | CallUpdate sp pv dt => let '(o, c) := update sp pv dt c in (Some o, c)
  | CallSetManualMode b m => (None, setManualMode b m c)
  end.

(** Running a sequence of calls: the values returned, in order, and the
    final controller. *)
Fixpoint run (calls : list Call) (c : AdvancedPIDController)
  : list (option number) * AdvancedPIDController :=
  match calls with
  | [] => ([], c)
  | call :: rest =>
      let '(o, c) := perform call c in
      let '(os, c) := run rest c in
      (o :: os, c)
  end.

Definition setSetpointWeighting (weightP weightD : number)
  (c : AdvancedPIDController) :=
  let cf := config c in
  set_config (mkConfig (outputMin cf) (outputMax cf) (derivativeFilter cf)
                weightP weightD (integralMode cf) (antiWindupMethod cf)) c.

Definition setDerivativeFilter (alpha : number) (c : AdvancedPIDController) :=
  let cf := config c in
  set_config (mkConfig (outputMin cf) (outputMax cf) alpha
                (setpointWeightP cf) (setpointWeightD cf) (integralMode cf)
                (antiWindupMethod cf)) c.

(** The object returned by the tuning formulas: [{ Kp, Ki, Kd, method }]. *)
Record Tuning := mkTuning {
  tuned_Kp : number;
  tuned_Ki : number;
  tuned_Kd : number;
  tuned_method : string
}.

Definition autoTuneZieglerNichols (ultimateGain ultimatePeriod : number)
  (c : AdvancedPIDController) : Tuning * AdvancedPIDController :=
  let Ku := ultimateGain in
  let Tu := ultimatePeriod in
  let c := setGains (mul (ratio 6 10) Ku)
                    (div (mul (ratio 12 10) Ku) Tu)
                    (div (mul (mul (ratio 6 10) Ku) Tu) (ofZ 8)) c in
  (mkTuning (_Kp c) (_Ki c) (_Kd c) "Ziegler-Nichols", c).

(** The calls of [Call] extended with the setters of gains and limits. *)
Inductive Command :=
| CmdCall (call : Call)
| CmdSetGains (Kp Ki Kd : number)
| CmdSetOutputLimits (min max : number)
| CmdSetSetpointWeighting (weightP weightD : number)
| CmdSetDerivativeFilter (alpha : number)
| CmdReset.

Definition execute (cmd : Command) (c : AdvancedPIDController)
  : AdvancedPIDController :=
  match cmd with
  | CmdCall call => snd (perform call c)
  | CmdSetGains Kp Ki Kd => setGains Kp Ki Kd c
  | CmdSetOutputLimits min max => setOutputLimits min max c
  | CmdSetSetpointWeighting wP wD => setSetpointWeighting wP wD c
  | CmdSetDerivativeFilter alpha => setDerivativeFilter alpha c
  | CmdReset => reset c
  end.

Definition executeAll (cmds : list Command) (c : AdvancedPIDController)
  : AdvancedPIDController :=
  fold_left (fun c cmd => execute cmd c) cmds c.

End AdvancedPID.

(** ** The basic controller (pid-controller.js) *)

Module BasicPID.

Record PIDController := mk {
  _Kp : number;
  _Ki : number;
  _Kd : number;
  _proportionalTerm : number;
  _integralTerm : number;
  _derivativeTerm : number;
  _lastError : number;
  _lastProcessVariable : number;
  _outputMin : number;
  _outputMax : number;
  _alpha : number
}.

Record Options := mkOptions {
  opt_outputMin : option number;
  opt_outputMax : option number;
  opt_alpha : option number
}.

(** [x ?? d]: only a missing value takes the default. *)
Definition nullish (x : option number) (d : number) : number :=
  match x with Some v => v | None => d end.

Definition constructor (Kp Ki Kd : number) (options : Options)
  : PIDController :=
  mk Kp Ki Kd zero zero zero zero zero
     (nullish (opt_outputMin options) (neg (ofZ 100)))
     (nullish (opt_outputMax options) (ofZ 100))
     (nullish (opt_alpha options) (ratio 1 10)).

Definition update (setpoint processVariable deltaTime : number)
  (c : PIDController) : number * PIDController :=
  if leb deltaTime zero then
    (add (add (_proportionalTerm c) (_integralTerm c)) (_derivativeTerm c), c)
  else
    let error := sub setpoint processVariable in
    let proportionalTerm := mul (_Kp c) error in
    let pvDerivative :=
      div (sub processVariable (_lastProcessVariable c)) deltaTime in
    let derivativeTerm :=
      add (mul (_alpha c) pvDerivative)
          (mul (sub one (_alpha c)) (_derivativeTerm c)) in
    let integralIncrement := mul (mul (_Ki c) error) deltaTime in
    let preOutput :=
      sub (add (add proportionalTerm (_integralTerm c)) integralIncrement)
          (mul (_Kd c) derivativeTerm) in
    let output :=
      Math_max (_outputMin c) (Math_min (_outputMax c) preOutput) in
    let integralTerm :=
      add (_integralTerm c) (add integralIncrement (sub output preOutput)) in
    let integralTerm :=
      Math_max (_outputMin c) (Math_min (_outputMax c) integralTerm) in
    (output,
     mk (_Kp c) (_Ki c) (_Kd c) proportionalTerm integralTerm derivativeTerm
        error processVariable (_outputMin c) (_outputMax c) (_alpha c)).

Definition reset (c : PIDController) : PIDController :=
  mk (_Kp c) (_Ki c) (_Kd c) (_proportionalTerm c) zero zero zero zero
     (_outputMin c) (_outputMax c) (_alpha c).

End BasicPID.

(** ** The mechanical plant (plant-models.js) *)

Module Mechanical.

Record PlantState := mkState {
  position : number;
  velocity : number
}.

Record SensorNoise := mkNoise {
  noise_enabled : bool;
  noise_amplitude : number
}.

(** One entry of the transport-delay buffer: [{ value, time }]. *)
Record Sample := mkSample {
  sample_value : number;
  sample_time : number
}.

Record SystemDelay := mkDelay {
  delay_enabled : bool;
  delay_time : number;
  delay_buffer : list Sample
}.

Record MechanicalSystem := mk {
  _inertia : number;
  _friction : number;
  _load : number;
  state : PlantState;
  _disturbance : number;
  sensorNoise : SensorNoise;
  systemDelay : SystemDelay;
  simulationTime : number
}.

Record Params := mkParams {
  inertia : number;
  friction : number;
  load : number;
  noiseEnabled : option bool;
  noiseAmplitude : option number;
  delayEnabled : option bool;
  delayTime : option number;
  autoEquilibrium : option bool;
  initialPosition : option number
}.

(** The object returned by [update]: [{ ...state, measuredPosition }]. *)
Record Snapshot := mkSnapshot {
  snap_position : number;
  snap_velocity : number;
  measuredPosition : number
}.

Definition or_bool (x : option bool) (d : bool) : bool :=
  match x with Some true => true | _ => d end.

Definition or_number (x : option number) (d : number) : number :=
  match x with
  | Some v => if truthy v then v else d
  | None => d
  end.

Definition nullish (x : option number) (d : number) : number :=
  match x with Some v => v | None => d end.

Definition constructor (params : Params) : MechanicalSystem :=
  mk (inertia params) (friction params) (load params)
     (mkState
        (if or_bool (autoEquilibrium params) false
         then nullish (initialPosition params) zero
         else or_number (initialPosition params) zero)
        zero)
     zero
     (mkNoise (or_bool (noiseEnabled params) false)
              (or_number (noiseAmplitude params) (ratio 5 10)))
     (mkDelay (or_bool (delayEnabled params) false)
              (or_number (delayTime params) (ratio 1 10))
              [])
     zero.

Definition set_buffer (b : list Sample) (p : MechanicalSystem) :=
  mk (_inertia p) (_friction p) (_load p) (state p) (_disturbance p)
     (sensorNoise p)
     (mkDelay (delay_enabled (systemDelay p)) (delay_time (systemDelay p)) b)
     (simulationTime p).

Definition set_state (s : PlantState) (p : MechanicalSystem) :=
  mk (_inertia p) (_friction p) (_load p) s (_disturbance p)
     (sensorNoise p) (systemDelay p) (simulationTime p).

Definition set_simulationTime (v : number) (p : MechanicalSystem) :=
  mk (_inertia p) (_friction p) (_load p) (state p) (_disturbance p)
     (sensorNoise p) (systemDelay p) v.

(** [_applyDelay]: pushes the input, drops the entries older than three
    delay times, and searches the buffer from its end for the newest
    entry not after [now - delay]. *)
Definition _applyDelay (input dt : number) (p : MechanicalSystem)
  : number * MechanicalSystem :=
  let pushed :=
    delay_buffer (systemDelay p) ++ [mkSample input (simulationTime p)] in
  let cutoffTime :=
    sub (simulationTime p) (mul (delay_time (systemDelay p)) (ofZ 3)) in
  let kept := filter (fun item => gtb (sample_time item) cutoffTime) pushed in
  let p := set_buffer kept p in
  let targetTime := sub (simulationTime p) (delay_time (systemDelay p)) in
  let output :=
    match find (fun item => leb (sample_time item) targetTime) (rev kept) with
    | Some item => sample_value item
    | None => input
    end in
  (output, p).

Section Noise.

(** [Math.sin] is taken as a parameter; [random] is the value drawn by
    [Math.random()] in the call. *)
Variable Math_sin : number -> number.

Definition _addSensorNoise (random cleanSignal : number)
  (p : MechanicalSystem) : number :=
  let sinusoidalNoise :=
    add (mul (Math_sin (mul (simulationTime p) (ofZ 8))) (ratio 4 10))
        (mul (Math_sin (mul (simulationTime p) (ratio 203 10)))
             (ratio 15 100)) in
  let randomNoise := mul (sub random (ratio 5 10)) (ratio 5 10) in
  let totalNoise :=
    mul (add sinusoidalNoise randomNoise) (noise_amplitude (sensorNoise p)) in
  add cleanSignal totalNoise.

Definition update (random controlOutput dt : number) (p : MechanicalSystem)
  : Snapshot * MechanicalSystem :=
  let p := set_simulationTime (add (simulationTime p) dt) p in
  let '(actualOutput, p) :=
    if delay_enabled (systemDelay p) then _applyDelay controlOutput dt p
    else (controlOutput, p) in
  let frictionForce := mul (neg (_friction p)) (velocity (state p)) in
  let loadForce := neg (_load p) in
  let netForce :=
    add (add (add actualOutput (_disturbance p)) frictionForce) loadForce in
  let acceleration := div netForce (_inertia p) in
  let velocity' := add (velocity (state p)) (mul acceleration dt) in
  let position' := add (position (state p)) (mul velocity' dt) in
  let p := set_state (mkState position' velocity') p in
  let measured :=
    if noise_enabled (sensorNoise p)
    then _addSensorNoise random (position (state p)) p
    else position (state p) in
  (mkSnapshot (position (state p)) (velocity (state p)) measured, p).

End Noise.

Definition enableNoise (amplitude : option number) (p : MechanicalSystem) :=
  mk (_inertia p) (_friction p) (_load p) (state p) (_disturbance p)
     (mkNoise true (nullish amplitude (ratio 5 10)))
     (systemDelay p) (simulationTime p).

Definition disableNoise (p : MechanicalSystem) :=
  mk (_inertia p) (_friction p) (_load p) (state p) (_disturbance p)
     (mkNoise false (noise_amplitude (sensorNoise p)))
     (systemDelay p) (simulationTime p).

Definition enableDelay (delayTime' : option number) (p : MechanicalSystem) :=
  mk (_inertia p) (_friction p) (_load p) (state p) (_disturbance p)
     (sensorNoise p)
     (mkDelay true (nullish delayTime' (ratio 1 10))
              (delay_buffer (systemDelay p)))
     (simulationTime p).

Definition disableDelay (p : MechanicalSystem) :=
  mk (_inertia p) (_friction p) (_load p) (state p) (_disturbance p)
     (sensorNoise p)
     (mkDelay false (delay_time (systemDelay p)) [])
     (simulationTime p).

Definition setDisturbance (value : number) (p : MechanicalSystem) :=
  mk (_inertia p) (_friction p) (_load p) (state p) value
     (sensorNoise p) (systemDelay p) (simulationTime p).

Definition reset (p : MechanicalSystem) : MechanicalSystem :=
  mk (_inertia p) (_friction p) (_load p)
     (mkState (position (state p)) zero)
     zero
     (sensorNoise p)
     (mkDelay (delay_enabled (systemDelay p)) (delay_time (systemDelay p)) [])
     zero.

(** A sequence of [update] calls, each with its draw of [Math.random()],
    its control output and its time step. *)
Definition steps (Math_sin : number -> number)
  (inputs : list (number * number * number)) (p : MechanicalSystem)
  : MechanicalSystem :=
  fold_left
    (fun p i => snd (update Math_sin (fst (fst i)) (snd (fst i)) (snd i) p))
    inputs p.

End Mechanical.

(** ** The industrial plants *)

Module Temperature.

Record PlantState := mkState {
  temperature : number;
  heatFlow : number
}.

Record Disturbances := mkDisturbances {
  ambientTempChange : number;
  doorOpening : bool;
  doorOpeningEffect : number
}.

Record TemperatureControlSystem := mk {
  thermalCapacity : number;
  thermalResistance : number;
  ambientTemp : number;
  maxHeatingPower : number;
  timeConstant : number;
  state : PlantState;
  disturbances : Disturbances;
  simulationTime : number
}.

Record Params := mkParams {
  p_thermalCapacity : option number;
  p_thermalResistance : option number;
  p_ambientTemp : option number;
  p_maxHeatingPower : option number
}.

Record Snapshot := mkSnapshot {
  processVariable : number;
  actualOutput : number;
  disturbanceEffect : number;
  thermalLoss : number
}.

Definition or_number (x : option number) (d : number) : number :=
  match x with
  | Some v => if truthy v then v else d
  | None => d
  end.

Definition constructor (params : Params) : TemperatureControlSystem :=
  let thermalCapacity := or_number (p_thermalCapacity params) (ofZ 500) in
  let thermalResistance :=
    or_number (p_thermalResistance params) (ratio 1 10) in
  let ambientTemp := or_number (p_ambientTemp params) (ofZ 25) in
  let maxHeatingPower := or_number (p_maxHeatingPower params) (ofZ 2000) in
  mk thermalCapacity thermalResistance ambientTemp maxHeatingPower
     (mul thermalCapacity thermalResistance)
     (mkState ambientTemp zero)
     (mkDisturbances zero false (neg (ofZ 50)))
     zero.

Definition update (heatingPower dt : number) (p : TemperatureControlSystem)
  : Snapshot * TemperatureControlSystem :=
  let simulationTime' := add (simulationTime p) dt in
  let actualPower :=
    Math_max zero (Math_min (maxHeatingPower p) heatingPower) in
  let currentAmbient :=
    add (ambientTemp p) (ambientTempChange (disturbances p)) in
  let thermalLoss :=
    div (sub (temperature (state p)) currentAmbient) (thermalResistance p) in
  let doorEffect :=
    if doorOpening (disturbances p)
    then doorOpeningEffect (disturbances p) else zero in
  let netHeatFlow := add (sub actualPower thermalLoss) doorEffect in
  let tempChange := div netHeatFlow (thermalCapacity p) in
  let temperature' := add (temperature (state p)) (mul tempChange dt) in
  (mkSnapshot temperature' actualPower doorEffect thermalLoss,
   mk (thermalCapacity p) (thermalResistance p) (ambientTemp p)
      (maxHeatingPower p) (timeConstant p)
      (mkState temperature' netHeatFlow)
      (disturbances p) simulationTime').

(** [setDisturbance('ambient', value)] and [setDisturbance('door', value)];
    any other type is ignored. *)
Definition setAmbientDisturbance (value : number)
  (p : TemperatureControlSystem) :=
  mk (thermalCapacity p) (thermalResistance p) (ambientTemp p)
     (maxHeatingPower p) (timeConstant p) (state p)
     (mkDisturbances value (doorOpening (disturbances p))
        (doorOpeningEffect (disturbances p)))
     (simulationTime p).

Definition setDoorDisturbance (value : bool)
  (p : TemperatureControlSystem) :=
  mk (thermalCapacity p) (thermalResistance p) (ambientTemp p)
     (maxHeatingPower p) (timeConstant p) (state p)
     (mkDisturbances (ambientTempChange (disturbances p)) value
        (doorOpeningEffect (disturbances p)))
     (simulationTime p).

Definition reset (p : TemperatureControlSystem) : TemperatureControlSystem :=
  mk (thermalCapacity p) (thermalResistance p) (ambientTemp p)
     (maxHeatingPower p) (timeConstant p)
     (mkState (ambientTemp p) zero)
     (mkDisturbances zero false (doorOpeningEffect (disturbances p)))
     zero.

(** The operations that drive a plant between construction and reset. *)
Inductive Operation :=
| OpUpdate (heatingPower dt : number)
| OpAmbient (value : number)
| OpDoor (value : bool).

Definition operate (op : Operation) (p : TemperatureControlSystem) :=
  match op with
  | OpUpdate u dt => snd (update u dt p)
  | OpAmbient v => setAmbientDisturbance v p
  | OpDoor b => setDoorDisturbance b p
  end.

Definition run (ops : list Operation) (p : TemperatureControlSystem) :=
  fold_left (fun p op => operate op p) ops p.

End Temperature.

Module TankLevel.

Record PlantState := mkState {
  level : number;
  inletFlow : number;
  outletFlow : number
}.

Record Disturbances := mkDisturbances {
  inletFlowVariation : number;
  leakage : number
}.

Record TankLevelSystem := mk {
  tankArea : number;
  maxOutletFlow : number;
  outletCoefficient : number;
  maxLevel : number;
  state : PlantState;
  disturbances : Disturbances;
  simulationTime : number
}.

Record Params := mkParams {
  p_tankArea : option number;
  p_maxOutletFlow : option number;
  p_outletCoefficient : option number;
  p_maxLevel : option number
}.

Record Snapshot := mkSnapshot {
  processVariable : number;
  actualOutput : number;
  snap_inletFlow : number;
  snap_outletFlow : number;
  netFlow : number
}.

Definition or_number (x : option number) (d : number) : number :=
  match x with
  | Some v => if truthy v then v else d
  | None => d
  end.

Definition constructor (params : Params) : TankLevelSystem :=
  mk (or_number (p_tankArea params) (ofZ 2))
     (or_number (p_maxOutletFlow params) (ratio 5 100))
     (or_number (p_outletCoefficient params) (ratio 1 10))
     (or_number (p_maxLevel params) (ofZ 5))
     (mkState one (ratio 2 100) zero)
     (mkDisturbances zero zero)
     zero.

Definition update (valveOpening dt : number) (p : TankLevelSystem)
  : Snapshot * TankLevelSystem :=
  let simulationTime' := add (simulationTime p) dt in
  let actualValveOpening :=
    div (Math_max zero (Math_min (ofZ 100) valveOpening)) (ofZ 100) in
  let pressureHead := Math_max zero (level (state p)) in
  let outletFlow' :=
    mul (mul actualValveOpening (maxOutletFlow p)) (sqrt pressureHead) in
  let actualInletFlow :=
    add (inletFlow (state p)) (inletFlowVariation (disturbances p)) in
  let leakageFlow := leakage (disturbances p) in
  let netFlow := sub (sub actualInletFlow outletFlow') leakageFlow in
  let levelChange := div netFlow (tankArea p) in
  let level' := add (level (state p)) (mul levelChange dt) in
  let level' := Math_max zero (Math_min (maxLevel p) level') in
  (mkSnapshot level' (mul actualValveOpening (ofZ 100)) actualInletFlow
     outletFlow' netFlow,
   mk (tankArea p) (maxOutletFlow p) (outletCoefficient p) (maxLevel p)
      (mkState level' (inletFlow (state p)) outletFlow')
      (disturbances p) simulationTime').

Definition setDisturbance (type : string) (value : number)
  (p : TankLevelSystem) : TankLevelSystem :=
  let d := disturbances p in
  let d' :=
    if String.eqb type "inlet" then mkDisturbances value (leakage d)
    else if String.eqb type "leak"
         then mkDisturbances (inletFlowVariation d) value
         else d in
  mk (tankArea p) (maxOutletFlow p) (outletCoefficient p) (maxLevel p)
     (state p) d' (simulationTime p).

Definition reset (p : TankLevelSystem) : TankLevelSystem :=
  mk (tankArea p) (maxOutletFlow p) (outletCoefficient p) (maxLevel p)
     (mkState one (inletFlow (state p)) zero)
     (mkDisturbances zero zero)
     zero.

(** The operations that drive a plant between construction and reset. *)
Inductive Operation :=
| OpUpdate (input dt : number)
| OpSetDisturbance (type : string) (value : number).

Definition operate (op : Operation) (p : TankLevelSystem) :=
  match op with
  | OpUpdate u dt => snd (update u dt p)
  | OpSetDisturbance type v => setDisturbance type v p
  end.

Definition run (ops : list Operation) (p : TankLevelSystem) :=
  fold_left (fun p op => operate op p) ops p.

End TankLevel.

Module MotorSpeed.

Record PlantState := mkState {
  angularVelocity : number;
  rpm : number;
  torque : number
}.

Record Disturbances := mkDisturbances {
  loadTorque : number;
  frictionVariation : number
}.

Record MotorSpeedSystem := mk {
  inertia : number;
  friction : number;
  torqueConstant : number;
  maxCurrent : number;
  gearRatio : number;
  state : PlantState;
  disturbances : Disturbances;
  simulationTime : number
}.

Record Params := mkParams {
  p_inertia : option number;
  p_friction : option number;
  p_torqueConstant : option number;
  p_maxCurrent : option number;
  p_gearRatio : option number
}.

Record Snapshot := mkSnapshot {
  processVariable : number;
  actualOutput : number;
  motorTorque : number;
  frictionTorque : number;
  snap_loadTorque : number
}.

Definition or_number (x : option number) (d : number) : number :=
  match x with
  | Some v => if truthy v then v else d
  | None => d
  end.

(** [Math.PI], the binary64 value nearest to pi. *)
Definition Math_PI : number := S754_finite false 7074237752028440 (-51).

Definition constructor (params : Params) : MotorSpeedSystem :=
  mk (or_number (p_inertia params) (ratio 1 100))
     (or_number (p_friction params) (ratio 1 10))
     (or_number (p_torqueConstant params) (ratio 5 10))
     (or_number (p_maxCurrent params) (ofZ 10))
     (or_number (p_gearRatio params) (ofZ 10))
     (mkState zero zero zero)
     (mkDisturbances zero one)
     zero.

Definition update (currentCommand dt : number) (p : MotorSpeedSystem)
  : Snapshot * MotorSpeedSystem :=
  let simulationTime' := add (simulationTime p) dt in
  let actualCurrent :=
    Math_max (neg (maxCurrent p)) (Math_min (maxCurrent p) currentCommand) in
  let motorTorque := mul (torqueConstant p) actualCurrent in
  let frictionTorque :=
    mul (mul (friction p) (frictionVariation (disturbances p)))
        (angularVelocity (state p)) in
  let loadTorque' := loadTorque (disturbances p) in
  let netTorque := sub (sub motorTorque frictionTorque) loadTorque' in
  let acceleration := div netTorque (inertia p) in
  let angularVelocity' :=
    add (angularVelocity (state p)) (mul acceleration dt) in
  let rpm' :=
    mul (div (mul angularVelocity' (ofZ 60)) (mul (ofZ 2) Math_PI))
        (gearRatio p) in
  (mkSnapshot rpm' actualCurrent motorTorque frictionTorque loadTorque',
   mk (inertia p) (friction p) (torqueConstant p) (maxCurrent p)
      (gearRatio p)
      (mkState angularVelocity' rpm' motorTorque)
      (disturbances p) simulationTime').

Definition setDisturbance (type : string) (value : number)
  (p : MotorSpeedSystem) : MotorSpeedSystem :=
  let d := disturbances p in
  let d' :=
    if String.eqb type "load" then mkDisturbances value (frictionVariation d)
    else if String.eqb type "friction"
         then mkDisturbances (loadTorque d) value
         else d in
  mk (inertia p) (friction p) (torqueConstant p) (maxCurrent p)
     (gearRatio p) (state p) d' (simulationTime p).

Definition reset (p : MotorSpeedSystem) : MotorSpeedSystem :=
  mk (inertia p) (friction p) (torqueConstant p) (maxCurrent p)
     (gearRatio p)
     (mkState zero zero zero)
     (mkDisturbances zero one)
     zero.

(** The operations that drive a plant between construction and reset. *)
Inductive Operation :=
| OpUpdate (input dt : number)
| OpSetDisturbance (type : string) (value : number).

Definition operate (op : Operation) (p : MotorSpeedSystem) :=
  match op with
  | OpUpdate u dt => snd (update u dt p)
  | OpSetDisturbance type v => setDisturbance type v p
  end.

Definition run (ops : list Operation) (p : MotorSpeedSystem) :=
  fold_left (fun p op => operate op p) ops p.

End MotorSpeed.

Module Pressure.

Record PlantState := mkState {
  pressure : number;
  mass : number
}.

Record Disturbances := mkDisturbances {
  outletFlowVariation : number;
  leakage : number;
  temperatureChange : number
}.

Record PressureControlSystem := mk {
  volume : number;
  gasConstant : number;
  temperature : number;
  atmosphericPressure : number;
  maxInletFlow : number;
  outletCoefficient : number;
  state : PlantState;
  disturbances : Disturbances;
  simulationTime : number
}.

Record Params := mkParams {
  p_volume : option number;
  p_temperature : option number;
  p_maxInletFlow : option number;
  p_outletCoefficient : option number
}.

Record Snapshot := mkSnapshot {
  processVariable : number;
  actualOutput : number;
  inletFlow : number;
  outletFlow : number;
  netFlow : number
}.

Definition or_number (x : option number) (d : number) : number :=
  match x with
  | Some v => if truthy v then v else d
  | None => d
  end.

Definition constructor (params : Params) : PressureControlSystem :=
  let volume := or_number (p_volume params) (ratio 1 10) in
  let gasConstant := ofZ 287 in
  let temperature := or_number (p_temperature params) (ofZ 293) in
  let atmosphericPressure := ofZ 101325 in
  let pressure := add atmosphericPressure (ofZ 50000) in
  mk volume gasConstant temperature atmosphericPressure
     (or_number (p_maxInletFlow params) (ratio 1 100))
     (or_number (p_outletCoefficient params) (ratio 1 10000))
     (mkState pressure
        (div (mul pressure volume) (mul gasConstant temperature)))
     (mkDisturbances one zero zero)
     zero.

Definition update (valveOpening dt : number) (p : PressureControlSystem)
  : Snapshot * PressureControlSystem :=
  let simulationTime' := add (simulationTime p) dt in
  let actualValveOpening :=
    div (Math_max zero (Math_min (ofZ 100) valveOpening)) (ofZ 100) in
  let inletMassFlow := mul actualValveOpening (maxInletFlow p) in
  let pressureDiff :=
    Math_max zero (sub (pressure (state p)) (atmosphericPressure p)) in
  let outletMassFlow :=
    mul (mul (outletCoefficient p) (outletFlowVariation (disturbances p)))
        (sqrt pressureDiff) in
  let leakageMassFlow := leakage (disturbances p) in
  let netMassFlow :=
    sub (sub inletMassFlow outletMassFlow) leakageMassFlow in
  let mass' := add (mass (state p)) (mul netMassFlow dt) in
  let mass' := Math_max (ratio 1 1000) mass' in
  let currentTemp :=
    add (temperature p) (temperatureChange (disturbances p)) in
  let pressure' :=
    div (mul (mul mass' (gasConstant p)) currentTemp) (volume p) in
  (mkSnapshot (div (sub pressure' (atmosphericPressure p)) (ofZ 1000))
     (mul actualValveOpening (ofZ 100)) inletMassFlow outletMassFlow
     netMassFlow,
   mk (volume p) (gasConstant p) (temperature p) (atmosphericPressure p)
      (maxInletFlow p) (outletCoefficient p)
      (mkState pressure' mass')
      (disturbances p) simulationTime').

Definition setDisturbance (type : string) (value : number)
  (p : PressureControlSystem) : PressureControlSystem :=
  let d := disturbances p in
  let d' :=
    if String.eqb type "outlet"
    then mkDisturbances value (leakage d) (temperatureChange d)
    else if String.eqb type "leak"
    then mkDisturbances (outletFlowVariation d) value (temperatureChange d)
    else if String.eqb type "temperature"
    then mkDisturbances (outletFlowVariation d) (leakage d) value
    else d in
  mk (volume p) (gasConstant p) (temperature p) (atmosphericPressure p)
     (maxInletFlow p) (outletCoefficient p) (state p) d' (simulationTime p).

Definition reset (p : PressureControlSystem) : PressureControlSystem :=
  let pressure := add (atmosphericPressure p) (ofZ 50000) in
  mk (volume p) (gasConstant p) (temperature p) (atmosphericPressure p)
     (maxInletFlow p) (outletCoefficient p)
     (mkState pressure
        (div (mul pressure (volume p))
             (mul (gasConstant p) (temperature p))))
     (mkDisturbances one zero zero)
     zero.

(** The operations that drive a plant between construction and reset. *)
Inductive Operation :=
| OpUpdate (input dt : number)
| OpSetDisturbance (type : string) (value : number).

Definition operate (op : Operation) (p : PressureControlSystem) :=
  match op with
  | OpUpdate u dt => snd (update u dt p)
  | OpSetDisturbance type v => setDisturbance type v p
  end.

Definition run (ops : list Operation) (p : PressureControlSystem) :=
  fold_left (fun p op => operate op p) ops p.

End Pressure.

(** ** The auto-tune logic of the application (SimulationApp) *)

Module App.

Import AdvancedPID.

(** A recorded peak: [{ value, time }]. *)
Record Peak := mkPeak {
  value : number;
  time : number
}.

Record AutoTune := mkAutoTune {
  initialKp : number;
  kpStep : number;
  lastPeak : Peak;
  lastTrough : Peak;
  peaks : list Peak;
  oscillationPeriod : number;
  ultimateGain : number
}.

(** A gain slider of the page ([<input type=range>]).  The element holds
    a string; [slider_value] is the number that string denotes, which is
    what the controller's products and quotients read once the listener
    has handed the string to [setGains].  Assigning to [value] runs the
    element's value sanitization against the [min], [max] and [step] of
    the page's markup, which is not among the sources: [accepts v] is the
    number the element holds after [value = v]. *)
Record Slider := mkSlider {
  accepts : number -> number;
  slider_value : number
}.

(** [slider.value = v] *)
Definition assign (v : number) (s : Slider) : Slider :=
  mkSlider (accepts s) (accepts s v).

(** The three gain sliders of [this.ui]. *)
Record Ui := mkUi {
  kpSlider : Slider;
  kiSlider : Slider;
  kdSlider : Slider
}.

(** The part of the application state that the auto-tune logic reads and
    writes.  [history] is the process-variable series of the chart
    ([chart.data.datasets[1].data]); [ui] holds the gain sliders.  The
    text labels and the tip line of the page, which nothing reads back,
    are left out. *)
Record SimulationApp := mk {
  isAutoTuning : bool;
  autoTune : AutoTune;
  pid : AdvancedPIDController;
  setpoint : number;
  history : list number;
  kpIncreasedThisSecond : bool;
  ui : Ui
}.

Definition initialAutoTune : AutoTune :=
  mkAutoTune (ratio 5 10) (ratio 2 10)
    (mkPeak negInfinity zero) (mkPeak Infinity zero) [] zero zero.

(** [Math.floor] of a number as an integer; there is none for NaN and
    the infinities. *)
Definition floorZ (x : number) : option Z :=
  match x with
  | S754_zero _ => Some 0
  | S754_finite s m e =>
      let v := if s then Z.neg m else Z.pos m in
      Some (if 0 <=? e then v * 2 ^ e else Z.shiftr v (- e))
  | _ => None
  end.

(** [Math.floor(t) % 5 === 0]: false when the remainder is NaN. *)
Definition floor_mod5_is_zero (t : number) : bool :=
  match floorZ t with
  | Some z => Z.rem z 5 =? 0
  | None => false
  end.

(** [Math.floor(t) > 0] *)
Definition floor_positive (t : number) : bool :=
  match floorZ t with
  | Some z => 0 <? z
  | None => gtb t zero
  end.

Definition set_autoTune (a : AutoTune) (app : SimulationApp) :=
  mk (isAutoTuning app) a (pid app) (setpoint app) (history app)
     (kpIncreasedThisSecond app) (ui app).
Definition set_pid (c : AdvancedPIDController) (app : SimulationApp) :=
  mk (isAutoTuning app) (autoTune app) c (setpoint app) (history app)
     (kpIncreasedThisSecond app) (ui app).
Definition set_isAutoTuning (b : bool) (app : SimulationApp) :=
  mk b (autoTune app) (pid app) (setpoint app) (history app)
     (kpIncreasedThisSecond app) (ui app).
Definition set_kpIncreasedThisSecond (b : bool) (app : SimulationApp) :=
  mk (isAutoTuning app) (autoTune app) (pid app) (setpoint app)
     (history app) b (ui app).
Definition set_ui (u : Ui) (app : SimulationApp) :=
  mk (isAutoTuning app) (autoTune app) (pid app) (setpoint app)
     (history app) (kpIncreasedThisSecond app) u.
Definition set_kpSlider (s : Slider) (u : Ui) :=
  mkUi s (kiSlider u) (kdSlider u).
Definition set_kiSlider (s : Slider) (u : Ui) :=
  mkUi (kpSlider u) s (kdSlider u).
Definition set_kdSlider (s : Slider) (u : Ui) :=
  mkUi (kpSlider u) (kiSlider u) s.

(** The listener [updateFromSliders] of [setupControlListeners],
    registered for the 'input' event of each of the three sliders: it
    hands the values the sliders hold to [pid.setGains].  The source
    passes the elements' strings; the gains of the model are the numbers
    they denote. *)
Definition updateFromSliders (app : SimulationApp) : SimulationApp :=
  set_pid (setGains (slider_value (kpSlider (ui app)))
                    (slider_value (kiSlider (ui app)))
                    (slider_value (kdSlider (ui app)))
                    (pid app)) app.

(** [slider.dispatchEvent(new Event('input'))]: runs the listeners of
    the slider, synchronously; each slider has the one above. *)
Definition dispatchInput (app : SimulationApp) : SimulationApp :=
  updateFromSliders app.

(** [finishAutoTune]: leaves the search; with [Ku <= 0] or [Tu <= 0] it
    reports the failure and applies nothing.  Otherwise it hands the
    Ziegler-Nichols gains to the controller, writes them to the three
    sliders and dispatches an 'input' event on each slider, so that the
    listener hands the values the sliders hold to the controller
    again. *)
Definition finishAutoTune (app : SimulationApp) : SimulationApp :=
  let app := set_isAutoTuning false app in
  let Ku := ultimateGain (autoTune app) in
  let Tu := oscillationPeriod (autoTune app) in
  if leb Ku zero || leb Tu zero then app
  else
    let Kp := mul (ratio 6 10) Ku in
    let Ki := div (mul (ratio 12 10) Ku) Tu in
    let Kd := div (mul (mul (ratio 6 10) Ku) Tu) (ofZ 8) in
    let app := set_pid (setGains Kp Ki Kd (pid app)) app in
    let app := set_ui (set_kpSlider (assign Kp (kpSlider (ui app))) (ui app)) app in
    let app := set_ui (set_kiSlider (assign Ki (kiSlider (ui app))) (ui app)) app in
    let app := set_ui (set_kdSlider (assign Kd (kdSlider (ui app))) (ui app)) app in
    let app := dispatchInput app in
    let app := dispatchInput app in
    dispatchInput app.

(** [startAutoTune]: clears the recorded peaks, resets the simulation
    (controller and chart series) and starts the search from
    [{Kp = initialKp, Ki = 0, Kd = 0}], which it also writes to the
    sliders; no event is dispatched here. *)
Definition startAutoTune (app : SimulationApp) : SimulationApp :=
  if isAutoTuning app then app
  else
    let a := autoTune app in
    mk true
       (mkAutoTune (initialKp a) (kpStep a) (mkPeak negInfinity zero)
          (mkPeak Infinity zero) [] (oscillationPeriod a) (ultimateGain a))
       (setGains (initialKp a) zero zero (reset (pid app)))
       (setpoint app) [] (kpIncreasedThisSecond app)
       (mkUi (assign (initialKp a) (kpSlider (ui app)))
             (assign zero (kiSlider (ui app)))
             (assign zero (kdSlider (ui app)))).

(** The slow increase of Kp while no stable oscillation is found; the
    new gain is also written to the Kp slider, without an event. *)
Definition increaseKp (currentTime : number) (app : SimulationApp)
  : SimulationApp :=
  if floor_mod5_is_zero currentTime && floor_positive currentTime
     && negb (kpIncreasedThisSecond app)
  then
    let newKp := add (_Kp (pid app)) (kpStep (autoTune app)) in
    let app := set_pid (setGains newKp zero zero (pid app)) app in
    let app := set_ui (set_kpSlider (assign newKp (kpSlider (ui app)))
                         (ui app)) app in
    set_kpIncreasedThisSecond true app
  else if negb (floor_mod5_is_zero currentTime)
  then set_kpIncreasedThisSecond false app
  else app.

Definition runAutoTuneLogic (pv currentTime : number) (app : SimulationApp)
  : SimulationApp :=
  let history := history app in
  let n := List.length history in
  if Nat.ltb n 3 then app
  else
    let prevPv := nth (n - 2) history NaN in
    if ltb pv prevPv && gtb prevPv (nth (n - 3) history NaN) then
      if gtb prevPv (value (lastPeak (autoTune app))) then
        let a := autoTune app in
        let newPeak := mkPeak prevPv currentTime in
        let a := mkAutoTune (initialKp a) (kpStep a) newPeak (lastTrough a)
                   (peaks a ++ [newPeak]) (oscillationPeriod a)
                   (ultimateGain a) in
        if Nat.ltb 4 (List.length (peaks a)) then
          (* keep the last four peaks only *)
          let a := mkAutoTune (initialKp a) (kpStep a) (lastPeak a)
                     (lastTrough a) (tl (peaks a)) (oscillationPeriod a)
                     (ultimateGain a) in
          let firstPeak := nth 0 (peaks a) (mkPeak NaN NaN) in
          let lastPeak' := nth 3 (peaks a) (mkPeak NaN NaN) in
          if ltb (abs (sub (value lastPeak') (value firstPeak)))
                 (mul (setpoint app) (ratio 5 100))
          then
            let a := mkAutoTune (initialKp a) (kpStep a) (lastPeak a)
                       (lastTrough a) (peaks a)
                       (div (sub (time lastPeak') (time firstPeak))
                            (ofZ (Z.of_nat (List.length (peaks a) - 1))))
                       (_Kp (pid app)) in
            finishAutoTune (set_autoTune a app)
          else increaseKp currentTime (set_autoTune a app)
        else increaseKp currentTime (set_autoTune a app)
      else increaseKp currentTime app
    else increaseKp currentTime app.

(** Adjacent recorded peaks rise strictly in value. *)
Fixpoint rising (ps : list Peak) : bool :=
  match ps with
  | a :: (b :: _) as rest => ltb (value a) (value b) && rising rest
  | _ => true
  end.

End App.

(** ** The performance analyzer (performance-analyzer.js) *)

Module Analyzer.

Record Data := mkData {
  time : list number;
  setpoint : list number;
  processVariable : list number;
  controlOutput : list number;
  error : list number
}.

(** The metrics; [settlingTime], [riseTime] and [peakTime] are [null]
    until a step response gives them a value. *)
Record Metrics := mkMetrics {
  iae : number;
  ise : number;
  itae : number;
  itse : number;
  overshoot : number;
  undershoot : number;
  settlingTime : option number;
  riseTime : option number;
  peakTime : option number;
  steadyStateError : number;
  steadyStateValue : number;
  controlEffort : number;
  controlVariability : number;
  performanceIndex : number;
  stabilityMargin : number;
  robustness : number
}.

Record PerformanceAnalyzer := mk {
  data : Data;
  metrics : Metrics;
  analysisWindow : nat;
  settlingBand : number;
  isStepResponse : bool;
  stepStartTime : option number;
  stepStartValue : option number;
  stepEndValue : option number
}.

(** One sample of the step response: [{ time, pv, setpoint, output }]. *)
Record Point := mkPoint {
  pt_time : number;
  pt_pv : number;
  pt_setpoint : number;
  pt_output : number
}.

Definition constructor : PerformanceAnalyzer :=
  mk (mkData [] [] [] [] [])
     (mkMetrics zero zero zero zero zero zero None None None
        zero zero zero zero zero zero zero)
     200 (ratio 2 100) false None None None.

(** [null] in arithmetic is [0]. *)
Definition toNumber (x : option number) : number :=
  match x with Some v => v | None => zero end.

(** Truthiness of a value that is a number or [null]. *)
Definition truthy_opt (x : option number) : bool :=
  match x with Some v => truthy v | None => false end.

Definition isNull (x : option number) : bool :=
  match x with Some _ => false | None => true end.

(** [a[a.length - k]] and [a.slice(-n)]. *)
Definition fromEnd (k : nat) (l : list number) : number :=
  nth (List.length l - k) l NaN.

Definition slice_last (n : nat) (l : list number) : list number :=
  if Nat.eqb n 0 then l else skipn (List.length l - n) l.

(** [a.reduce((sum, x) => sum + x, 0)] *)
Definition sum (l : list number) : number :=
  fold_left (fun sum x => add sum x) l zero.

Definition set_data (d : Data) (a : PerformanceAnalyzer) :=
  mk d (metrics a) (analysisWindow a) (settlingBand a) (isStepResponse a)
     (stepStartTime a) (stepStartValue a) (stepEndValue a).

Definition set_metrics (m : Metrics) (a : PerformanceAnalyzer) :=
  mk (data a) m (analysisWindow a) (settlingBand a) (isStepResponse a)
     (stepStartTime a) (stepStartValue a) (stepEndValue a).

Definition detectStepChange (currentSetpoint currentTime : number)
  (a : PerformanceAnalyzer) : PerformanceAnalyzer :=
  if Nat.ltb (List.length (setpoint (data a))) 2 then a
  else
    let previousSetpoint := fromEnd 2 (setpoint (data a)) in
    let setpointChange := abs (sub currentSetpoint previousSetpoint) in
    if gtb setpointChange (ratio 1 10) then
      let m := metrics a in
      mk (data a)
         (mkMetrics (iae m) (ise m) (itae m) (itse m) zero zero
            None None None
            (steadyStateError m) (steadyStateValue m) (controlEffort m)
            (controlVariability m) (performanceIndex m) (stabilityMargin m)
            (robustness m))
         (analysisWindow a) (settlingBand a) true
         (Some currentTime)
         (Some (fromEnd 1 (processVariable (data a))))
         (Some currentSetpoint)
    else a.

Definition updateContinuousMetrics (currentTime : number)
  (a : PerformanceAnalyzer) : PerformanceAnalyzer :=
  let d := data a in
  if Nat.eqb (List.length (error d)) 0 then a
  else
    let dt :=
      if Nat.ltb 1 (List.length (time d))
      then sub (fromEnd 1 (time d)) (fromEnd 2 (time d))
      else ratio 4 100 in
    let currentError := fromEnd 1 (error d) in
    let currentOutput := fromEnd 1 (controlOutput d) in
    let m := metrics a in
    let iae' := add (iae m) (mul (abs currentError) dt) in
    let ise' := add (ise m) (mul (mul currentError currentError) dt) in
    let itae' := add (itae m) (mul (mul currentTime (abs currentError)) dt) in
    let itse' :=
      add (itse m)
          (mul (mul (mul currentTime currentError) currentError) dt) in
    let controlEffort' :=
      add (controlEffort m) (mul (abs currentOutput) dt) in
    let controlVariability' :=
      if Nat.ltb 1 (List.length (controlOutput d))
      then add (controlVariability m)
               (abs (sub currentOutput (fromEnd 2 (controlOutput d))))
      else controlVariability m in
    let window := Nat.leb (analysisWindow a) (List.length (error d)) in
    let recentErrors := slice_last (analysisWindow a) (error d) in
    let recentPVs := slice_last (analysisWindow a) (processVariable d) in
    let steadyStateError' :=
      if window
      then div (sum recentErrors)
               (ofZ (Z.of_nat (List.length recentErrors)))
      else steadyStateError m in
    let steadyStateValue' :=
      if window
      then div (sum recentPVs) (ofZ (Z.of_nat (List.length recentPVs)))
      else steadyStateValue m in
    set_metrics
      (mkMetrics iae' ise' itae' itse' (overshoot m) (undershoot m)
         (settlingTime m) (riseTime m) (peakTime m)
         steadyStateError' steadyStateValue' controlEffort'
         controlVariability' (performanceIndex m) (stabilityMargin m)
         (robustness m)) a.

Definition getStepResponseData (a : PerformanceAnalyzer) : list Point :=
  match stepStartTime a with
  | None => []
  | Some start =>
      if negb (isStepResponse a) then []
      else
        let d := data a in
        map (fun i =>
               mkPoint (nth i (time d) NaN) (nth i (processVariable d) NaN)
                       (nth i (setpoint d) NaN) (nth i (controlOutput d) NaN))
            (filter (fun i => geb (nth i (time d) NaN) start)
                    (seq 0 (List.length (time d))))
  end.

(** The extremes of the step response and the times they are reached:
    [(maxValue, maxTime, minValue, minTime)]. *)
Definition extremes (stepData : list Point)
  : number * option number * number * option number :=
  fold_left
    (fun acc point =>
       let '(maxValue, maxTime, minValue, minTime) := acc in
       let '(maxValue, maxTime) :=
         if gtb (pt_pv point) maxValue
         then (pt_pv point, Some (pt_time point))
         else (maxValue, maxTime) in
       let '(minValue, minTime) :=
         if ltb (pt_pv point) minValue
         then (pt_pv point, Some (pt_time point))
         else (minValue, minTime) in
       (maxValue, maxTime, minValue, minTime))
    stepData (negInfinity, None, Infinity, None).

(** The loop of [calculateRiseTime]: the first crossings of the 10% and
    90% targets; it stops at the 90% crossing. *)
Fixpoint riseLoop (start stepSize target10 target90 : number)
  (stepData : list Point) (time10 time90 : option number)
  : option number * option number :=
  match stepData with
  | [] => (time10, time90)
  | point :: rest =>
      let crosses target :=
        (gtb stepSize zero && geb (pt_pv point) target)
        || (ltb stepSize zero && leb (pt_pv point) target) in
      let time10 :=
        if isNull time10 && crosses target10
        then Some (sub (pt_time point) start) else time10 in
      if isNull time90 && crosses target90
      then (time10, Some (sub (pt_time point) start))
      else riseLoop start stepSize target10 target90 rest time10 time90
  end.

Definition set_riseTime (v : option number) (m : Metrics) : Metrics :=
  mkMetrics (iae m) (ise m) (itae m) (itse m) (overshoot m) (undershoot m)
    (settlingTime m) v (peakTime m) (steadyStateError m)
    (steadyStateValue m) (controlEffort m) (controlVariability m)
    (performanceIndex m) (stabilityMargin m) (robustness m).

Definition set_settlingTime (v : option number) (m : Metrics) : Metrics :=
  mkMetrics (iae m) (ise m) (itae m) (itse m) (overshoot m) (undershoot m)
    v (riseTime m) (peakTime m) (steadyStateError m)
    (steadyStateValue m) (controlEffort m) (controlVariability m)
    (performanceIndex m) (stabilityMargin m) (robustness m).

Definition calculateRiseTime (stepData : list Point) (stepSize : number)
  (a : PerformanceAnalyzer) : PerformanceAnalyzer :=
  let target10 :=
    add (toNumber (stepStartValue a)) (mul (ratio 1 10) stepSize) in
  let target90 :=
    add (toNumber (stepStartValue a)) (mul (ratio 9 10) stepSize) in
  match riseLoop (toNumber (stepStartTime a)) stepSize target10 target90
          stepData None None with
  | (Some time10, Some time90) =>
      set_metrics (set_riseTime (Some (sub time90 time10)) (metrics a)) a
  | _ => a
  end.

(** A point outside the settling band. *)
Definition outsideBand (upperBound lowerBound : number) (point : Point)
  : bool :=
  gtb (pt_pv point) upperBound || ltb (pt_pv point) lowerBound.

Definition calculateSettlingTime (stepData : list Point)
  (a : PerformanceAnalyzer) : PerformanceAnalyzer :=
  let settlingBand' := mul (toNumber (stepEndValue a)) (settlingBand a) in
  let upperBound := add (toNumber (stepEndValue a)) settlingBand' in
  let lowerBound := sub (toNumber (stepEndValue a)) settlingBand' in
  let lastExcursion :=
    match find (outsideBand upperBound lowerBound) (rev stepData) with
    | Some point => Some (sub (pt_time point) (toNumber (stepStartTime a)))
    | None => None
    end in
  set_metrics (set_settlingTime lastExcursion (metrics a)) a.

Definition updateStepResponseMetrics (a : PerformanceAnalyzer)
  : PerformanceAnalyzer :=
  if negb (isStepResponse a) || isNull (stepStartTime a) then a
  else
    let stepData := getStepResponseData a in
    if Nat.ltb (List.length stepData) 10 then a
    else
      let stepSize :=
        sub (toNumber (stepEndValue a)) (toNumber (stepStartValue a)) in
      if ltb (abs stepSize) (ratio 1 10) then a
      else
        let '(maxValue, maxTime, minValue, minTime) := extremes stepData in
        let m := metrics a in
        let m :=
          if gtb stepSize zero then
            mkMetrics (iae m) (ise m) (itae m) (itse m)
              (Math_max zero
                 (mul (div (sub maxValue (toNumber (stepEndValue a)))
                           stepSize) (ofZ 100)))
              (undershoot m) (settlingTime m) (riseTime m)
              (Some (sub (toNumber maxTime) (toNumber (stepStartTime a))))
              (steadyStateError m) (steadyStateValue m) (controlEffort m)
              (controlVariability m) (performanceIndex m)
              (stabilityMargin m) (robustness m)
          else
            mkMetrics (iae m) (ise m) (itae m) (itse m) (overshoot m)
              (Math_max zero
                 (mul (div (sub (toNumber (stepEndValue a)) minValue)
                           (abs stepSize)) (ofZ 100)))
              (settlingTime m) (riseTime m)
              (Some (sub (toNumber minTime) (toNumber (stepStartTime a))))
              (steadyStateError m) (steadyStateValue m) (controlEffort m)
              (controlVariability m) (performanceIndex m)
              (stabilityMargin m) (robustness m) in
        let a := set_metrics m a in
        let a := calculateRiseTime stepData stepSize a in
        calculateSettlingTime stepData a.

(** The score before it is limited to 0..100. *)
Definition score (m : Metrics) : number :=
  let score := ofZ 100 in
  let score :=
    if gtb (overshoot m) (ofZ 20)
    then sub score (mul (sub (overshoot m) (ofZ 20)) (ofZ 2))
    else score in
  let score := sub score (mul (abs (steadyStateError m)) (ofZ 10)) in
  let score :=
    if truthy_opt (settlingTime m)
       && gtb (toNumber (settlingTime m)) (ofZ 10)
    then sub score (mul (sub (toNumber (settlingTime m)) (ofZ 10)) (ofZ 2))
    else score in
  if gtb (controlVariability m) (ofZ 50)
  then sub score (mul (sub (controlVariability m) (ofZ 50)) (ratio 5 10))
  else score.

Definition calculatePerformanceIndex (a : PerformanceAnalyzer)
  : PerformanceAnalyzer :=
  let m := metrics a in
  set_metrics
    (mkMetrics (iae m) (ise m) (itae m) (itse m) (overshoot m) (undershoot m)
       (settlingTime m) (riseTime m) (peakTime m) (steadyStateError m)
       (steadyStateValue m) (controlEffort m) (controlVariability m)
       (Math_max zero (Math_min (ofZ 100) (score m)))
       (stabilityMargin m) (robustness m)) a.

Definition update (time' setpoint' pv output : number)
  (a : PerformanceAnalyzer) : PerformanceAnalyzer :=
  let d := data a in
  let d := mkData (time d ++ [time']) (setpoint d ++ [setpoint'])
             (processVariable d ++ [pv]) (controlOutput d ++ [output])
             (error d ++ [sub setpoint' pv]) in
  let maxPoints := 1000%nat in
  let d :=
    if Nat.ltb maxPoints (List.length (time d))
    then mkData (tl (time d)) (tl (setpoint d)) (tl (processVariable d))
           (tl (controlOutput d)) (tl (error d))
    else d in
  let a := set_data d a in
  let a := detectStepChange setpoint' time' a in
  let a := updateContinuousMetrics time' a in
  let a := if isStepResponse a then updateStepResponseMetrics a else a in
  calculatePerformanceIndex a.

Definition getQualityAssessment (a : PerformanceAnalyzer) : string :=
  let score := performanceIndex (metrics a) in
  if geb score (ofZ 90) then "Excelente"
  else if geb score (ofZ 80) then "Muito Bom"
  else if geb score (ofZ 70) then "Bom"
  else if geb score (ofZ 60) then "Aceitável"
  else if geb score (ofZ 50) then "Ruim"
  else "Muito Ruim".

Definition getRecommendation (a : PerformanceAnalyzer) : list string :=
  let m := metrics a in
  let recommendations :=
    (if gtb (overshoot m) (ofZ 15)
     then ["Reduza Kp ou aumente Kd para diminuir overshoot"%string]
     else [])
    ++ (if gtb (abs (steadyStateError m)) one
        then ["Aumente Ki para eliminar erro em regime permanente"%string]
        else [])
    ++ (if truthy_opt (settlingTime m)
           && gtb (toNumber (settlingTime m)) (ofZ 15)
        then ["Ajuste os ganhos para resposta mais rápida"%string]
        else [])
    ++ (if gtb (controlVariability m) (ofZ 100)
        then ["Reduza Kd ou adicione filtro para diminuir ruído"%string]
        else []) in
  if Nat.eqb (List.length recommendations) 0
  then recommendations ++ ["Sistema bem sintonizado!"%string]
  else recommendations.

(** [reset]: every metric that holds a number becomes [0], every other
    one [null]. *)
Definition reset_nullable (x : option number) : option number :=
  match x with Some _ => Some zero | None => None end.

Definition reset (a : PerformanceAnalyzer) : PerformanceAnalyzer :=
  let m := metrics a in
  mk (mkData [] [] [] [] [])
     (mkMetrics zero zero zero zero zero zero
        (reset_nullable (settlingTime m)) (reset_nullable (riseTime m))
        (reset_nullable (peakTime m))
        zero zero zero zero zero zero zero)
     (analysisWindow a) (settlingBand a) false None None None.

(** One sample fed to [update]: (time, setpoint, pv, output). *)
Definition Sample : Type := number * number * number * number.

Definition feed (samples : list Sample) (a : PerformanceAnalyzer)
  : PerformanceAnalyzer :=
  fold_left
    (fun a s => update (fst (fst (fst s))) (snd (fst (fst s)))
                  (snd (fst s)) (snd s) a)
    samples a.

End Analyzer.

(** ** The rolling analyzer (SystemAnalyzer) *)

Module SystemAnalyzer.

Record DataHistory := mkHistory {
  errors : list number;
  outputs : list number;
  processValues : list number;
  timestamps : list number
}.

Record Metrics := mkMetrics {
  iae : number;
  ise : number;
  overshoot : number;
  settlingTime : option number;
  steadyStateError : number
}.

Record SystemAnalyzer := mk {
  dataHistory : DataHistory;
  metrics : Metrics
}.

Record Report := mkReport {
  report_metrics : Metrics;
  quality : string
}.

Definition constructor : SystemAnalyzer :=
  mk (mkHistory [] [] [] []) (mkMetrics zero zero zero None zero).

Definition slice_last (n : nat) (l : list number) : list number :=
  if Nat.eqb n 0 then l else skipn (List.length l - n) l.

(** [Math.max(...values)]: [-Infinity] for no value. *)
Definition Math_max_of (values : list number) : number :=
  fold_left Math_max values negInfinity.

Definition _calculateMetrics (setpoint : number) (a : SystemAnalyzer)
  : SystemAnalyzer :=
  let dt := ratio 4 100 in
  let h := dataHistory a in
  let iae' :=
    fold_left (fun sum err => add sum (mul (abs err) dt)) (errors h) zero in
  let maxPV := Math_max_of (slice_last 100 (processValues h)) in
  let overshoot' :=
    Math_max zero (mul (div (sub maxPV setpoint) setpoint) (ofZ 100)) in
  let recentErrors := slice_last 20 (errors h) in
  let steadyStateError' :=
    if Nat.ltb 0 (List.length recentErrors)
    then div (fold_left (fun sum err => add sum err) recentErrors zero)
             (ofZ (Z.of_nat (List.length recentErrors)))
    else zero in
  mk h (mkMetrics iae' (ise (metrics a)) overshoot'
          (settlingTime (metrics a)) steadyStateError').

Definition update (setpoint pv mv timestamp : number) (a : SystemAnalyzer)
  : SystemAnalyzer :=
  let error := sub setpoint pv in
  let h := dataHistory a in
  let h := mkHistory (errors h ++ [error]) (outputs h ++ [mv])
             (processValues h ++ [pv]) (timestamps h ++ [timestamp]) in
  let h :=
    if Nat.ltb 500 (List.length (errors h))
    then mkHistory (tl (errors h)) (tl (outputs h)) (tl (processValues h))
           (tl (timestamps h))
    else h in
  _calculateMetrics setpoint (mk h (metrics a)).

Definition generateReport (a : SystemAnalyzer) : Report :=
  let m := metrics a in
  let quality : string :=
    (if gtb (overshoot m) (ofZ 20) then "Instável"
     else if gtb (overshoot m) (ofZ 10) then "Oscilatório"
     else if gtb (abs (steadyStateError m)) (ofZ 2) then "Erro Residual"
     else if ltb (iae m) (ofZ 30) then "Excelente"
     else "Estável")%string in
  mkReport m quality.

Definition Sample : Type := number * number * number * number.

Definition feed (samples : list Sample) (a : SystemAnalyzer)
  : SystemAnalyzer :=
  fold_left
    (fun a s => update (fst (fst (fst s))) (snd (fst (fst s)))
                  (snd (fst s)) (snd s) a)
    samples a.

End SystemAnalyzer.

(** A value that is not a negative number: NaN, or at least 0. *)
Definition notNegative (x : number) : bool := isNaN x || leb zero x.

(** What the metric computations of the analyzer leave alone: the
    series, the step episode and the two constants. *)
Definition sameFrame (a b : Analyzer.PerformanceAnalyzer) : Prop :=
  Analyzer.data b = Analyzer.data a /\
  Analyzer.isStepResponse b = Analyzer.isStepResponse a /\
  Analyzer.stepStartTime b = Analyzer.stepStartTime a /\
  Analyzer.stepStartValue b = Analyzer.stepStartValue a /\
  Analyzer.stepEndValue b = Analyzer.stepEndValue a /\
  Analyzer.analysisWindow b = Analyzer.analysisWindow a /\
  Analyzer.settlingBand b = Analyzer.settlingBand a.

(** The five series of the analyzer have one length, at most [n]. *)
Definition alignedData (n : nat) (d : Analyzer.Data) : Prop :=
  List.length (Analyzer.setpoint d) = List.length (Analyzer.time d) /\
  List.length (Analyzer.processVariable d) = List.length (Analyzer.time d) /\
  List.length (Analyzer.controlOutput d) = List.length (Analyzer.time d) /\
  List.length (Analyzer.error d) = List.length (Analyzer.time d) /\
  (List.length (Analyzer.time d) <= n)%nat.

(** The four series of the rolling analyzer have one length, at most
    [n]. *)
Definition alignedHistory (n : nat) (h : SystemAnalyzer.DataHistory) : Prop :=
  List.length (SystemAnalyzer.outputs h) =
    List.length (SystemAnalyzer.errors h) /\
  List.length (SystemAnalyzer.processValues h) =
    List.length (SystemAnalyzer.errors h) /\
  List.length (SystemAnalyzer.timestamps h) =
    List.length (SystemAnalyzer.errors h) /\
  (List.length (SystemAnalyzer.errors h) <= n)%nat.

(** ** Sample systems

    The controller and the plants as the application constructs them,
    used where a property is evaluated on concrete values. *)

Definition sampleController : AdvancedPID.AdvancedPIDController :=
  AdvancedPID.constructor (Some (ofZ 2)) (Some (ratio 5 10)) None
    AdvancedPID.noOptions.

Definition sampleBasic : BasicPID.PIDController :=
  BasicPID.constructor (ofZ 2) (ratio 5 10) zero
    (BasicPID.mkOptions None None None).

Definition sampleMechanical : Mechanical.MechanicalSystem :=
  Mechanical.constructor
    (Mechanical.mkParams one (ratio 2 10) (ofZ 20)
       None None None None None None).

Definition sampleThermal : Temperature.TemperatureControlSystem :=
  Temperature.constructor (Temperature.mkParams None None None None).

Definition sampleTank : TankLevel.TankLevelSystem :=
  TankLevel.constructor (TankLevel.mkParams None None None None).

Definition sampleMotor : MotorSpeed.MotorSpeedSystem :=
  MotorSpeed.constructor (MotorSpeed.mkParams None None None None None).

Definition samplePressure : Pressure.PressureControlSystem :=
  Pressure.constructor (Pressure.mkParams None None None None).

(** An auto-tune session that holds four peaks, with a fifth one in the
    last three samples of the chart. *)
Definition samplePeak1 : App.Peak := App.mkPeak (ratio 801 10) one.
Definition samplePeak2 : App.Peak := App.mkPeak (ratio 802 10) (ofZ 3).
Definition samplePeak3 : App.Peak := App.mkPeak (ratio 803 10) (ofZ 5).
Definition samplePeak4 : App.Peak := App.mkPeak (ratio 805 10) (ofZ 7).

(** Sliders from 0 to 10 that hold every value of that range as it is
    assigned and the nearer end of the range otherwise. *)
Definition sampleSlider (v : number) : App.Slider :=
  App.mkSlider (saturate zero (ofZ 10)) v.

Definition sampleUi : App.Ui :=
  App.mkUi (sampleSlider (ofZ 3)) (sampleSlider zero) (sampleSlider zero).

Definition sampleApp : App.SimulationApp :=
  App.mk true
    (App.mkAutoTune (ratio 5 10) (ratio 2 10) samplePeak4
       (App.mkPeak Infinity zero)
       [samplePeak1; samplePeak2; samplePeak3; samplePeak4] zero zero)
    (AdvancedPID.setGains (ofZ 3) zero zero
       (AdvancedPID.constructor None None None AdvancedPID.noOptions))
    (ofZ 80)
    [ofZ 70; ofZ 81; ofZ 79]
    false
    sampleUi.

(** An analyzer that has seen the setpoint step from 0 to 80 at time 1,
    and a short step response that leaves the 2% band around 80 for the
    last time at time 2. *)
Definition sampleAnalyzer : Analyzer.PerformanceAnalyzer :=
  Analyzer.feed [(zero, zero, zero, zero); (one, ofZ 80, zero, zero)]
    Analyzer.constructor.

Definition sampleStepData : list Analyzer.Point :=
  [Analyzer.mkPoint one zero (ofZ 80) zero;
   Analyzer.mkPoint (ofZ 2) (ofZ 90) (ofZ 80) zero;
   Analyzer.mkPoint (ofZ 3) (ofZ 80) (ofZ 80) zero].

(** * Properties *)

(** ** Facts about the comparison of numbers *)

Section Comparison.

Lemma compare_cont_Eq_antisym (m1 m2 : positive) :
  Pos.compare_cont Eq m2 m1 = CompOpp (Pos.compare_cont Eq m1 m2).
Proof. symmetry. apply (Pos.compare_cont_antisym m1 m2 Eq). Qed.

Lemma SFcompare_antisym (x y : number) (c : comparison) :
  SFcompare x y = Some c -> SFcompare y x = Some (CompOpp c).
Proof.
  destruct x as [sx|sx| |sx mx ex], y as [sy|sy| |sy my ey]; simpl;
    try discriminate;
    try (intros [= <-]; repeat match goal with b : bool |- _ => destruct b end;
         reflexivity).
  intros [= <-]. f_equal.
  destruct sx, sy; try reflexivity.
  - rewrite (Z.compare_antisym ey ex).
    destruct (ey ?= ex) eqn:E; simpl; try reflexivity.
    now rewrite (compare_cont_Eq_antisym mx my).
  - rewrite (Z.compare_antisym ey ex).
    destruct (ey ?= ex) eqn:E; simpl; try reflexivity.
    now rewrite (compare_cont_Eq_antisym mx my).
Qed.

Lemma SFcompare_refl (x : number) :
  isNaN x = false -> SFcompare x x = Some Eq.
Proof.
  destruct x as [s|s| |s m e]; simpl; try discriminate; intros _.
  - reflexivity.
  - now destruct s.
  - rewrite Z.compare_refl, Pos.compare_cont_refl. now destruct s.
Qed.

Lemma SFcompare_nan_iff (x y : number) :
  SFcompare x y = None <-> isNaN x = true \/ isNaN y = true.
Proof.
  destruct x, y; simpl; split; intros H; try discriminate;
    try (now left); try (now right); try reflexivity;
    destruct H; discriminate.
Qed.

Lemma leb_refl (x : number) : isNaN x = false -> leb x x = true.
Proof. intros H. unfold leb, SFleb. now rewrite SFcompare_refl. Qed.

(** On numbers, [!(a < b)] gives [b <= a]. *)
Lemma ltb_false_leb (a b : number) :
  isNaN a = false -> isNaN b = false -> ltb a b = false -> leb b a = true.
Proof.
  intros Ha Hb. unfold ltb, leb, SFltb, SFleb.
  destruct (SFcompare a b) as [c|] eqn:E.
  - rewrite (SFcompare_antisym _ _ _ E). now destruct c.
  - apply SFcompare_nan_iff in E. destruct E; congruence.
Qed.

Lemma ltb_leb (a b : number) : ltb a b = true -> leb a b = true.
Proof.
  unfold ltb, leb, SFltb, SFleb. now destruct (SFcompare a b) as [[]|].
Qed.

Lemma leb_not_nan (a b : number) :
  leb a b = true -> isNaN a = false /\ isNaN b = false.
Proof.
  unfold leb, SFleb. destruct a, b; simpl; try discriminate; now split.
Qed.

(** Numbers that are [===] compare alike against any third number. *)
Lemma strict_eq_compare (a b c : number) :
  strict_eq a b = true ->
  SFcompare c a = SFcompare c b /\ SFcompare a c = SFcompare b c.
Proof.
  unfold strict_eq, SFeqb.
  destruct (SFcompare a b) as [[]|] eqn:E; try discriminate. intros _.
  assert (H : a = b \/ exists s t, a = S754_zero s /\ b = S754_zero t).
  { destruct a as [sa|sa| |sa ma ea], b as [sb|sb| |sb mb eb];
      simpl in E; try discriminate;
      try (right; now exists sa, sb);
      try (destruct sa; discriminate); try (destruct sb; discriminate).
    - left. destruct sa, sb; try discriminate; reflexivity.
    - left. destruct sa, sb; try discriminate;
        destruct (ea ?= eb) eqn:Ee; try discriminate;
        apply Z.compare_eq in Ee; subst eb;
        injection E as E.
      + destruct (Pos.compare_cont Eq ma mb) eqn:Em; try discriminate.
        apply Pos.compare_eq in Em. now subst.
      + apply Pos.compare_eq in E. now subst. }
  destruct H as [->|(s & t & -> & ->)]; [now split|].
  destruct c; simpl; now split.
Qed.

Lemma strict_eq_within (lo hi a b : number) :
  strict_eq a b = true -> within lo hi a = within lo hi b.
Proof.
  intros H. unfold within, leb, SFleb.
  destruct (strict_eq_compare a b lo H) as [-> _].
  destruct (strict_eq_compare a b hi H) as [_ ->]. reflexivity.
Qed.

End Comparison.

(** ** Saturation *)

Section Saturation.

Lemma Math_min_nan (a b : number) :
  isNaN (Math_min a b) = isNaN a || isNaN b.
Proof.
  unfold Math_min.
  destruct a as [sa|sa| |sa ma ea], b as [sb|sb| |sb mb eb]; simpl;
    try reflexivity;
    match goal with |- context [if ?c then _ else _] => now destruct c end.
Qed.

Lemma Math_max_nan (a b : number) :
  isNaN (Math_max a b) = isNaN a || isNaN b.
Proof.
  unfold Math_max.
  destruct a as [sa|sa| |sa ma ea], b as [sb|sb| |sb mb eb]; simpl;
    try reflexivity;
    match goal with |- context [if ?c then _ else _] => now destruct c end.
Qed.

Lemma saturate_nan (lo hi x : number) :
  isNaN (saturate lo hi x) = isNaN lo || (isNaN hi || isNaN x).
Proof. unfold saturate. now rewrite Math_max_nan, Math_min_nan. Qed.

(** [Math.min(hi, x)] never exceeds [hi]. *)
Lemma Math_min_le_l (hi x : number) :
  isNaN hi = false -> isNaN x = false -> leb (Math_min hi x) hi = true.
Proof.
  intros Hh Hx.
  destruct hi as [sh|sh| |sh mh eh], x as [sx|sx| |sx mx ex];
    try discriminate; try reflexivity;
    unfold Math_min;
    match goal with
    | |- context [if ltb ?a ?b then _ else _] =>
        destruct (ltb a b) eqn:E; [now apply ltb_leb | now apply leb_refl]
    end.
Qed.

(** [Math.max(lo, m)] is at least [lo], and stays below any bound that
    both arguments respect. *)
Lemma Math_max_ge_l (lo m : number) :
  isNaN lo = false -> isNaN m = false -> leb lo (Math_max lo m) = true.
Proof.
  intros Hl Hm.
  destruct lo as [sl|sl| |sl ml el], m as [sm|sm| |sm mm em];
    try discriminate; try reflexivity;
    unfold Math_max;
    match goal with
    | |- context [if ltb ?a ?b then _ else _] =>
        destruct (ltb a b) eqn:E; [now apply ltb_leb | now apply leb_refl]
    end.
Qed.

Lemma Math_max_le (lo m hi : number) :
  leb lo hi = true -> leb m hi = true -> leb (Math_max lo m) hi = true.
Proof.
  intros Hl Hm.
  destruct lo as [sl|sl| |sl ml el], m as [sm|sm| |sm mm em];
    try discriminate; try assumption;
    unfold Math_max;
    try match goal with
    | |- context [if ltb ?a ?b then _ else _] =>
        destruct (ltb a b); assumption
    end.
Qed.

(** The saturated value lies between the limits whenever it is a
    number and the limits are ordered. *)
Lemma saturate_within (lo hi x : number) :
  leb lo hi = true -> isNaN (saturate lo hi x) = false ->
  within lo hi (saturate lo hi x) = true.
Proof.
  intros Hlh Hn. rewrite saturate_nan in Hn.
  apply orb_false_iff in Hn as [Hl Hn].
  apply orb_false_iff in Hn as [Hh Hx].
  unfold within, saturate. apply andb_true_iff. split.
  - apply Math_max_ge_l; [assumption|].
    rewrite Math_min_nan, Hh, Hx. reflexivity.
  - apply Math_max_le; [assumption|]. now apply Math_min_le_l.
Qed.

(** Saturating twice is saturating once. *)
Lemma saturate_idempotent (lo hi x : number) :
  saturate lo hi (saturate lo hi x) = saturate lo hi x.
Proof.
  unfold saturate, Math_max, Math_min.
  destruct lo as [sl|sl| |sl ml el], hi as [sh|sh| |sh mh eh],
    x as [sx|sx| |sx mx ex]; try reflexivity;
    repeat match goal with b : bool |- _ => destruct b end;
    cbn -[ltb];
    repeat (match goal with
            | |- context [if ltb ?a ?b then _ else _] =>
                destruct (ltb a b) eqn:?; cbn -[ltb]
            end);
    try reflexivity; try congruence.
  all: vm_compute in *; congruence.
Qed.

End Saturation.

(** ** The advanced controller: saturation of the output *)

Section AdvancedOutput.

Import AdvancedPID.

Lemma strict_eq_not_nan (a b : number) :
  strict_eq a b = true -> isNaN a = false /\ isNaN b = false.
Proof.
  unfold strict_eq, SFeqb. destruct a, b; simpl; try discriminate; now split.
Qed.

(** The anti-windup step never touches the configuration. *)
Lemma antiWindup_config (output dt : number) (c : AdvancedPIDController) :
  config (snd (antiWindup output dt c)) = config c.
Proof.
  unfold antiWindup.
  destruct (String.eqb (antiWindupMethod (config c)) "clamping").
  - destruct (strict_neq _ output); reflexivity.
  - destruct (String.eqb (antiWindupMethod (config c)) "back-calculation");
      [|reflexivity].
    simpl. destruct (strict_neq _ output && strict_neq (_Ki c) zero);
      reflexivity.
Qed.

(** With one of the two anti-windup methods selected and ordered limits,
    the output handed on by the anti-windup step is within the limits
    whenever it is a number. *)
Lemma antiWindup_within (output dt : number) (c : AdvancedPIDController) :
  antiWindupMethod (config c) = "clamping"%string \/
  antiWindupMethod (config c) = "back-calculation"%string ->
  leb (outputMin (config c)) (outputMax (config c)) = true ->
  isNaN (fst (antiWindup output dt c)) = false ->
  within (outputMin (config c)) (outputMax (config c))
         (fst (antiWindup output dt c)) = true.
Proof.
  intros Hm Hlim. unfold antiWindup.
  fold (saturate (outputMin (config c)) (outputMax (config c)) output).
  destruct Hm as [-> | ->]; simpl.
  - unfold strict_neq.
    destruct (SFeqb (saturate _ _ output) output) eqn:E; simpl.
    + intros _.
      rewrite <- (strict_eq_within _ _ _ _ E).
      apply saturate_within; [assumption|].
      now destruct (strict_eq_not_nan _ _ E).
    + now apply saturate_within.
  - now apply saturate_within.
Qed.

Lemma integrate_config (error dt : number) (c : AdvancedPIDController) :
  config (integrate error dt c) = config c.
Proof.
  unfold integrate.
  destruct (String.eqb _ _); [|reflexivity].
  destruct (_ || _); reflexivity.
Qed.

Lemma integrate_gains (error dt : number) (c : AdvancedPIDController) :
  _Kp (integrate error dt c) = _Kp c /\ _Ki (integrate error dt c) = _Ki c /\
  _Kd (integrate error dt c) = _Kd c.
Proof.
  unfold integrate.
  destruct (String.eqb _ _); [|now repeat split].
  destruct (_ || _); now repeat split.
Qed.

Lemma antiWindup_gains (output dt : number) (c : AdvancedPIDController) :
  _Kp (snd (antiWindup output dt c)) = _Kp c /\
  _Ki (snd (antiWindup output dt c)) = _Ki c /\
  _Kd (snd (antiWindup output dt c)) = _Kd c.
Proof.
  unfold antiWindup.
  destruct (String.eqb (antiWindupMethod (config c)) "clamping").
  - destruct (strict_neq _ output); now repeat split.
  - destruct (String.eqb (antiWindupMethod (config c)) "back-calculation");
      [|now repeat split].
    simpl. destruct (strict_neq _ output && strict_neq (_Ki c) zero);
      now repeat split.
Qed.

End AdvancedOutput.

Section AdvancedUpdate.

Import AdvancedPID.

(** In automatic mode with a positive time step, the value returned by
    [update] is the one handed on by the anti-windup step, run on a
    controller with the same configuration and gains. *)
Lemma update_auto_output (sp pv dt : number) (c : AdvancedPIDController) :
  leb dt zero = false -> isManual (state c) = false ->
  exists raw c0,
    config c0 = config c /\
    fst (update sp pv dt c) = fst (antiWindup raw dt c0).
Proof.
  intros Hdt Hman. unfold update.
  cbn [state set_simulationTime]. rewrite Hdt, Hman.
  match goal with
  | |- context [antiWindup ?raw dt ?c0] =>
      exists raw, c0; destruct (antiWindup raw dt c0) as [o c1] eqn:E
  end.
  split; [|reflexivity].
  cbn. now rewrite integrate_config.
Qed.

(** How [update] returns when the time step is not positive, and in
    manual mode. *)
Lemma update_nonpositive_dt (sp pv dt : number) (c : AdvancedPIDController) :
  leb dt zero = true ->
  update sp pv dt c =
    (lastOutput (state c), set_simulationTime (add (simulationTime c) dt) c).
Proof. intros Hdt. unfold update. cbn [state set_simulationTime]. now rewrite Hdt. Qed.

Lemma update_manual (sp pv dt : number) (c : AdvancedPIDController) :
  leb dt zero = false -> isManual (state c) = true ->
  fst (update sp pv dt c) = manualOutput (state c).
Proof.
  intros Hdt Hman. unfold update. cbn [state set_simulationTime].
  now rewrite Hdt, Hman.
Qed.

End AdvancedUpdate.

(** ** The basic controller *)

Section BasicUpdate.

Import BasicPID.

Lemma basic_update_nonpositive_dt (sp pv dt : number) (c : PIDController) :
  leb dt zero = true ->
  update sp pv dt c =
    (add (add (_proportionalTerm c) (_integralTerm c)) (_derivativeTerm c), c).
Proof. intros Hdt. unfold update. now rewrite Hdt. Qed.

Lemma basic_update_limits (sp pv dt : number) (c : PIDController) :
  _outputMin (snd (update sp pv dt c)) = _outputMin c /\
  _outputMax (snd (update sp pv dt c)) = _outputMax c.
Proof. unfold update. destruct (leb dt zero); now split. Qed.

(** With a positive time step the returned output and the stored
    integral term are both results of the saturation idiom. *)
Lemma basic_update_saturates (sp pv dt : number) (c : PIDController) :
  leb dt zero = false ->
  exists pre acc,
    fst (update sp pv dt c) = saturate (_outputMin c) (_outputMax c) pre /\
    _integralTerm (snd (update sp pv dt c)) =
      saturate (_outputMin c) (_outputMax c) acc.
Proof.
  intros Hdt. unfold update. rewrite Hdt. cbn [fst snd _integralTerm].
  eexists _, _. split; reflexivity.
Qed.

End BasicUpdate.

(** ** Output limits (C1) *)

Section OutputLimits.

Import AdvancedPID.

(** C1, amended.  For every [update] call with a positive time step: in
    manual mode the advanced controller returns exactly the stored manual
    value; in automatic mode, with the anti-windup method "clamping" or
    "back-calculation" and [outputMin <= outputMax], the returned output
    lies within [[outputMin, outputMax]] whenever it is a number; the
    basic controller, which has no manual mode, likewise returns a value
    within its limits whenever that value is a number.  With a time step
    that is not positive the advanced controller returns the stored last
    output in either mode. *)
Theorem update_output_within_limits :
  (forall (sp pv dt : number) (c : AdvancedPIDController),
      leb dt zero = false ->
      isManual (state c) = false ->
      antiWindupMethod (config c) = "clamping"%string \/
      antiWindupMethod (config c) = "back-calculation"%string ->
      leb (outputMin (config c)) (outputMax (config c)) = true ->
      isNaN (fst (update sp pv dt c)) = false ->
      within (outputMin (config c)) (outputMax (config c))
             (fst (update sp pv dt c)) = true) /\
  (forall (sp pv dt : number) (c : AdvancedPIDController),
      leb dt zero = false ->
      isManual (state c) = true ->
      fst (update sp pv dt c) = manualOutput (state c)) /\
  (forall (sp pv dt : number) (b : BasicPID.PIDController),
      leb dt zero = false ->
      leb (BasicPID._outputMin b) (BasicPID._outputMax b) = true ->
      isNaN (fst (BasicPID.update sp pv dt b)) = false ->
      within (BasicPID._outputMin b) (BasicPID._outputMax b)
             (fst (BasicPID.update sp pv dt b)) = true) /\
  (forall (sp pv dt : number) (c : AdvancedPIDController),
      leb dt zero = true ->
      fst (update sp pv dt c) = lastOutput (state c)).
Proof.
  split; [|split; [|split]].
  - intros sp pv dt c Hdt Hman Hmethod Hlim Hnum.
    destruct (update_auto_output sp pv dt c Hdt Hman) as (raw & c0 & Hc & Ho).
    rewrite Ho in *. rewrite <- Hc in *.
    now apply antiWindup_within.
  - intros sp pv dt c. apply update_manual.
  - intros sp pv dt b Hdt Hlim Hnum.
    destruct (basic_update_saturates sp pv dt b Hdt) as (pre & acc & Ho & _).
    rewrite Ho in *. now apply saturate_within.
  - intros sp pv dt c Hdt.
    now rewrite (update_nonpositive_dt sp pv dt c Hdt).
Qed.

Lemma update_output_within_limits_witness :
  within (ofZ (-100)) (ofZ 100)
         (fst (update (ofZ 80) zero (ratio 4 100) sampleController)) = true /\
  fst (update (ofZ 80) zero (ratio 4 100)
         (setManualMode true (Some (ofZ 500)) sampleController)) = ofZ 500 /\
  within (ofZ (-100)) (ofZ 100)
         (fst (BasicPID.update (ofZ 80) zero (ratio 4 100) sampleBasic)) = true
  /\
  fst (update (ofZ 80) zero zero sampleController) = zero.
Proof.
  split; [|split; [|split]].
  - apply (proj1 update_output_within_limits
             (ofZ 80) zero (ratio 4 100) sampleController);
      try (vm_compute; reflexivity).
    left. vm_compute. reflexivity.
  - apply (proj1 (proj2 update_output_within_limits)
             (ofZ 80) zero (ratio 4 100)
             (setManualMode true (Some (ofZ 500)) sampleController));
      vm_compute; reflexivity.
  - apply (proj1 (proj2 (proj2 update_output_within_limits))
             (ofZ 80) zero (ratio 4 100) sampleBasic);
      vm_compute; reflexivity.
  - apply (proj2 (proj2 (proj2 update_output_within_limits))
             (ofZ 80) zero zero sampleController).
    vm_compute. reflexivity.
Defined.

(** C1 as stated fails.  After a manual episode at 500 the controller is
    switched back to automatic; a call with [dt = 0] then returns the
    stored last output, 500, outside the limits [-100, 100].  In manual
    mode a call with [dt = 0] returns the last output, not the manual
    value.  With an anti-windup method other than the two known ones the
    sum of the terms is returned unsaturated.  With limits given in the
    wrong order the lower one is returned, and a setpoint that is NaN
    gives an output that is NaN. *)
Lemma update_output_outside_limits :
  let c0 := constructor (Some one) (Some one) None noOptions in
  let c1 := setManualMode true (Some (ofZ 500)) c0 in
  let c2 := snd (update zero zero one c1) in
  let c3 := setManualMode false None c2 in
  let c4 := constructor (Some (ofZ 2)) None None
              (mkOptions None None None None None None (Some "none"%string)) in
  let c5 := constructor (Some one) (Some one) None
              (mkOptions (Some (ofZ 10)) (Some (ofZ (-10)))
                 None None None None None) in
  (isManual (state c3) = false /\
   fst (update zero zero zero c3) = ofZ 500 /\
   within (outputMin (config c3)) (outputMax (config c3))
          (fst (update zero zero zero c3)) = false) /\
  (isManual (state c1) = true /\
   manualOutput (state c1) = ofZ 500 /\
   fst (update zero zero zero c1) = zero) /\
  (isManual (state c4) = false /\
   fst (update (ofZ 80) zero (ratio 4 100) c4) = ofZ 160 /\
   within (outputMin (config c4)) (outputMax (config c4))
          (fst (update (ofZ 80) zero (ratio 4 100) c4)) = false) /\
  (fst (update zero zero one c5) = ofZ 10 /\
   within (outputMin (config c5)) (outputMax (config c5))
          (fst (update zero zero one c5)) = false) /\
  fst (update NaN zero one c0) = NaN.
Proof. vm_compute. repeat split. Qed.

End OutputLimits.

(** ** The integral term of the basic controller (C10) *)

Section BasicIntegral.

Import BasicPID.

(** C10, amended.  After every [update] call of the basic controller
    with a positive time step and [outputMin <= outputMax], the stored
    integral term lies within [[outputMin, outputMax]] whenever it is a
    number. *)
Theorem basic_integral_term_within_limits
  (sp pv dt : number) (c : PIDController) :
  leb dt zero = false ->
  leb (_outputMin c) (_outputMax c) = true ->
  isNaN (_integralTerm (snd (update sp pv dt c))) = false ->
  within (_outputMin c) (_outputMax c)
         (_integralTerm (snd (update sp pv dt c))) = true.
Proof.
  intros Hdt Hlim Hnum.
  destruct (basic_update_saturates sp pv dt c Hdt) as (pre & acc & _ & Hi).
  rewrite Hi in *. now apply saturate_within.
Qed.

Lemma basic_integral_term_within_limits_witness :
  within (ofZ (-100)) (ofZ 100)
    (_integralTerm (snd (update (ofZ 80) zero (ratio 4 100) sampleBasic)))
  = true.
Proof.
  apply (basic_integral_term_within_limits
           (ofZ 80) zero (ratio 4 100) sampleBasic);
    vm_compute; reflexivity.
Defined.

(** C10 as stated fails on a setpoint that is NaN, which leaves the
    integral term NaN, and on limits given in the wrong order, where the
    integral term is held at the lower limit, above the upper one. *)
Lemma basic_integral_term_outside_limits :
  let c1 := snd (update NaN zero one sampleBasic) in
  let inverted := constructor (ofZ 2) (ratio 5 10) zero
                    (mkOptions (Some (ofZ 10)) (Some (ofZ (-10))) None) in
  let c2 := snd (update (ofZ 80) zero one inverted) in
  leb one zero = false /\
  (_integralTerm c1 = NaN /\
   within (_outputMin c1) (_outputMax c1) (_integralTerm c1) = false) /\
  (_integralTerm c2 = ofZ 10 /\
   within (_outputMin c2) (_outputMax c2) (_integralTerm c2) = false).
Proof. vm_compute. repeat split. Qed.

End BasicIntegral.

(** ** Calls with a non-positive time step (C2) *)

Section NonPositiveStep.

Import AdvancedPID.

(** C2, amended.  For every controller [update] call with [dt <= 0]:
    the advanced controller returns the stored last output and leaves
    its gains, configuration, state, terms and metrics as they were;
    the basic controller is left exactly as it was.  (The plants have no
    such guard: they integrate with whatever [dt] they are given.) *)
Theorem controller_update_nonpositive_dt :
  (forall (sp pv dt : number) (c : AdvancedPIDController),
      leb dt zero = true ->
      let r := update sp pv dt c in
      fst r = lastOutput (state c) /\
      state (snd r) = state c /\
      terms (snd r) = terms c /\
      metrics (snd r) = metrics c /\
      config (snd r) = config c /\
      _Kp (snd r) = _Kp c /\ _Ki (snd r) = _Ki c /\ _Kd (snd r) = _Kd c) /\
  (forall (sp pv dt : number) (b : BasicPID.PIDController),
      leb dt zero = true ->
      snd (BasicPID.update sp pv dt b) = b).
Proof.
  split.
  - intros sp pv dt c Hdt r. subst r.
    rewrite (update_nonpositive_dt sp pv dt c Hdt). cbn.
    repeat split.
  - intros sp pv dt b Hdt.
    now rewrite (basic_update_nonpositive_dt sp pv dt b Hdt).
Qed.

Lemma controller_update_nonpositive_dt_witness :
  let c := snd (update (ofZ 80) zero (ratio 4 100) sampleController) in
  fst (update (ofZ 80) zero zero c) = lastOutput (state c) /\
  state (snd (update (ofZ 80) zero zero c)) = state c /\
  snd (BasicPID.update (ofZ 80) zero (ofZ (-1)) sampleBasic) = sampleBasic.
Proof.
  intros c. split; [|split].
  - apply (proj1 controller_update_nonpositive_dt (ofZ 80) zero zero c).
    vm_compute. reflexivity.
  - apply (proj1 controller_update_nonpositive_dt (ofZ 80) zero zero c).
    vm_compute. reflexivity.
  - apply (proj2 controller_update_nonpositive_dt
             (ofZ 80) zero (ofZ (-1)) sampleBasic).
    vm_compute. reflexivity.
Defined.

(** C2 as stated fails for the plants, which have no guard on [dt]: the
    mechanical plant stepped with [dt = -1] leaves rest, moving from
    position 0 and velocity 0 to position -20 and velocity 20.  The
    advanced controller moves its clock before it tests [dt]. *)
Lemma plant_update_nonpositive_dt_mutates :
  let p := Mechanical.constructor
             (Mechanical.mkParams one (ratio 2 10) (ofZ 20)
                None None None None None None) in
  let p' := snd (Mechanical.update (fun _ => zero) zero zero (ofZ (-1)) p) in
  leb (ofZ (-1)) zero = true /\
  Mechanical.state p = Mechanical.mkState zero zero /\
  Mechanical.state p' = Mechanical.mkState (ofZ (-20)) (ofZ 20) /\
  simulationTime (snd (update zero zero (ofZ (-1)) sampleController))
    = ofZ (-1) /\
  simulationTime sampleController = zero.
Proof. vm_compute. repeat split. Qed.

End NonPositiveStep.

(** ** Clamping anti-windup (C3) *)

Section Clamping.

Import AdvancedPID.

(** What the clamping branch does on saturation, for every Ki: the
    excess over the saturated output, divided by Ki, is taken off the
    accumulator and the integral term is recomputed.  No test on Ki
    precedes the division. *)
Lemma antiWindup_clamping_saturated (output dt : number)
  (c : AdvancedPIDController) :
  antiWindupMethod (config c) = "clamping"%string ->
  let saturatedOutput :=
    saturate (outputMin (config c)) (outputMax (config c)) output in
  strict_neq saturatedOutput output = true ->
  let sum' :=
    sub (integralSum (state c))
        (div (sub output saturatedOutput) (_Ki c)) in
  let r := antiWindup output dt c in
  fst r = saturatedOutput /\
  integralSum (state (snd r)) = sum' /\
  integral (terms (snd r)) = mul (_Ki c) sum'.
Proof.
  intros Hm sat Hneq sum' r. subst r sum' sat. unfold antiWindup.
  rewrite Hm. cbn [String.eqb Ascii.eqb Bool.eqb].
  unfold saturate in Hneq. rewrite Hneq. cbn. repeat split.
Qed.

(** The back-calculation branch tests Ki before it adjusts: with
    [Ki = 0] the controller is handed on untouched. *)
Lemma antiWindup_back_calculation_zero_Ki (output dt : number)
  (c : AdvancedPIDController) :
  antiWindupMethod (config c) = "back-calculation"%string ->
  strict_neq (_Ki c) zero = false ->
  snd (antiWindup output dt c) = c.
Proof.
  intros Hm HKi. unfold antiWindup. rewrite Hm, HKi.
  cbn [String.eqb Ascii.eqb Bool.eqb]. now rewrite andb_false_r.
Qed.

(** C3 at [Ki = 0].  A controller with Kp = 2 and the default Ki = 0 and
    clamping saturates on its first tick (setpoint 80, measurement 0):
    the division by Ki is evaluated, the accumulator becomes -Infinity
    and the integral term, 0 before the call, becomes NaN; on the next
    tick the returned output itself is NaN. *)
Theorem clamping_zero_Ki_divides :
  let c := constructor (Some (ofZ 2)) None None noOptions in
  let r := update (ofZ 80) zero (ratio 4 100) c in
  _Ki c = zero /\
  antiWindupMethod (config c) = "clamping"%string /\
  integral (terms c) = zero /\
  fst r = ofZ 100 /\
  integralSum (state (snd r)) = negInfinity /\
  integral (terms (snd r)) = NaN /\
  fst (update (ofZ 80) one (ratio 4 100) (snd r)) = NaN.
Proof. vm_compute. repeat split. Qed.

End Clamping.

(** ** Manual and automatic mode (C4) *)

Section ManualMode.

Import AdvancedPID.

(** What [setManualMode] does do.  Switching to manual sets the manual
    flag, and the next [update] with a positive time step returns the
    stored manual value.  Switching a manual controller back to automatic
    sets the integral accumulator to [manualOutput / Ki] and the integral
    term to the manual output itself, clears the manual flag and keeps
    every other field of the state. *)
Lemma setManualMode_transfer :
  (forall (m : option number) (sp pv dt : number)
          (c : AdvancedPIDController),
      leb dt zero = false ->
      let c' := setManualMode true m c in
      isManual (state c') = true /\
      fst (update sp pv dt c') = manualOutput (state c')) /\
  (forall (m : option number) (c : AdvancedPIDController),
      isManual (state c) = true ->
      let c' := setManualMode false m c in
      integralSum (state c') = div (manualOutput (state c)) (_Ki c) /\
      integral (terms c') = manualOutput (state c) /\
      isManual (state c') = false /\
      manualOutput (state c') = manualOutput (state c) /\
      lastOutput (state c') = lastOutput (state c) /\
      lastError (state c') = lastError (state c) /\
      lastPV (state c') = lastPV (state c) /\
      derivativeFiltered (state c') = derivativeFiltered (state c)).
Proof.
  split.
  - intros m sp pv dt c Hdt c'.
    assert (Hman : isManual (state c') = true).
    { subst c'. unfold setManualMode. cbn.
      destruct (negb (isManual (state c))); reflexivity. }
    split; [assumption|]. now apply update_manual.
  - intros m c Hman c'. subst c'. unfold setManualMode.
    rewrite Hman. cbn. repeat split.
Qed.

Lemma setManualMode_transfer_example :
  let c := setManualMode true (Some (ofZ 50)) sampleController in
  fst (update (ofZ 80) zero (ratio 4 100) c) = ofZ 50 /\
  integralSum (state (setManualMode false None c)) = ofZ 100 /\
  integral (terms (setManualMode false None c)) = ofZ 50.
Proof.
  intros c. split; [|split].
  - apply (proj1 setManualMode_transfer (Some (ofZ 50)) (ofZ 80) zero
             (ratio 4 100) sampleController).
    vm_compute. reflexivity.
  - apply (proj2 setManualMode_transfer None c). vm_compute. reflexivity.
  - apply (proj2 setManualMode_transfer None c). vm_compute. reflexivity.
Defined.

(** C4.  The claim: switching to manual captures the last automatic
    output as the initial manual value, and the tick that follows the
    return to automatic is within a small epsilon (0.01) of the output
    before it.  The code, under its comment 'bumpless transfer', does
    neither.  The manual value stored on entering manual is always the
    argument (0 when it is left out), whatever the last output was: the
    capture of the last output is overwritten before the method returns.
    With Kp = Ki = 1, setpoint 10 and measurement 0, the first tick
    returns 20 and switching to manual stores 0.  And after a manual
    episode at 50, with setpoint and measurement unchanged and Ki = 1,
    the tick that follows the return to automatic outputs 60.4: a step
    of 10.4 from the manual output, the proportional term and one
    integration step being added to the reconstructed integral term. *)
Theorem setManualMode_not_bumpless :
  (forall (m : option number) (c : AdvancedPIDController),
      manualOutput (state (setManualMode true m c)) = default_arg m zero) /\
  let c0 := constructor (Some one) (Some one) None noOptions in
  let c1 := snd (update (ofZ 10) zero one c0) in
  let c2 := setManualMode true None c1 in
  let c3 := setManualMode true (Some (ofZ 50)) c1 in
  let c4 := snd (update (ofZ 10) zero (ratio 4 100) c3) in
  let c5 := setManualMode false None c4 in
  let out := fst (update (ofZ 10) zero (ratio 4 100) c5) in
  (isManual (state c1) = false /\
   lastOutput (state c1) = ofZ 20 /\ manualOutput (state c2) = zero) /\
  (strict_neq (_Ki c4) zero = true /\
   lastOutput (state c4) = ofZ 50 /\
   out = ratio 604 10 /\
   gtb (abs (sub out (ofZ 50))) (ratio 1 100) = true).
Proof.
  split.
  - intros m c. unfold setManualMode.
    destruct (true && negb (isManual (state c))); reflexivity.
  - vm_compute. repeat split.
Qed.

End ManualMode.

(** ** Saturation of the plant inputs (C5) *)

Section PlantInputs.

Lemma thermal_update_saturated_input (u1 u2 dt : number)
  (p : Temperature.TemperatureControlSystem) :
  saturate zero (Temperature.maxHeatingPower p) u1 =
  saturate zero (Temperature.maxHeatingPower p) u2 ->
  Temperature.update u1 dt p = Temperature.update u2 dt p.
Proof. unfold saturate, Temperature.update. intros H. now rewrite H. Qed.

Lemma tank_update_saturated_input (u1 u2 dt : number)
  (p : TankLevel.TankLevelSystem) :
  saturate zero (ofZ 100) u1 = saturate zero (ofZ 100) u2 ->
  TankLevel.update u1 dt p = TankLevel.update u2 dt p.
Proof. unfold saturate, TankLevel.update. intros H. now rewrite H. Qed.

Lemma motor_update_saturated_input (u1 u2 dt : number)
  (p : MotorSpeed.MotorSpeedSystem) :
  saturate (neg (MotorSpeed.maxCurrent p)) (MotorSpeed.maxCurrent p) u1 =
  saturate (neg (MotorSpeed.maxCurrent p)) (MotorSpeed.maxCurrent p) u2 ->
  MotorSpeed.update u1 dt p = MotorSpeed.update u2 dt p.
Proof. unfold saturate, MotorSpeed.update. intros H. now rewrite H. Qed.

Lemma pressure_update_saturated_input (u1 u2 dt : number)
  (p : Pressure.PressureControlSystem) :
  saturate zero (ofZ 100) u1 = saturate zero (ofZ 100) u2 ->
  Pressure.update u1 dt p = Pressure.update u2 dt p.
Proof. unfold saturate, Pressure.update. intros H. now rewrite H. Qed.

(** C5, amended.  The thermal, tank-level, motor-speed and pressure
    plants saturate the manipulated input to its physical range (heating
    power to 0..maxHeatingPower, valve opening to 0..100, current to
    -maxCurrent..maxCurrent) before the physical balance uses it.  For
    every input [u], with [A] the input saturated to that range: the
    applied value in the snapshot is [A] (for the two valves, the
    fraction [A / 100] times 100), the quantity that enters the balance
    is computed from [A] (the heat flow [A - loss + door], the outlet
    flow [(A / 100) * maxOutletFlow * sqrt(head)], the motor torque
    [torqueConstant * A], the inlet mass flow [(A / 100) * maxInletFlow]),
    and two inputs with the same saturated value give the same snapshot
    and the same next state, whatever the controller limits are.  [A]
    lies in the range whenever it is a number and the range is not
    empty.  (The mechanical plant has no force limit.) *)
Theorem industrial_plant_input_saturated :
  (forall (u dt : number) (p : Temperature.TemperatureControlSystem),
      let A := saturate zero (Temperature.maxHeatingPower p) u in
      let r := Temperature.update u dt p in
      Temperature.actualOutput (fst r) = A /\
      Temperature.heatFlow (Temperature.state (snd r)) =
        add (sub A (Temperature.thermalLoss (fst r)))
            (Temperature.disturbanceEffect (fst r)) /\
      Temperature.processVariable (fst r) =
        add (Temperature.temperature (Temperature.state p))
            (mul (div (Temperature.heatFlow (Temperature.state (snd r)))
                      (Temperature.thermalCapacity p)) dt) /\
      (forall u2 : number,
          saturate zero (Temperature.maxHeatingPower p) u2 = A ->
          Temperature.update u2 dt p = r) /\
      (leb zero (Temperature.maxHeatingPower p) = true ->
       isNaN A = false ->
       within zero (Temperature.maxHeatingPower p) A = true)) /\
  (forall (u dt : number) (p : TankLevel.TankLevelSystem),
      let A := saturate zero (ofZ 100) u in
      let r := TankLevel.update u dt p in
      TankLevel.actualOutput (fst r) = mul (div A (ofZ 100)) (ofZ 100) /\
      TankLevel.snap_outletFlow (fst r) =
        mul (mul (div A (ofZ 100)) (TankLevel.maxOutletFlow p))
            (sqrt (Math_max zero (TankLevel.level (TankLevel.state p)))) /\
      TankLevel.netFlow (fst r) =
        sub (sub (TankLevel.snap_inletFlow (fst r))
                 (TankLevel.snap_outletFlow (fst r)))
            (TankLevel.leakage (TankLevel.disturbances p)) /\
      (forall u2 : number,
          saturate zero (ofZ 100) u2 = A -> TankLevel.update u2 dt p = r) /\
      (isNaN A = false -> within zero (ofZ 100) A = true)) /\
  (forall (u dt : number) (p : MotorSpeed.MotorSpeedSystem),
      let A :=
        saturate (neg (MotorSpeed.maxCurrent p)) (MotorSpeed.maxCurrent p)
                 u in
      let r := MotorSpeed.update u dt p in
      MotorSpeed.actualOutput (fst r) = A /\
      MotorSpeed.motorTorque (fst r) = mul (MotorSpeed.torqueConstant p) A /\
      MotorSpeed.torque (MotorSpeed.state (snd r)) =
        mul (MotorSpeed.torqueConstant p) A /\
      (forall u2 : number,
          saturate (neg (MotorSpeed.maxCurrent p)) (MotorSpeed.maxCurrent p)
                   u2 = A ->
          MotorSpeed.update u2 dt p = r) /\
      (leb (neg (MotorSpeed.maxCurrent p)) (MotorSpeed.maxCurrent p) = true ->
       isNaN A = false ->
       within (neg (MotorSpeed.maxCurrent p)) (MotorSpeed.maxCurrent p) A
         = true)) /\
  (forall (u dt : number) (p : Pressure.PressureControlSystem),
      let A := saturate zero (ofZ 100) u in
      let r := Pressure.update u dt p in
      Pressure.actualOutput (fst r) = mul (div A (ofZ 100)) (ofZ 100) /\
      Pressure.inletFlow (fst r) =
        mul (div A (ofZ 100)) (Pressure.maxInletFlow p) /\
      Pressure.netFlow (fst r) =
        sub (sub (Pressure.inletFlow (fst r)) (Pressure.outletFlow (fst r)))
            (Pressure.leakage (Pressure.disturbances p)) /\
      (forall u2 : number,
          saturate zero (ofZ 100) u2 = A -> Pressure.update u2 dt p = r) /\
      (isNaN A = false -> within zero (ofZ 100) A = true)).
Proof.
  split; [|split; [|split]]; intros u dt p A r; subst A r.
  - split; [reflexivity|]. split; [reflexivity|]. split; [reflexivity|].
    split.
    + intros u2 H. now apply thermal_update_saturated_input.
    + intros Hr Hn. now apply saturate_within.
  - split; [reflexivity|]. split; [reflexivity|]. split; [reflexivity|].
    split.
    + intros u2 H. now apply tank_update_saturated_input.
    + intros Hn. now apply saturate_within.
  - split; [reflexivity|]. split; [reflexivity|]. split; [reflexivity|].
    split.
    + intros u2 H. now apply motor_update_saturated_input.
    + intros Hr Hn. now apply saturate_within.
  - split; [reflexivity|]. split; [reflexivity|]. split; [reflexivity|].
    split.
    + intros u2 H. now apply pressure_update_saturated_input.
    + intros Hn. now apply saturate_within.
Qed.

(** The value the thermal and motor plants report as applied lies within
    the physical range whenever it is a number. *)
Lemma thermal_applied_power_within (u dt : number)
  (p : Temperature.TemperatureControlSystem) :
  leb zero (Temperature.maxHeatingPower p) = true ->
  isNaN (Temperature.actualOutput (fst (Temperature.update u dt p))) = false ->
  within zero (Temperature.maxHeatingPower p)
         (Temperature.actualOutput (fst (Temperature.update u dt p))) = true.
Proof. intros Hr Hn. now apply saturate_within. Qed.

Lemma motor_applied_current_within (u dt : number)
  (p : MotorSpeed.MotorSpeedSystem) :
  leb (neg (MotorSpeed.maxCurrent p)) (MotorSpeed.maxCurrent p) = true ->
  isNaN (MotorSpeed.actualOutput (fst (MotorSpeed.update u dt p))) = false ->
  within (neg (MotorSpeed.maxCurrent p)) (MotorSpeed.maxCurrent p)
         (MotorSpeed.actualOutput (fst (MotorSpeed.update u dt p))) = true.
Proof. intros Hr Hn. now apply saturate_within. Qed.

End PlantInputs.

Section ValveRange.

Lemma leb_ltb_false (a b : number) : leb a b = true -> ltb b a = false.
Proof.
  unfold leb, ltb, SFleb, SFltb.
  destruct (SFcompare a b) as [c|] eqn:E; [|discriminate].
  rewrite (SFcompare_antisym _ _ _ E). now destruct c.
Qed.

(** An opening of 100 or more saturates to 100, one of 0 or less to 0. *)
Lemma valve_saturate_above (u : number) :
  leb (ofZ 100) u = true -> saturate zero (ofZ 100) u = ofZ 100.
Proof.
  intros H. pose proof (leb_ltb_false _ _ H) as Hlt.
  unfold saturate.
  assert (Hmin : Math_min (ofZ 100) u = ofZ 100).
  { destruct u as [s|s| |s m e]; try discriminate;
      change (ofZ 100) with (S754_finite false 7036874417766400 (-46)) in *;
      unfold Math_min; now rewrite Hlt. }
  rewrite Hmin. reflexivity.
Qed.

Lemma valve_saturate_below (u : number) :
  leb u zero = true -> saturate zero (ofZ 100) u = zero.
Proof.
  intros H. unfold saturate.
  change (ofZ 100) with (S754_finite false 7036874417766400 (-46)).
  destruct u as [s|s| |s m e]; try discriminate.
  - now destruct s.
  - destruct s; [reflexivity | discriminate].
  - destruct s; [reflexivity | discriminate].
Qed.

(** Hence the tank and the pressure vessel treat every opening beyond
    the range as the nearest end of the range. *)
Lemma tank_valve_beyond_range (u dt : number)
  (p : TankLevel.TankLevelSystem) :
  (leb (ofZ 100) u = true ->
   TankLevel.update u dt p = TankLevel.update (ofZ 100) dt p) /\
  (leb u zero = true ->
   TankLevel.update u dt p = TankLevel.update zero dt p).
Proof.
  split; intros H; apply tank_update_saturated_input.
  - now rewrite (valve_saturate_above u H).
  - now rewrite (valve_saturate_below u H).
Qed.

(** Every step of an industrial plant is the step on the saturated
    input. *)
Lemma industrial_plant_step_on_saturated_input (u dt : number) :
  (forall p : Temperature.TemperatureControlSystem,
      Temperature.update u dt p =
      Temperature.update
        (saturate zero (Temperature.maxHeatingPower p) u) dt p) /\
  (forall p : TankLevel.TankLevelSystem,
      TankLevel.update u dt p =
      TankLevel.update (saturate zero (ofZ 100) u) dt p) /\
  (forall p : MotorSpeed.MotorSpeedSystem,
      MotorSpeed.update u dt p =
      MotorSpeed.update
        (saturate (neg (MotorSpeed.maxCurrent p)) (MotorSpeed.maxCurrent p) u)
        dt p) /\
  (forall p : Pressure.PressureControlSystem,
      Pressure.update u dt p =
      Pressure.update (saturate zero (ofZ 100) u) dt p).
Proof.
  split; [|split; [|split]]; intros p.
  - apply thermal_update_saturated_input.
    symmetry. apply saturate_idempotent.
  - apply tank_update_saturated_input.
    symmetry. apply saturate_idempotent.
  - apply motor_update_saturated_input.
    symmetry. apply saturate_idempotent.
  - apply pressure_update_saturated_input.
    symmetry. apply saturate_idempotent.
Qed.

End ValveRange.

Section PlantInputExamples.

Lemma industrial_plant_input_saturated_witness :
  (Temperature.update (ofZ 2500) (ratio 4 100) sampleThermal =
   Temperature.update (ofZ 3000) (ratio 4 100) sampleThermal /\
   within zero (ofZ 2000) (saturate zero (ofZ 2000) (ofZ 3000)) = true) /\
  (TankLevel.update (ofZ 200) (ratio 4 100) sampleTank =
   TankLevel.update (ofZ 150) (ratio 4 100) sampleTank /\
   within zero (ofZ 100) (saturate zero (ofZ 100) (ofZ 150)) = true) /\
  (MotorSpeed.update (ofZ (-20)) (ratio 4 100) sampleMotor =
   MotorSpeed.update (ofZ (-15)) (ratio 4 100) sampleMotor /\
   within (ofZ (-10)) (ofZ 10)
     (saturate (ofZ (-10)) (ofZ 10) (ofZ (-15))) = true) /\
  (Pressure.update (ofZ (-2)) (ratio 4 100) samplePressure =
   Pressure.update (ofZ (-1)) (ratio 4 100) samplePressure /\
   within zero (ofZ 100) (saturate zero (ofZ 100) (ofZ (-1))) = true).
Proof.
  split; [|split; [|split]].
  - pose proof (proj1 industrial_plant_input_saturated
                  (ofZ 3000) (ratio 4 100) sampleThermal)
      as (_ & _ & _ & Hsame & Hin).
    split.
    + apply Hsame. vm_compute. reflexivity.
    + apply Hin; vm_compute; reflexivity.
  - pose proof (proj1 (proj2 industrial_plant_input_saturated)
                  (ofZ 150) (ratio 4 100) sampleTank)
      as (_ & _ & _ & Hsame & Hin).
    split.
    + apply Hsame. vm_compute. reflexivity.
    + apply Hin; vm_compute; reflexivity.
  - pose proof (proj1 (proj2 (proj2 industrial_plant_input_saturated))
                  (ofZ (-15)) (ratio 4 100) sampleMotor)
      as (_ & _ & _ & Hsame & Hin).
    split.
    + apply Hsame. vm_compute. reflexivity.
    + apply Hin; vm_compute; reflexivity.
  - pose proof (proj2 (proj2 (proj2 industrial_plant_input_saturated))
                  (ofZ (-1)) (ratio 4 100) samplePressure)
      as (_ & _ & _ & Hsame & Hin).
    split.
    + apply Hsame. vm_compute. reflexivity.
    + apply Hin; vm_compute; reflexivity.
Defined.

(** C5 as stated fails for the mechanical plant, which applies the
    commanded force as it is.  From rest, with inertia 1 and load 20, one
    step of 0.04 leaves the velocity at (u - 20) * 0.04 for u = 100, 1000
    and 1000000 alike. *)
Lemma mechanical_input_not_saturated :
  let step u :=
    Mechanical.velocity
      (Mechanical.state
         (snd (Mechanical.update (fun _ => zero) zero u (ratio 4 100)
                 sampleMechanical))) in
  step (ofZ 100) = ratio 32 10 /\
  step (ofZ 1000) = ratio 392 10 /\
  step (ofZ 1000000) = mul (ofZ 999980) (ratio 4 100).
Proof. vm_compute. repeat split. Qed.

End PlantInputExamples.

(** ** Reset of the plants (C6) *)

Section PlantReset.

(** [reset] of the mechanical plant writes the velocity, the
    disturbance, the delay buffer and the clock, and nothing else: the
    position stays where the simulation left it. *)
Lemma mechanical_reset_state (p : Mechanical.MechanicalSystem) :
  Mechanical.state (Mechanical.reset p) =
    Mechanical.mkState (Mechanical.position (Mechanical.state p)) zero /\
  Mechanical._disturbance (Mechanical.reset p) = zero /\
  Mechanical.delay_buffer (Mechanical.systemDelay (Mechanical.reset p)) = [] /\
  Mechanical._inertia (Mechanical.reset p) = Mechanical._inertia p /\
  Mechanical._friction (Mechanical.reset p) = Mechanical._friction p /\
  Mechanical._load (Mechanical.reset p) = Mechanical._load p /\
  Mechanical.sensorNoise (Mechanical.reset p) = Mechanical.sensorNoise p.
Proof. repeat split. Qed.

(** C6 on the mechanical plant.  Built at position 0 and driven for one
    step with force 100, the plant is at position 0.128 with velocity
    3.2; [reset] stops it but leaves it at 0.128, not at the position it
    was constructed with. *)
Theorem mechanical_reset_keeps_position :
  let p0 := sampleMechanical in
  let p1 := snd (Mechanical.update (fun _ => zero) zero (ofZ 100)
                   (ratio 4 100) p0) in
  Mechanical.state p0 = Mechanical.mkState zero zero /\
  Mechanical.state p1 = Mechanical.mkState (ratio 128 1000) (ratio 32 10) /\
  Mechanical.state (Mechanical.reset p1) =
    Mechanical.mkState (ratio 128 1000) zero /\
  Mechanical.reset p1 <> p0.
Proof.
  cbv zeta. repeat split; try (vm_compute; reflexivity).
  intros H. apply (f_equal Mechanical.state) in H.
  vm_compute in H. discriminate H.
Qed.

(** The industrial plants do restore what they were constructed with:
    [reset] after a step is [reset] before it, and a freshly constructed
    plant is its own reset. *)
Lemma thermal_reset_restores (params : Temperature.Params) (u dt : number)
  (p : Temperature.TemperatureControlSystem) :
  Temperature.reset (snd (Temperature.update u dt p)) = Temperature.reset p /\
  Temperature.reset (Temperature.constructor params) =
    Temperature.constructor params.
Proof. split; reflexivity. Qed.

Lemma tank_reset_restores (params : TankLevel.Params) (u dt : number)
  (p : TankLevel.TankLevelSystem) :
  TankLevel.reset (snd (TankLevel.update u dt p)) = TankLevel.reset p /\
  TankLevel.reset (TankLevel.constructor params) =
    TankLevel.constructor params.
Proof. split; reflexivity. Qed.

Lemma motor_reset_restores (params : MotorSpeed.Params) (u dt : number)
  (p : MotorSpeed.MotorSpeedSystem) :
  MotorSpeed.reset (snd (MotorSpeed.update u dt p)) = MotorSpeed.reset p /\
  MotorSpeed.reset (MotorSpeed.constructor params) =
    MotorSpeed.constructor params.
Proof. split; reflexivity. Qed.

Lemma pressure_reset_restores (params : Pressure.Params) (u dt : number)
  (p : Pressure.PressureControlSystem) :
  Pressure.reset (snd (Pressure.update u dt p)) = Pressure.reset p /\
  Pressure.reset (Pressure.constructor params) =
    Pressure.constructor params.
Proof. split; reflexivity. Qed.

End PlantReset.

(** ** The level of the tank (C9) *)

Section TankLevelBounds.

Import TankLevel.

(** C9, amended.  After every [update] call of the tank the returned
    process variable is the stored level; and for a tank with
    [0 <= maxLevel] the stored level lies within [[0, maxLevel]] whenever
    it is a number. *)
Theorem tank_level_within_bounds (u dt : number) (p : TankLevelSystem) :
  processVariable (fst (update u dt p)) = level (state (snd (update u dt p)))
  /\
  (leb zero (maxLevel p) = true ->
   isNaN (level (state (snd (update u dt p)))) = false ->
   within zero (maxLevel p) (level (state (snd (update u dt p)))) = true).
Proof.
  split; [reflexivity|].
  intros Hmax Hnum. now apply saturate_within.
Qed.

Lemma tank_level_within_bounds_witness :
  within zero (ofZ 5)
    (level (state (snd (update (ofZ 50) (ratio 4 100) sampleTank)))) = true.
Proof.
  apply (proj2 (tank_level_within_bounds (ofZ 50) (ratio 4 100) sampleTank));
    vm_compute; reflexivity.
Defined.

(** C9 as stated fails on an input that is NaN, which leaves the level
    NaN, and on a tank constructed with a negative [maxLevel], whose level
    is held at 0, above [maxLevel]. *)
Lemma tank_level_outside_bounds :
  let p1 := snd (update NaN (ratio 4 100) sampleTank) in
  let shallow := constructor (mkParams None None None (Some (ofZ (-1)))) in
  let p2 := snd (update (ofZ 50) (ratio 4 100) shallow) in
  (level (state p1) = NaN /\
   within zero (maxLevel p1) (level (state p1)) = false) /\
  (level (state p2) = zero /\
   within zero (maxLevel p2) (level (state p2)) = false).
Proof. vm_compute. repeat split. Qed.

End TankLevelBounds.

(** ** Determinism across reset (C8) *)

Section Determinism.

Import AdvancedPID.

Lemma update_keeps_configuration (sp pv dt : number)
  (c : AdvancedPIDController) :
  config (snd (update sp pv dt c)) = config c /\
  _Kp (snd (update sp pv dt c)) = _Kp c /\
  _Ki (snd (update sp pv dt c)) = _Ki c /\
  _Kd (snd (update sp pv dt c)) = _Kd c.
Proof.
  unfold update. cbn [state set_simulationTime].
  destruct (leb dt zero); [now repeat split|].
  destruct (isManual (state c)); [now repeat split|].
  match goal with
  | |- context [antiWindup ?raw dt ?c0] =>
      pose proof (antiWindup_config raw dt c0) as Hc;
      pose proof (antiWindup_gains raw dt c0) as (Hp & Hi & Hd);
      destruct (antiWindup raw dt c0) as [o c1]
  end.
  cbn in *. rewrite Hc, Hp, Hi, Hd.
  rewrite integrate_config.
  destruct (integrate_gains (sub sp pv) dt
              (set_proportional
                 (mul (_Kp c)
                    (sub (mul (setpointWeightP (config c)) sp) pv))
                 (set_simulationTime (add (simulationTime c) dt) c)))
    as (-> & -> & ->).
  now repeat split.
Qed.

Lemma setManualMode_keeps_configuration (b : bool) (m : option number)
  (c : AdvancedPIDController) :
  config (setManualMode b m c) = config c /\
  _Kp (setManualMode b m c) = _Kp c /\
  _Ki (setManualMode b m c) = _Ki c /\
  _Kd (setManualMode b m c) = _Kd c.
Proof.
  unfold setManualMode.
  destruct b, (isManual (state c)); cbn; now repeat split.
Qed.

Lemma run_keeps_configuration (calls : list Call) :
  forall c : AdvancedPIDController,
    config (snd (run calls c)) = config c /\
    _Kp (snd (run calls c)) = _Kp c /\
    _Ki (snd (run calls c)) = _Ki c /\
    _Kd (snd (run calls c)) = _Kd c.
Proof.
  induction calls as [|call rest IH]; intros c; [now repeat split|].
  cbn [run].
  assert (Hstep : config (snd (perform call c)) = config c /\
                  _Kp (snd (perform call c)) = _Kp c /\
                  _Ki (snd (perform call c)) = _Ki c /\
                  _Kd (snd (perform call c)) = _Kd c).
  { destruct call as [sp pv dt | b m]; cbn [perform].
    - pose proof (update_keeps_configuration sp pv dt c) as H.
      destruct (update sp pv dt c); exact H.
    - apply setManualMode_keeps_configuration. }
  destruct (perform call c) as [o c1]. cbn [snd] in Hstep.
  specialize (IH c1). destruct (run rest c1) as [os c2]. cbn [snd] in *.
  destruct IH as (-> & -> & -> & ->). exact Hstep.
Qed.

(** [reset] rebuilds the state, terms, metrics and clock of the
    constructor and keeps gains and configuration. *)
Lemma reset_is_fresh (c : AdvancedPIDController) :
  reset c =
  mk (_Kp c) (_Ki c) (_Kd c) (config c)
     initialState initialTerms initialMetrics zero.
Proof. reflexivity. Qed.

(** C8.  A controller that has been through any sequence of [update]
    and [setManualMode] calls and is then [reset], and a controller
    freshly constructed from the same arguments, return the same values,
    call by call, on every sequence of calls. *)
Theorem reset_replay_is_deterministic (Kp Ki Kd : option number)
  (options : Options) (past calls : list Call) :
  fst (run calls (reset (snd (run past (constructor Kp Ki Kd options))))) =
  fst (run calls (constructor Kp Ki Kd options)).
Proof.
  destruct (run_keeps_configuration past (constructor Kp Ki Kd options))
    as (Hc & Hp & Hi & Hd).
  rewrite reset_is_fresh, Hc, Hp, Hi, Hd.
  reflexivity.
Qed.

End Determinism.

(** ** Identification of the ultimate gain and period (C7) *)

Section AutoTuneIdentification.

Import App.

(** The tuner never keeps more than four peaks. *)
Lemma increaseKp_peaks (t : number) (app : SimulationApp) :
  peaks (autoTune (increaseKp t app)) = peaks (autoTune app).
Proof.
  unfold increaseKp.
  destruct (_ && _); [reflexivity|].
  destruct (negb _); reflexivity.
Qed.

Lemma finishAutoTune_fields (app : SimulationApp) :
  isAutoTuning (finishAutoTune app) = false /\
  autoTune (finishAutoTune app) = autoTune app.
Proof.
  unfold finishAutoTune. cbn.
  destruct (leb _ zero || leb _ zero); now split.
Qed.

Lemma runAutoTuneLogic_keeps_four (pv t : number) (app : SimulationApp) :
  (List.length (peaks (autoTune app)) <= 4)%nat ->
  (List.length (peaks (autoTune (runAutoTuneLogic pv t app))) <= 4)%nat.
Proof.
  intros Hlen. unfold runAutoTuneLogic.
  destruct (Nat.ltb _ 3); [assumption|].
  destruct (_ && _); [|now rewrite increaseKp_peaks].
  destruct (gtb _ _); [|now rewrite increaseKp_peaks].
  cbn [peaks lastPeak].
  assert (Htl : (List.length
                   (tl (peaks (autoTune app) ++ [mkPeak
                      (nth (List.length (history app) - 2) (history app) NaN)
                      t])) <= 4)%nat).
  { destruct (peaks (autoTune app)) as [|p ps]; cbn in *; [lia|].
    rewrite length_app. cbn. lia. }
  destruct (Nat.ltb 4 _) eqn:E.
  - destruct (ltb _ _).
    + match goal with
      | |- context [finishAutoTune ?x] =>
          destruct (finishAutoTune_fields x) as [_ ->]
      end.
      exact Htl.
    + rewrite increaseKp_peaks. exact Htl.
  - rewrite increaseKp_peaks. cbn.
    apply Nat.ltb_ge in E. exact E.
Qed.

(** [finishAutoTune] with a positive ultimate gain and period leaves
    the controller with the values the sliders hold. *)
Lemma finishAutoTune_gains (app : SimulationApp) :
  leb (ultimateGain (autoTune app)) zero = false ->
  leb (oscillationPeriod (autoTune app)) zero = false ->
  let app' := finishAutoTune app in
  AdvancedPID._Kp (pid app') = slider_value (kpSlider (ui app')) /\
  AdvancedPID._Ki (pid app') = slider_value (kiSlider (ui app')) /\
  AdvancedPID._Kd (pid app') = slider_value (kdSlider (ui app')).
Proof.
  intros HKu HTu. unfold finishAutoTune. cbn. rewrite HKu, HTu. cbn.
  repeat split.
Qed.

(** C7.  In the search, when four peaks are held (so that the peak
    found on this tick is at least the fifth recorded), the oldest is
    dropped and the first and the most recent of the last four are
    compared: if their amplitudes differ by less than 5% of the setpoint,
    the ultimate gain is the current Kp, the ultimate period is the time
    between those two peaks divided by three (the mean of the three
    intervals between the four peaks), and the search ends. *)
Theorem autotune_identifies_ultimate_gain
  (pv currentTime : number) (app : SimulationApp) (p1 p2 p3 p4 : Peak) :
  let n := List.length (history app) in
  let prevPv := nth (n - 2) (history app) NaN in
  (3 <= n)%nat ->
  ltb pv prevPv = true ->
  gtb prevPv (nth (n - 3) (history app) NaN) = true ->
  gtb prevPv (value (lastPeak (autoTune app))) = true ->
  peaks (autoTune app) = [p1; p2; p3; p4] ->
  ltb (abs (sub prevPv (value p2))) (mul (setpoint app) (ratio 5 100))
    = true ->
  let app' := runAutoTuneLogic pv currentTime app in
  peaks (autoTune app') = [p2; p3; p4; mkPeak prevPv currentTime] /\
  ultimateGain (autoTune app') = AdvancedPID._Kp (pid app) /\
  oscillationPeriod (autoTune app') =
    div (sub currentTime (time p2)) (ofZ 3) /\
  isAutoTuning app' = false.
Proof.
  intros n prevPv Hn Hfall Hrise Hnew Hpeaks Hstable app'.
  subst app'. unfold runAutoTuneLogic.
  fold n. fold prevPv.
  assert (Hlt : Nat.ltb n 3 = false) by (apply Nat.ltb_ge; exact Hn).
  rewrite Hlt, Hfall, Hrise, Hnew. cbn [andb].
  cbn [peaks lastPeak lastTrough initialKp kpStep oscillationPeriod
       ultimateGain].
  rewrite Hpeaks. cbn [List.app tl List.length Nat.ltb Nat.leb nth value time].
  rewrite Hstable.
  match goal with
  | |- context [finishAutoTune ?x] =>
      destruct (finishAutoTune_fields x) as [-> ->]
  end.
  cbn. repeat split.
Qed.

Lemma autotune_identifies_ultimate_gain_witness :
  let app' := runAutoTuneLogic (ofZ 78) (ofZ 9) sampleApp in
  peaks (autoTune app') =
    [samplePeak2; samplePeak3; samplePeak4; mkPeak (ofZ 81) (ofZ 9)] /\
  ultimateGain (autoTune app') = ofZ 3 /\
  oscillationPeriod (autoTune app') = ofZ 2 /\
  isAutoTuning app' = false.
Proof.
  apply (autotune_identifies_ultimate_gain (ofZ 78) (ofZ 9) sampleApp
           samplePeak1 samplePeak2 samplePeak3 samplePeak4);
    vm_compute; reflexivity.
Defined.

(** While the two peaks differ by 5% of the setpoint or more, the tuner
    stays in the search and identifies nothing. *)
Lemma autotune_keeps_searching
  (pv currentTime : number) (app : SimulationApp) (p1 p2 p3 p4 : Peak) :
  let n := List.length (history app) in
  let prevPv := nth (n - 2) (history app) NaN in
  (3 <= n)%nat ->
  ltb pv prevPv = true ->
  gtb prevPv (nth (n - 3) (history app) NaN) = true ->
  gtb prevPv (value (lastPeak (autoTune app))) = true ->
  peaks (autoTune app) = [p1; p2; p3; p4] ->
  ltb (abs (sub prevPv (value p2))) (mul (setpoint app) (ratio 5 100))
    = false ->
  let app' := runAutoTuneLogic pv currentTime app in
  isAutoTuning app' = isAutoTuning app /\
  ultimateGain (autoTune app') = ultimateGain (autoTune app) /\
  oscillationPeriod (autoTune app') = oscillationPeriod (autoTune app).
Proof.
  intros n prevPv Hn Hfall Hrise Hnew Hpeaks Hstable app'.
  subst app'. unfold runAutoTuneLogic.
  fold n. fold prevPv.
  assert (Hlt : Nat.ltb n 3 = false) by (apply Nat.ltb_ge; exact Hn).
  rewrite Hlt, Hfall, Hrise, Hnew. cbn [andb].
  cbn [peaks lastPeak lastTrough initialKp kpStep oscillationPeriod
       ultimateGain].
  rewrite Hpeaks. cbn [List.app tl List.length Nat.ltb Nat.leb nth value time].
  rewrite Hstable.
  unfold increaseKp.
  destruct (_ && _); [now repeat split|].
  destruct (negb _); now repeat split.
Qed.

End AutoTuneIdentification.

(** * Further properties of the controller *)

Section AdvancedBookkeeping.

Import AdvancedPID.

Lemma integrate_metrics (error dt : number) (c : AdvancedPIDController) :
  metrics (integrate error dt c) = metrics c /\
  simulationTime (integrate error dt c) = simulationTime c.
Proof.
  unfold integrate.
  destruct (String.eqb _ _); [|now split].
  destruct (_ || _); now split.
Qed.

Lemma antiWindup_metrics (output dt : number) (c : AdvancedPIDController) :
  metrics (snd (antiWindup output dt c)) = metrics c /\
  simulationTime (snd (antiWindup output dt c)) = simulationTime c.
Proof.
  unfold antiWindup.
  destruct (String.eqb (antiWindupMethod (config c)) "clamping").
  - destruct (strict_neq _ output); now split.
  - destruct (String.eqb (antiWindupMethod (config c)) "back-calculation");
      [|now split].
    simpl. destruct (strict_neq _ output && strict_neq (_Ki c) zero);
      now split.
Qed.

(** In automatic mode with a positive time step, the metrics after
    [update] are those of [updateMetrics] run on the metrics before. *)
Lemma update_auto_metrics (sp pv dt : number) (c : AdvancedPIDController) :
  leb dt zero = false -> isManual (state c) = false ->
  exists c1,
    metrics c1 = metrics c /\
    metrics (snd (update sp pv dt c)) =
      metrics (updateMetrics (sub sp pv) (fst (update sp pv dt c)) dt c1).
Proof.
  intros Hdt Hman. unfold update.
  cbn [state set_simulationTime]. rewrite Hdt, Hman.
  match goal with
  | |- context [antiWindup ?raw dt ?c0] =>
      pose proof (antiWindup_metrics raw dt c0) as [Hm _];
      assert (Hm0 : metrics c0 = metrics c)
        by (cbn; now rewrite (proj1 (integrate_metrics _ _ _)));
      destruct (antiWindup raw dt c0) as [o c1]
  end.
  exists c1. cbn [fst snd] in *. split; [congruence|reflexivity].
Qed.

Lemma update_other_metrics (sp pv dt : number) (c : AdvancedPIDController) :
  leb dt zero = true \/ isManual (state c) = true ->
  metrics (snd (update sp pv dt c)) = metrics c.
Proof.
  intros H. unfold update. cbn [state set_simulationTime].
  destruct (leb dt zero); [reflexivity|].
  destruct H as [H|H]; [discriminate|]. now rewrite H.
Qed.

(** X1.  Whatever the mode and the time step, the last output that
    [update] leaves in the state is the value it returns. *)
Theorem update_stores_returned_output (sp pv dt : number)
  (c : AdvancedPIDController) :
  lastOutput (state (snd (update sp pv dt c))) = fst (update sp pv dt c).
Proof.
  unfold update. cbn [state set_simulationTime].
  destruct (leb dt zero); [reflexivity|].
  destruct (isManual (state c)); [reflexivity|].
  match goal with
  | |- context [antiWindup ?raw dt ?c0] =>
      destruct (antiWindup raw dt c0) as [o c1]
  end.
  reflexivity.
Qed.

(** X2.  A manual-mode [update] with a positive time step computes no
    term and accumulates nothing: the integral accumulator, the filtered
    derivative, the stored error and measurement, the terms and the
    metrics stay as they were, and the last output becomes the manual
    value. *)
Theorem update_manual_freezes (sp pv dt : number)
  (c : AdvancedPIDController) :
  leb dt zero = false -> isManual (state c) = true ->
  let c' := snd (update sp pv dt c) in
  integralSum (state c') = integralSum (state c) /\
  derivativeFiltered (state c') = derivativeFiltered (state c) /\
  lastError (state c') = lastError (state c) /\
  lastPV (state c') = lastPV (state c) /\
  terms c' = terms c /\
  metrics c' = metrics c /\
  lastOutput (state c') = manualOutput (state c) /\
  isManual (state c') = true.
Proof.
  intros Hdt Hman c'. subst c'. unfold update.
  cbn [state set_simulationTime]. rewrite Hdt, Hman. cbn.
  rewrite Hman. repeat split.
Qed.

Lemma update_manual_freezes_witness :
  let c := setManualMode true (Some (ofZ 50)) sampleController in
  integralSum (state (snd (update (ofZ 80) zero (ratio 4 100) c))) = zero /\
  lastOutput (state (snd (update (ofZ 80) zero (ratio 4 100) c))) = ofZ 50.
Proof.
  intros c.
  pose proof (update_manual_freezes (ofZ 80) zero (ratio 4 100) c) as H.
  assert (H1 : leb (ratio 4 100) zero = false) by (vm_compute; reflexivity).
  assert (H2 : isManual (state c) = true) by (vm_compute; reflexivity).
  specialize (H H1 H2). cbv zeta in H.
  destruct H as (Hi & _ & _ & _ & _ & _ & Ho & _).
  split; [exact Hi | exact Ho].
Defined.

End AdvancedBookkeeping.

Section AdvancedMetrics.

Import AdvancedPID.

Lemma Math_max_ge_r (lo m : number) :
  isNaN lo = false -> isNaN m = false -> leb m (Math_max lo m) = true.
Proof.
  intros Hl Hm.
  destruct lo as [sl|sl| |sl ml el], m as [sm|sm| |sm mm em];
    try discriminate; try reflexivity;
    unfold Math_max;
    match goal with
    | |- context [if ltb ?a ?b then _ else _] =>
        destruct (ltb a b) eqn:E;
        [now apply leb_refl | now apply ltb_false_leb]
    end.
Qed.

Lemma updateMetrics_lastOutputs (error output dt : number)
  (c : AdvancedPIDController) :
  (List.length (lastOutputs (metrics c)) <= 50)%nat ->
  (List.length (lastOutputs (metrics (updateMetrics error output dt c)))
   <= 50)%nat.
Proof.
  intros H. unfold updateMetrics. cbn [metrics set_metrics lastOutputs].
  destruct (Nat.ltb 50 _) eqn:E.
  - destruct (lastOutputs (metrics c)) as [|x xs]; cbn in *; [lia|].
    rewrite length_app. cbn. lia.
  - apply Nat.ltb_ge in E. exact E.
Qed.

Lemma update_lastOutputs (sp pv dt : number) (c : AdvancedPIDController) :
  (List.length (lastOutputs (metrics c)) <= 50)%nat ->
  (List.length (lastOutputs (metrics (snd (update sp pv dt c)))) <= 50)%nat.
Proof.
  intros H.
  destruct (leb dt zero) eqn:Hdt;
    [rewrite update_other_metrics; [exact H | now left]|].
  destruct (isManual (state c)) eqn:Hman;
    [rewrite update_other_metrics; [exact H | now right]|].
  destruct (update_auto_metrics sp pv dt c Hdt Hman) as (c1 & Hm & ->).
  apply updateMetrics_lastOutputs. now rewrite Hm.
Qed.

Lemma setManualMode_metrics (b : bool) (m : option number)
  (c : AdvancedPIDController) :
  metrics (setManualMode b m c) = metrics c.
Proof.
  unfold setManualMode.
  destruct b, (isManual (state c)); reflexivity.
Qed.

Lemma execute_lastOutputs (cmd : Command) (c : AdvancedPIDController) :
  (List.length (lastOutputs (metrics c)) <= 50)%nat ->
  (List.length (lastOutputs (metrics (execute cmd c))) <= 50)%nat.
Proof.
  intros H. destruct cmd as [[sp pv dt|b m]| | | | |]; cbn [execute perform];
    try exact H.
  - pose proof (update_lastOutputs sp pv dt c H) as Hu.
    destruct (update sp pv dt c). exact Hu.
  - cbn. now rewrite setManualMode_metrics.
  - cbn. lia.
Qed.

(** X3.  The window of recent outputs that feeds the variability metric
    never holds more than 50 values, whatever sequence of updates, mode
    changes, setter calls and resets a constructed controller goes
    through. *)
Theorem lastOutputs_never_exceeds_50 (Kp Ki Kd : option number)
  (options : Options) (cmds : list Command) :
  (List.length
     (lastOutputs
        (metrics (executeAll cmds (constructor Kp Ki Kd options))))
   <= 50)%nat.
Proof.
  unfold executeAll.
  assert (H0 : (List.length
                  (lastOutputs (metrics (constructor Kp Ki Kd options)))
                <= 50)%nat) by (cbn; lia).
  revert H0. generalize (constructor Kp Ki Kd options).
  induction cmds as [|cmd rest IH]; intros c Hc; [exact Hc|].
  cbn [fold_left]. apply IH. now apply execute_lastOutputs.
Qed.

(** X4.  The recorded maximum of the output magnitude never decreases:
    after [update] it is at least what it was, and after an automatic
    update with a positive time step it is at least the magnitude of the
    value returned (whenever the recorded maximum is a number). *)
Theorem update_maxOutput_monotone (sp pv dt : number)
  (c : AdvancedPIDController) :
  isNaN (maxOutput (metrics (snd (update sp pv dt c)))) = false ->
  leb (maxOutput (metrics c)) (maxOutput (metrics (snd (update sp pv dt c))))
    = true /\
  (leb dt zero = false -> isManual (state c) = false ->
   leb (abs (fst (update sp pv dt c)))
       (maxOutput (metrics (snd (update sp pv dt c)))) = true).
Proof.
  intros Hnum.
  destruct (leb dt zero) eqn:Hdt.
  { rewrite update_other_metrics in * by now left.
    split; [now apply leb_refl | discriminate]. }
  destruct (isManual (state c)) eqn:Hman.
  { rewrite update_other_metrics in * by now right.
    split; [now apply leb_refl | discriminate]. }
  destruct (update_auto_metrics sp pv dt c Hdt Hman) as (c1 & Hm & Hu).
  rewrite Hu in *. unfold updateMetrics in *.
  cbn [metrics set_metrics maxOutput] in *. rewrite Hm in *.
  rewrite Math_max_nan in Hnum. apply orb_false_iff in Hnum as [Ha Hb].
  split; [now apply Math_max_ge_l | intros _ _; now apply Math_max_ge_r].
Qed.

Lemma update_maxOutput_monotone_witness :
  leb (abs (fst (update (ofZ 80) zero (ratio 4 100) sampleController)))
      (maxOutput
         (metrics (snd (update (ofZ 80) zero (ratio 4 100) sampleController))))
  = true.
Proof.
  apply (update_maxOutput_monotone (ofZ 80) zero (ratio 4 100)
           sampleController); vm_compute; reflexivity.
Defined.

End AdvancedMetrics.

Section AdvancedModesAndGains.

Import AdvancedPID.

(** X5.  [setManualMode] without a change of mode: asked for automatic
    while already automatic it changes nothing at all; asked for manual
    while already manual it replaces the manual value (0 if none is
    given) and touches neither the integral accumulator nor the terms. *)
Theorem setManualMode_without_transition (m : option number)
  (c : AdvancedPIDController) :
  (isManual (state c) = false -> setManualMode false m c = c) /\
  (isManual (state c) = true ->
   let c' := setManualMode true m c in
   manualOutput (state c') = default_arg m zero /\
   isManual (state c') = true /\
   integralSum (state c') = integralSum (state c) /\
   lastOutput (state c') = lastOutput (state c) /\
   terms c' = terms c).
Proof.
  split; intros Hman.
  - destruct c as [kp ki kd cf st tm mt tmr].
    destruct st as [le lp isum df lo man mo]. cbn in Hman. subst man.
    reflexivity.
  - unfold setManualMode. rewrite Hman. cbn. repeat split.
Qed.

Lemma setManualMode_without_transition_witness :
  setManualMode false None sampleController = sampleController /\
  manualOutput
    (state (setManualMode true None
              (setManualMode true (Some (ofZ 50)) sampleController))) = zero.
Proof.
  split.
  - apply (proj1 (setManualMode_without_transition None sampleController)).
    vm_compute. reflexivity.
  - apply (proj2 (setManualMode_without_transition None
                    (setManualMode true (Some (ofZ 50)) sampleController))).
    vm_compute. reflexivity.
Defined.

Lemma or_number_truthy (x : option number) (d : number) :
  truthy d = true -> truthy (or_number x d) = true.
Proof.
  intros Hd. unfold or_number.
  destruct x as [v|]; [|exact Hd].
  destruct (truthy v) eqn:E; assumption.
Qed.

(** X6.  Whatever options the constructor is given, the limits, the
    derivative filter and the proportional setpoint weight it stores are
    never 0 and never NaN: such an option is replaced by the default.  An
    output limit of 0 can be set through [setOutputLimits] only. *)
Theorem constructor_replaces_falsy_options (Kp Ki Kd : option number)
  (options : Options) :
  let cf := config (constructor Kp Ki Kd options) in
  truthy (outputMin cf) = true /\
  truthy (outputMax cf) = true /\
  truthy (derivativeFilter cf) = true /\
  truthy (setpointWeightP cf) = true /\
  (forall max filter wP wD mode method,
      outputMin
        (config (constructor Kp Ki Kd
                   (mkOptions (Some zero) max filter wP wD mode method)))
      = neg (ofZ 100)) /\
  (forall c max, outputMin (config (setOutputLimits zero max c)) = zero).
Proof.
  cbn. repeat split; apply or_number_truthy; reflexivity.
Qed.

(** X7.  After [reset], a call with a time step that is not positive
    returns 0 from the advanced controller.  The basic controller's
    [reset] keeps the proportional term: after a step with a positive
    time step and a reset, such a call returns Kp * (setpoint - pv) of
    that step (plus two zeros), not 0. *)
Theorem reset_then_idle_update (sp pv dt sp' pv' dt' : number) :
  leb dt zero = false -> leb dt' zero = true ->
  (forall c : AdvancedPIDController,
      fst (update sp' pv' dt' (reset (snd (update sp pv dt c)))) = zero) /\
  (forall b : BasicPID.PIDController,
      fst (BasicPID.update sp' pv' dt'
             (BasicPID.reset (snd (BasicPID.update sp pv dt b)))) =
      add (add (mul (BasicPID._Kp b) (sub sp pv)) zero) zero).
Proof.
  intros Hdt Hdt'. split.
  - intros c. now rewrite update_nonpositive_dt.
  - intros b. rewrite basic_update_nonpositive_dt by assumption.
    unfold BasicPID.update. rewrite Hdt. reflexivity.
Qed.

Lemma reset_then_idle_update_witness :
  fst (update (ofZ 80) zero zero
         (reset (snd (update (ofZ 80) zero (ratio 4 100) sampleController))))
    = zero /\
  fst (BasicPID.update (ofZ 80) zero zero
         (BasicPID.reset
            (snd (BasicPID.update (ofZ 80) zero (ratio 4 100) sampleBasic))))
    = ofZ 160.
Proof.
  assert (H1 : leb (ratio 4 100) zero = false) by (vm_compute; reflexivity).
  assert (H2 : leb zero zero = true) by (vm_compute; reflexivity).
  split.
  - apply (proj1 (reset_then_idle_update (ofZ 80) zero (ratio 4 100)
                    (ofZ 80) zero zero H1 H2)).
  - apply (proj2 (reset_then_idle_update (ofZ 80) zero (ratio 4 100)
                    (ofZ 80) zero zero H1 H2) sampleBasic).
Defined.

End AdvancedModesAndGains.

Section ZieglerNichols.

Import App.

(** X8.  [finishAutoTune] ends the search in every case.  With
    [Ku <= 0] or [Tu <= 0] it leaves the controller and the sliders
    untouched.  Otherwise it writes to the three sliders the gains that
    the controller's own [autoTuneZieglerNichols] computes from [Ku] and
    [Tu], and, by the dispatched 'input' events, the controller ends with
    the values the sliders hold as its gains and is otherwise as it was.
    When the sliders hold the three values as they were assigned, the
    controller is exactly as [autoTuneZieglerNichols] would leave it. *)
Theorem finishAutoTune_applies_ziegler_nichols (app : SimulationApp) :
  let Ku := ultimateGain (autoTune app) in
  let Tu := oscillationPeriod (autoTune app) in
  let tuning := fst (AdvancedPID.autoTuneZieglerNichols Ku Tu (pid app)) in
  let app' := finishAutoTune app in
  isAutoTuning app' = false /\
  (leb Ku zero || leb Tu zero = true ->
   pid app' = pid app /\ ui app' = ui app) /\
  (leb Ku zero || leb Tu zero = false ->
   slider_value (kpSlider (ui app')) =
     accepts (kpSlider (ui app)) (AdvancedPID.tuned_Kp tuning) /\
   slider_value (kiSlider (ui app')) =
     accepts (kiSlider (ui app)) (AdvancedPID.tuned_Ki tuning) /\
   slider_value (kdSlider (ui app')) =
     accepts (kdSlider (ui app)) (AdvancedPID.tuned_Kd tuning) /\
   pid app' =
     AdvancedPID.setGains (slider_value (kpSlider (ui app')))
                          (slider_value (kiSlider (ui app')))
                          (slider_value (kdSlider (ui app')))
                          (pid app) /\
   (accepts (kpSlider (ui app)) (AdvancedPID.tuned_Kp tuning) =
      AdvancedPID.tuned_Kp tuning ->
    accepts (kiSlider (ui app)) (AdvancedPID.tuned_Ki tuning) =
      AdvancedPID.tuned_Ki tuning ->
    accepts (kdSlider (ui app)) (AdvancedPID.tuned_Kd tuning) =
      AdvancedPID.tuned_Kd tuning ->
    pid app' = snd (AdvancedPID.autoTuneZieglerNichols Ku Tu (pid app)))).
Proof.
  cbv zeta. unfold finishAutoTune. cbn.
  destruct (leb (ultimateGain (autoTune app)) zero
            || leb (oscillationPeriod (autoTune app)) zero).
  - split; [reflexivity|]. split; [|discriminate].
    intros _. split; reflexivity.
  - split; [reflexivity|]. split; [discriminate|].
    intros _. cbn.
    split; [reflexivity|]. split; [reflexivity|]. split; [reflexivity|].
    split; [reflexivity|].
    intros Hp Hi Hd. unfold AdvancedPID.setGains. cbn.
    rewrite Hp, Hi, Hd. reflexivity.
Qed.

Lemma finishAutoTune_applies_ziegler_nichols_witness :
  let identified :=
    set_autoTune
      (mkAutoTune (ratio 5 10) (ratio 2 10) samplePeak4
         (mkPeak Infinity zero) [] (ofZ 2) (ofZ 3)) sampleApp in
  pid (finishAutoTune identified) =
    snd (AdvancedPID.autoTuneZieglerNichols (ofZ 3) (ofZ 2) (pid sampleApp))
  /\ slider_value (kdSlider (ui (finishAutoTune identified))) =
       div (mul (mul (ratio 6 10) (ofZ 3)) (ofZ 2)) (ofZ 8)
  /\ pid (finishAutoTune sampleApp) = pid sampleApp.
Proof.
  intros identified. split; [|split].
  - refine (proj2 (proj2 (proj2 (proj2
              (proj2 (proj2 (finishAutoTune_applies_ziegler_nichols
                               identified)) _)))) _ _ _);
      vm_compute; reflexivity.
  - refine (eq_trans
              (proj1 (proj2 (proj2
                 (proj2 (proj2 (finishAutoTune_applies_ziegler_nichols
                                  identified)) _)))) _);
      vm_compute; reflexivity.
  - refine (proj1 (proj1 (proj2 (finishAutoTune_applies_ziegler_nichols
                                   sampleApp)) _)).
    vm_compute. reflexivity.
Defined.

(** With sliders that end at 10, an ultimate gain of 30 gives the
    Ziegler-Nichols Kp of 18, the Kp slider holds 10, and the listener
    leaves the controller with Kp = 10. *)
Lemma finishAutoTune_slider_range_example :
  let identified :=
    set_autoTune
      (mkAutoTune (ratio 5 10) (ratio 2 10) samplePeak4
         (mkPeak Infinity zero) [] (ofZ 2) (ofZ 30)) sampleApp in
  mul (ratio 6 10) (ofZ 30) = ofZ 18 /\
  slider_value (kpSlider (ui (finishAutoTune identified))) = ofZ 10 /\
  AdvancedPID._Kp (pid (finishAutoTune identified)) = ofZ 10.
Proof. vm_compute. repeat split. Qed.

End ZieglerNichols.

(** * Further properties of the mechanical plant *)

Section MechanicalNoiseAndDelay.

Import Mechanical.

(** X9.  Sensor noise never reaches the physical state: the plant left
    by [update] is the same whatever [Math.sin] and [Math.random()]
    give, the reported position and velocity are those of the state,
    enabling noise changes nothing in the next state, and with noise
    disabled the measured position is the position itself. *)
Theorem sensor_noise_leaves_state_alone
  (sin1 sin2 : number -> number) (r1 r2 u dt amplitude : number)
  (p : MechanicalSystem) :
  snd (update sin1 r1 u dt p) = snd (update sin2 r2 u dt p) /\
  snap_position (fst (update sin1 r1 u dt p)) =
    position (state (snd (update sin1 r1 u dt p))) /\
  snap_velocity (fst (update sin1 r1 u dt p)) =
    velocity (state (snd (update sin1 r1 u dt p))) /\
  state (snd (update sin1 r1 u dt (enableNoise (Some amplitude) p))) =
    state (snd (update sin1 r1 u dt p)) /\
  (noise_enabled (sensorNoise p) = false ->
   measuredPosition (fst (update sin1 r1 u dt p)) =
     position (state (snd (update sin1 r1 u dt p)))).
Proof.
  unfold update, enableNoise.
  cbn [systemDelay set_simulationTime delay_enabled].
  destruct (delay_enabled (systemDelay p)).
  - unfold _applyDelay. cbn. repeat split.
    intros ->. reflexivity.
  - cbn. repeat split. intros ->. reflexivity.
Qed.

Lemma sensor_noise_leaves_state_alone_witness :
  measuredPosition
    (fst (update (fun _ => one) one (ofZ 100) (ratio 4 100) sampleMechanical))
  = ratio 128 1000.
Proof.
  rewrite (proj2 (proj2 (proj2 (proj2
            (sensor_noise_leaves_state_alone (fun _ => one) (fun _ => one)
               one one (ofZ 100) (ratio 4 100) one sampleMechanical))))).
  - vm_compute. reflexivity.
  - vm_compute. reflexivity.
Defined.

(** X10.  What [_applyDelay] hands on is the current input or the value
    of an entry it keeps in the buffer, stamped no later than
    [now - delay]; every entry it keeps is stamped after
    [now - 3 * delay] and was in the buffer before or is the entry just
    pushed. *)
Theorem applyDelay_output_from_buffer (input dt : number)
  (p : MechanicalSystem) :
  let now := simulationTime p in
  let delay := delay_time (systemDelay p) in
  let r := _applyDelay input dt p in
  let kept := delay_buffer (systemDelay (snd r)) in
  (fst r = input \/
   exists item, In item kept /\ sample_value item = fst r /\
                leb (sample_time item) (sub now delay) = true) /\
  (forall item, In item kept ->
     gtb (sample_time item) (sub now (mul delay (ofZ 3))) = true /\
     (In item (delay_buffer (systemDelay p)) \/
      item = mkSample input now)).
Proof.
  cbv zeta. unfold _applyDelay.
  cbn [fst snd systemDelay set_buffer delay_buffer simulationTime delay_time].
  split.
  - match goal with
    | |- context [find ?f (rev ?l)] => destruct (find f (rev l)) eqn:E
    end; [right | now left].
    apply find_some in E as [Hin Hle]. apply in_rev in Hin.
    exists s. repeat split; assumption.
  - intros item Hin. apply filter_In in Hin as [Hin Hgt].
    split; [exact Hgt|].
    apply in_app_or in Hin as [Hin|[<-|[]]]; [now left | now right].
Qed.

Lemma applyDelay_output_from_buffer_witness :
  let p := enableDelay None sampleMechanical in
  gtb (sample_time (mkSample (ofZ 100) zero))
      (sub (simulationTime p) (mul (delay_time (systemDelay p)) (ofZ 3)))
  = true.
Proof.
  intros p.
  apply (proj2 (applyDelay_output_from_buffer (ofZ 100) (ratio 4 100) p)
           (mkSample (ofZ 100) zero)).
  vm_compute. left. reflexivity.
Defined.



Lemma update_without_delay (sin : number -> number) (r u dt : number)
  (p : MechanicalSystem) :
  delay_enabled (systemDelay p) = false ->
  systemDelay (snd (update sin r u dt p)) = systemDelay p.
Proof.
  intros H. unfold update. cbn [systemDelay set_simulationTime].
  rewrite H. reflexivity.
Qed.

Lemma steps_without_delay (sin : number -> number)
  (inputs : list (number * number * number)) :
  forall p : MechanicalSystem,
    delay_enabled (systemDelay p) = false ->
    systemDelay (steps sin inputs p) = systemDelay p.
Proof.
  unfold steps.
  induction inputs as [|i rest IH]; intros p H; [reflexivity|].
  cbn [fold_left]. rewrite IH.
  - now apply update_without_delay.
  - now rewrite update_without_delay.
Qed.

(** X12.  Switching the delay off empties the buffer, and no number of
    steps taken while it is off puts anything back: switched on again,
    the delay starts from an empty buffer. *)
Theorem delay_restarts_empty (sin : number -> number)
  (inputs : list (number * number * number)) (delayTime' : option number)
  (p : MechanicalSystem) :
  delay_buffer
    (systemDelay (enableDelay delayTime' (steps sin inputs (disableDelay p))))
  = [].
Proof.
  cbn [enableDelay systemDelay delay_buffer].
  rewrite steps_without_delay; reflexivity.
Qed.

End MechanicalNoiseAndDelay.

(** * Further properties of the industrial plants *)

Section IndustrialHistories.

Lemma thermal_operate_reset (op : Temperature.Operation)
  (p : Temperature.TemperatureControlSystem) :
  Temperature.reset (Temperature.operate op p) = Temperature.reset p /\
  Temperature.thermalCapacity (Temperature.operate op p) =
    Temperature.thermalCapacity p /\
  Temperature.thermalResistance (Temperature.operate op p) =
    Temperature.thermalResistance p.
Proof. destruct op; repeat split. Qed.

Lemma tank_operate_reset (op : TankLevel.Operation)
  (p : TankLevel.TankLevelSystem) :
  TankLevel.reset (TankLevel.operate op p) = TankLevel.reset p /\
  TankLevel.tankArea (TankLevel.operate op p) = TankLevel.tankArea p.
Proof.
  destruct op as [u dt|type v]; [now split|].
  unfold TankLevel.operate, TankLevel.setDisturbance.
  now destruct (String.eqb type "inlet"), (String.eqb type "leak").
Qed.

Lemma motor_operate_reset (op : MotorSpeed.Operation)
  (p : MotorSpeed.MotorSpeedSystem) :
  MotorSpeed.reset (MotorSpeed.operate op p) = MotorSpeed.reset p /\
  MotorSpeed.inertia (MotorSpeed.operate op p) = MotorSpeed.inertia p.
Proof.
  destruct op as [u dt|type v]; [now split|].
  unfold MotorSpeed.operate, MotorSpeed.setDisturbance.
  now destruct (String.eqb type "load"), (String.eqb type "friction").
Qed.

Lemma pressure_operate_reset (op : Pressure.Operation)
  (p : Pressure.PressureControlSystem) :
  Pressure.reset (Pressure.operate op p) = Pressure.reset p /\
  Pressure.volume (Pressure.operate op p) = Pressure.volume p.
Proof.
  destruct op as [u dt|type v]; [now split|].
  unfold Pressure.operate, Pressure.setDisturbance.
  now destruct (String.eqb type "outlet"), (String.eqb type "leak"),
    (String.eqb type "temperature").
Qed.

Lemma thermal_run_reset (ops : list Temperature.Operation) :
  forall p,
    Temperature.reset (Temperature.run ops p) = Temperature.reset p /\
    Temperature.thermalCapacity (Temperature.run ops p) =
      Temperature.thermalCapacity p /\
    Temperature.thermalResistance (Temperature.run ops p) =
      Temperature.thermalResistance p.
Proof.
  unfold Temperature.run.
  induction ops as [|op rest IH]; intros p; [now repeat split|].
  cbn [fold_left].
  destruct (IH (Temperature.operate op p)) as (-> & -> & ->).
  apply thermal_operate_reset.
Qed.

Lemma tank_run_reset (ops : list TankLevel.Operation) :
  forall p,
    TankLevel.reset (TankLevel.run ops p) = TankLevel.reset p /\
    TankLevel.tankArea (TankLevel.run ops p) = TankLevel.tankArea p.
Proof.
  unfold TankLevel.run.
  induction ops as [|op rest IH]; intros p; [now split|].
  cbn [fold_left].
  destruct (IH (TankLevel.operate op p)) as (-> & ->).
  apply tank_operate_reset.
Qed.

Lemma motor_run_reset (ops : list MotorSpeed.Operation) :
  forall p,
    MotorSpeed.reset (MotorSpeed.run ops p) = MotorSpeed.reset p /\
    MotorSpeed.inertia (MotorSpeed.run ops p) = MotorSpeed.inertia p.
Proof.
  unfold MotorSpeed.run.
  induction ops as [|op rest IH]; intros p; [now split|].
  cbn [fold_left].
  destruct (IH (MotorSpeed.operate op p)) as (-> & ->).
  apply motor_operate_reset.
Qed.

Lemma pressure_run_reset (ops : list Pressure.Operation) :
  forall p,
    Pressure.reset (Pressure.run ops p) = Pressure.reset p /\
    Pressure.volume (Pressure.run ops p) = Pressure.volume p.
Proof.
  unfold Pressure.run.
  induction ops as [|op rest IH]; intros p; [now split|].
  cbn [fold_left].
  destruct (IH (Pressure.operate op p)) as (-> & ->).
  apply pressure_operate_reset.
Qed.

(** X13.  For each of the four industrial plants, [reset] after any
    sequence of updates and disturbance settings gives back exactly the
    plant the constructor built. *)
Theorem industrial_reset_restores_constructed :
  (forall params ops,
      Temperature.reset (Temperature.run ops (Temperature.constructor params))
      = Temperature.constructor params) /\
  (forall params ops,
      TankLevel.reset (TankLevel.run ops (TankLevel.constructor params))
      = TankLevel.constructor params) /\
  (forall params ops,
      MotorSpeed.reset (MotorSpeed.run ops (MotorSpeed.constructor params))
      = MotorSpeed.constructor params) /\
  (forall params ops,
      Pressure.reset (Pressure.run ops (Pressure.constructor params))
      = Pressure.constructor params).
Proof.
  split; [|split; [|split]]; intros params ops.
  - now rewrite (proj1 (thermal_run_reset ops _)).
  - now rewrite (proj1 (tank_run_reset ops _)).
  - now rewrite (proj1 (motor_run_reset ops _)).
  - now rewrite (proj1 (pressure_run_reset ops _)).
Qed.

Lemma thermal_or_number_truthy (x : option number) (d : number) :
  truthy d = true -> truthy (Temperature.or_number x d) = true.
Proof.
  intros Hd. unfold Temperature.or_number.
  destruct x as [v|]; [|exact Hd]. destruct (truthy v) eqn:E; assumption.
Qed.

Lemma tank_or_number_truthy (x : option number) (d : number) :
  truthy d = true -> truthy (TankLevel.or_number x d) = true.
Proof.
  intros Hd. unfold TankLevel.or_number.
  destruct x as [v|]; [|exact Hd]. destruct (truthy v) eqn:E; assumption.
Qed.

Lemma motor_or_number_truthy (x : option number) (d : number) :
  truthy d = true -> truthy (MotorSpeed.or_number x d) = true.
Proof.
  intros Hd. unfold MotorSpeed.or_number.
  destruct x as [v|]; [|exact Hd]. destruct (truthy v) eqn:E; assumption.
Qed.

Lemma pressure_or_number_truthy (x : option number) (d : number) :
  truthy d = true -> truthy (Pressure.or_number x d) = true.
Proof.
  intros Hd. unfold Pressure.or_number.
  destruct x as [v|]; [|exact Hd]. destruct (truthy v) eqn:E; assumption.
Qed.

(** X14.  The quantities the industrial plants divide by in their
    balances (thermal capacity and resistance, tank area, motor inertia,
    vessel volume) are never 0 and never NaN in a plant the constructor
    built, whatever parameters it was given and whatever updates and
    disturbance settings followed. *)
Theorem industrial_divisors_never_zero :
  (forall params ops,
      let p := Temperature.run ops (Temperature.constructor params) in
      truthy (Temperature.thermalCapacity p) = true /\
      truthy (Temperature.thermalResistance p) = true) /\
  (forall params ops,
      truthy (TankLevel.tankArea
                (TankLevel.run ops (TankLevel.constructor params))) = true) /\
  (forall params ops,
      truthy (MotorSpeed.inertia
                (MotorSpeed.run ops (MotorSpeed.constructor params))) = true)
  /\
  (forall params ops,
      truthy (Pressure.volume
                (Pressure.run ops (Pressure.constructor params))) = true).
Proof.
  split; [|split; [|split]]; intros params ops.
  - cbv zeta.
    destruct (thermal_run_reset ops (Temperature.constructor params))
      as (_ & -> & ->).
    split; apply thermal_or_number_truthy; reflexivity.
  - rewrite (proj2 (tank_run_reset ops _)).
    apply tank_or_number_truthy. reflexivity.
  - rewrite (proj2 (motor_run_reset ops _)).
    apply motor_or_number_truthy. reflexivity.
  - rewrite (proj2 (pressure_run_reset ops _)).
    apply pressure_or_number_truthy. reflexivity.
Qed.

(** X15.  [setDisturbance] with a type the plant does not know is
    ignored: the tank, the motor and the pressure vessel are left exactly
    as they were. *)
Theorem setDisturbance_unknown_type_ignored (type : string) (value : number) :
  (String.eqb type "inlet" = false -> String.eqb type "leak" = false ->
   forall p, TankLevel.setDisturbance type value p = p) /\
  (String.eqb type "load" = false -> String.eqb type "friction" = false ->
   forall p, MotorSpeed.setDisturbance type value p = p) /\
  (String.eqb type "outlet" = false -> String.eqb type "leak" = false ->
   String.eqb type "temperature" = false ->
   forall p, Pressure.setDisturbance type value p = p).
Proof.
  split; [|split].
  - intros H1 H2 p. unfold TankLevel.setDisturbance. rewrite H1, H2.
    now destruct p.
  - intros H1 H2 p. unfold MotorSpeed.setDisturbance. rewrite H1, H2.
    now destruct p.
  - intros H1 H2 H3 p. unfold Pressure.setDisturbance. rewrite H1, H2, H3.
    now destruct p.
Qed.

Lemma setDisturbance_unknown_type_ignored_witness :
  TankLevel.setDisturbance "door" one sampleTank = sampleTank /\
  MotorSpeed.setDisturbance "door" one sampleMotor = sampleMotor /\
  Pressure.setDisturbance "door" one samplePressure = samplePressure.
Proof.
  split; [|split].
  - apply (proj1 (setDisturbance_unknown_type_ignored "door" one));
      reflexivity.
  - apply (proj1 (proj2 (setDisturbance_unknown_type_ignored "door" one)));
      reflexivity.
  - apply (proj2 (proj2 (setDisturbance_unknown_type_ignored "door" one)));
      reflexivity.
Defined.

(** X16.  After every [update] of the pressure vessel the stored gas
    mass is at least 0.001 whenever it is a number, and the reported
    process variable is the stored pressure above atmospheric, in kPa. *)
Theorem pressure_mass_has_floor (u dt : number)
  (p : Pressure.PressureControlSystem) :
  let r := Pressure.update u dt p in
  Pressure.processVariable (fst r) =
    div (sub (Pressure.pressure (Pressure.state (snd r)))
             (Pressure.atmosphericPressure (snd r))) (ofZ 1000) /\
  (isNaN (Pressure.mass (Pressure.state (snd r))) = false ->
   leb (ratio 1 1000) (Pressure.mass (Pressure.state (snd r))) = true).
Proof.
  cbv zeta. split; [reflexivity|].
  unfold Pressure.update. cbn [snd Pressure.state Pressure.mass].
  intros Hnum. rewrite Math_max_nan in Hnum.
  apply orb_false_iff in Hnum as [Ha Hb].
  now apply Math_max_ge_l.
Qed.

Lemma pressure_mass_has_floor_witness :
  leb (ratio 1 1000)
      (Pressure.mass
         (Pressure.state
            (snd (Pressure.update (ofZ 50) (ratio 4 100) samplePressure))))
  = true.
Proof.
  apply (proj2 (pressure_mass_has_floor (ofZ 50) (ratio 4 100)
                  samplePressure)).
  vm_compute. reflexivity.
Defined.

End IndustrialHistories.

(** * Further properties of the auto-tune logic *)

Section AutoTuneSearch.

Import App.






Lemma increaseKp_autoTune (t : number) (app : SimulationApp) :
  autoTune (increaseKp t app) = autoTune app /\
  isAutoTuning (increaseKp t app) = isAutoTuning app.
Proof.
  unfold increaseKp.
  destruct (_ && _); [now split|].
  destruct (negb _); now split.
Qed.

Lemma rising_snoc (l : list Peak) (n d : Peak) :
  rising l = true -> ltb (value (last l d)) (value n) = true ->
  rising (l ++ [n]) = true.
Proof.
  induction l as [|a [|b r] IH]; intros Hr Hl.
  - reflexivity.
  - cbn in *. now rewrite Hl.
  - cbn [rising] in Hr. apply andb_true_iff in Hr as [Hab Hr].
    change ((a :: b :: r) ++ [n]) with (a :: (b :: r) ++ [n]).
    change (rising (a :: (b :: r) ++ [n]))
      with (ltb (value a) (value b) && rising ((b :: r) ++ [n])).
    rewrite Hab. apply IH; assumption.
Qed.

Lemma rising_tl (l : list Peak) : rising l = true -> rising (tl l) = true.
Proof.
  destruct l as [|a [|b r]]; intros H; try reflexivity.
  cbn [rising] in H. now apply andb_true_iff in H as [_ H].
Qed.

Lemma last_tl_snoc (l : list Peak) (n : Peak) :
  last (tl (l ++ [n])) n = n /\ last (l ++ [n]) n = n.
Proof.
  split; [|apply last_last].
  destruct l as [|a r]; [reflexivity|]. cbn [List.app tl]. apply last_last.
Qed.

(** X18.  The recorded peaks rise strictly from each one to the next and
    end with the last peak found: [startAutoTune] starts the search in
    that condition and every call of [runAutoTuneLogic] keeps it, so the
    stability test always compares a peak with an earlier, lower one. *)
Theorem recorded_peaks_rise (pv t : number) (app : SimulationApp) :
  let ok a :=
    rising (peaks a) = true /\ last (peaks a) (lastPeak a) = lastPeak a in
  (isAutoTuning app = false -> ok (autoTune (startAutoTune app))) /\
  (ok (autoTune app) -> ok (autoTune (runAutoTuneLogic pv t app))).
Proof.
  cbv zeta. split.
  - intros H. unfold startAutoTune. rewrite H. cbn. now split.
  - intros [Hr Hl]. unfold runAutoTuneLogic.
    destruct (Nat.ltb _ 3); [now split|].
    destruct (_ && _);
      [|rewrite (proj1 (increaseKp_autoTune _ _)); now split].
    destruct (gtb _ _) eqn:Hnew;
      [|rewrite (proj1 (increaseKp_autoTune _ _)); now split].
    cbn [peaks lastPeak].
    set (new := mkPeak
                  (nth (List.length (history app) - 2) (history app) NaN) t)
      in *.
    assert (Hsnoc : rising (peaks (autoTune app) ++ [new]) = true).
    { apply (rising_snoc _ _ (lastPeak (autoTune app))); [exact Hr|].
      rewrite Hl. exact Hnew. }
    destruct (last_tl_snoc (peaks (autoTune app)) new) as [Htl Hlast].
    destruct (Nat.ltb 4 _).
    + destruct (ltb _ _).
      * match goal with
        | |- context [finishAutoTune ?x] =>
            destruct (finishAutoTune_fields x) as [_ ->]
        end.
        cbn. split; [now apply rising_tl | exact Htl].
      * rewrite (proj1 (increaseKp_autoTune _ _)). cbn.
        split; [now apply rising_tl | exact Htl].
    + rewrite (proj1 (increaseKp_autoTune _ _)). cbn.
      split; [exact Hsnoc | exact Hlast].
Qed.

Lemma recorded_peaks_rise_witness :
  rising (peaks (autoTune (runAutoTuneLogic (ofZ 78) (ofZ 9) sampleApp)))
  = true.
Proof.
  apply (proj2 (recorded_peaks_rise (ofZ 78) (ofZ 9) sampleApp)).
  vm_compute. split; reflexivity.
Defined.

(** X19.  While the search is on, the controller is purely
    proportional: [startAutoTune] sets Ki = Kd = 0, [runAutoTuneLogic]
    keeps them 0 as long as it leaves the search on, and so does the
    controller's own [update]. *)
Theorem search_keeps_integral_gain_zero (pv t sp dt : number)
  (app : SimulationApp) :
  let ok app :=
    isAutoTuning app = true ->
    AdvancedPID._Ki (pid app) = zero /\ AdvancedPID._Kd (pid app) = zero in
  (isAutoTuning app = false -> ok (startAutoTune app)) /\
  (ok app -> ok (runAutoTuneLogic pv t app)) /\
  (ok app ->
   ok (set_pid (snd (AdvancedPID.update sp pv dt (pid app))) app)).
Proof.
  cbv zeta. split; [|split].
  - intros H _. unfold startAutoTune. rewrite H. cbn. now split.
  - intros Hok.
    assert (Hinc : forall a, (isAutoTuning a = true ->
                      AdvancedPID._Ki (pid a) = zero /\
                      AdvancedPID._Kd (pid a) = zero) ->
                   isAutoTuning (increaseKp t a) = true ->
                   AdvancedPID._Ki (pid (increaseKp t a)) = zero /\
                   AdvancedPID._Kd (pid (increaseKp t a)) = zero).
    { intros a Ha. unfold increaseKp.
      destruct (_ && _); [now split|].
      destruct (negb _); exact Ha. }
    unfold runAutoTuneLogic.
    destruct (Nat.ltb _ 3); [exact Hok|].
    destruct (_ && _); [|now apply Hinc].
    destruct (gtb _ _); [|now apply Hinc].
    destruct (Nat.ltb 4 _); [|now apply Hinc].
    destruct (ltb _ _); [|now apply Hinc].
    match goal with
    | |- context [finishAutoTune ?x] =>
        destruct (finishAutoTune_fields x) as [-> _]
    end.
    discriminate.
  - intros Hok Hon. cbn in *.
    destruct (update_keeps_configuration sp pv dt (pid app))
      as (_ & _ & -> & ->).
    now apply Hok.
Qed.

Lemma search_keeps_integral_gain_zero_witness :
  AdvancedPID._Ki (pid (startAutoTune (set_isAutoTuning false sampleApp)))
  = zero.
Proof.
  apply (proj1 (search_keeps_integral_gain_zero zero zero zero zero
                  (set_isAutoTuning false sampleApp))).
  - reflexivity.
  - reflexivity.
Defined.

End AutoTuneSearch.

(** * Properties of the performance analyzer *)

Section AnalyzerFrames.

Import Analyzer.

Lemma sameFrame_refl (a : PerformanceAnalyzer) : sameFrame a a.
Proof. repeat split. Qed.

Lemma sameFrame_trans (a b c : PerformanceAnalyzer) :
  sameFrame a b -> sameFrame b c -> sameFrame a c.
Proof.
  unfold sameFrame.
  intros (H1 & H2 & H3 & H4 & H5 & H6 & H7) (K1 & K2 & K3 & K4 & K5 & K6 & K7).
  repeat split; congruence.
Qed.

Lemma set_metrics_frame (m : Metrics) (a : PerformanceAnalyzer) :
  sameFrame a (set_metrics m a).
Proof. repeat split. Qed.

Lemma updateContinuousMetrics_frame (t : number) (a : PerformanceAnalyzer) :
  sameFrame a (updateContinuousMetrics t a) /\
  overshoot (metrics (updateContinuousMetrics t a)) = overshoot (metrics a) /\
  undershoot (metrics (updateContinuousMetrics t a)) = undershoot (metrics a).
Proof.
  unfold updateContinuousMetrics.
  destruct (Nat.eqb _ 0); [split; [apply sameFrame_refl | now split]|].
  split; [apply set_metrics_frame | now split].
Qed.

Lemma calculateRiseTime_frame (stepData : list Point) (stepSize : number)
  (a : PerformanceAnalyzer) :
  sameFrame a (calculateRiseTime stepData stepSize a) /\
  overshoot (metrics (calculateRiseTime stepData stepSize a)) =
    overshoot (metrics a) /\
  undershoot (metrics (calculateRiseTime stepData stepSize a)) =
    undershoot (metrics a).
Proof.
  unfold calculateRiseTime.
  destruct (riseLoop _ _ _ _ _ _ _) as [[t10|] [t90|]];
    (split; [first [apply set_metrics_frame | apply sameFrame_refl]
            | now split]).
Qed.

Lemma calculateSettlingTime_frame (stepData : list Point)
  (a : PerformanceAnalyzer) :
  sameFrame a (calculateSettlingTime stepData a) /\
  overshoot (metrics (calculateSettlingTime stepData a)) =
    overshoot (metrics a) /\
  undershoot (metrics (calculateSettlingTime stepData a)) =
    undershoot (metrics a).
Proof.
  unfold calculateSettlingTime. split; [apply set_metrics_frame | now split].
Qed.

Lemma calculatePerformanceIndex_frame (a : PerformanceAnalyzer) :
  sameFrame a (calculatePerformanceIndex a) /\
  overshoot (metrics (calculatePerformanceIndex a)) = overshoot (metrics a) /\
  undershoot (metrics (calculatePerformanceIndex a)) =
    undershoot (metrics a).
Proof.
  unfold calculatePerformanceIndex.
  split; [apply set_metrics_frame | now split].
Qed.

Lemma notNegative_Math_max (x : number) :
  notNegative (Math_max zero x) = true.
Proof.
  unfold notNegative.
  destruct (isNaN (Math_max zero x)) eqn:E; [reflexivity|].
  rewrite Math_max_nan in E. apply orb_false_iff in E as [_ Hx].
  now apply Math_max_ge_l.
Qed.

Lemma updateStepResponseMetrics_frame (a : PerformanceAnalyzer) :
  sameFrame a (updateStepResponseMetrics a) /\
  (notNegative (overshoot (metrics a)) = true ->
   notNegative (overshoot (metrics (updateStepResponseMetrics a))) = true) /\
  (notNegative (undershoot (metrics a)) = true ->
   notNegative (undershoot (metrics (updateStepResponseMetrics a))) = true).
Proof.
  unfold updateStepResponseMetrics.
  destruct (_ || _); [split; [apply sameFrame_refl | now split]|].
  destruct (Nat.ltb _ 10); [split; [apply sameFrame_refl | now split]|].
  destruct (ltb _ _); [split; [apply sameFrame_refl | now split]|].
  destruct (extremes _) as [[[maxValue maxTime] minValue] minTime].
  match goal with
  | |- context [calculateSettlingTime ?sd (calculateRiseTime ?sd ?sz ?b)] =>
      destruct (calculateSettlingTime_frame sd (calculateRiseTime sd sz b))
        as (F2 & O2 & U2);
      destruct (calculateRiseTime_frame sd sz b) as (F1 & O1 & U1);
      rewrite O2, U2, O1, U1;
      split; [apply (sameFrame_trans _ b);
                [apply set_metrics_frame
                |apply (sameFrame_trans _ _ _ F1 F2)]|]
  end.
  cbn [metrics set_metrics].
  destruct (gtb _ zero); cbn [overshoot undershoot]; split; intros H;
    first [exact H | apply notNegative_Math_max].
Qed.

Lemma detectStepChange_frame (sp t : number) (a : PerformanceAnalyzer) :
  data (detectStepChange sp t a) = data a /\
  analysisWindow (detectStepChange sp t a) = analysisWindow a /\
  settlingBand (detectStepChange sp t a) = settlingBand a /\
  (notNegative (overshoot (metrics a)) = true ->
   notNegative (overshoot (metrics (detectStepChange sp t a))) = true) /\
  (notNegative (undershoot (metrics a)) = true ->
   notNegative (undershoot (metrics (detectStepChange sp t a))) = true) /\
  (isStepResponse a = true -> isStepResponse (detectStepChange sp t a) = true)
  /\
  ((isStepResponse a = true -> isNull (stepStartTime a) = false) ->
   isStepResponse (detectStepChange sp t a) = true ->
   isNull (stepStartTime (detectStepChange sp t a)) = false).
Proof.
  unfold detectStepChange.
  destruct (Nat.ltb _ 2); [now repeat split|].
  destruct (gtb _ _); now repeat split.
Qed.

End AnalyzerFrames.

Section AnalyzerUpdate.

Import Analyzer.

(** How one [update] acts on the series, the constants, the signs of
    overshoot and undershoot, and the step episode. *)
Lemma update_frame (t sp pv out : number) (a : PerformanceAnalyzer) :
  let pushed :=
    mkData (time (data a) ++ [t]) (setpoint (data a) ++ [sp])
      (processVariable (data a) ++ [pv]) (controlOutput (data a) ++ [out])
      (error (data a) ++ [sub sp pv]) in
  let a' := update t sp pv out a in
  data a' =
    (if Nat.ltb 1000 (List.length (time pushed))
     then mkData (tl (time pushed)) (tl (setpoint pushed))
            (tl (processVariable pushed)) (tl (controlOutput pushed))
            (tl (error pushed))
     else pushed) /\
  analysisWindow a' = analysisWindow a /\
  settlingBand a' = settlingBand a /\
  (notNegative (overshoot (metrics a)) = true ->
   notNegative (overshoot (metrics a')) = true) /\
  (notNegative (undershoot (metrics a)) = true ->
   notNegative (undershoot (metrics a')) = true) /\
  (isStepResponse a = true -> isStepResponse a' = true) /\
  ((isStepResponse a = true -> isNull (stepStartTime a) = false) ->
   isStepResponse a' = true -> isNull (stepStartTime a') = false).
Proof.
  cbv zeta. unfold update.
  set (d := if Nat.ltb 1000 _ then _ else _).
  set (a0 := set_data d a).
  set (a1 := detectStepChange sp t a0).
  set (a2 := updateContinuousMetrics t a1).
  set (a3 := if isStepResponse a2 then updateStepResponseMetrics a2 else a2).
  destruct (detectStepChange_frame sp t a0)
    as (D1 & W1 & B1 & O1 & U1 & S1 & N1). fold a1 in D1, W1, B1, O1, U1, S1, N1.
  destruct (updateContinuousMetrics_frame t a1)
    as ((D2 & S2 & T2 & _ & _ & W2 & B2) & O2 & U2).
  fold a2 in D2, S2, T2, W2, B2, O2, U2.
  assert (H3 : sameFrame a2 a3 /\
               (notNegative (overshoot (metrics a2)) = true ->
                notNegative (overshoot (metrics a3)) = true) /\
               (notNegative (undershoot (metrics a2)) = true ->
                notNegative (undershoot (metrics a3)) = true)).
  { subst a3. destruct (isStepResponse a2).
    - apply updateStepResponseMetrics_frame.
    - split; [apply sameFrame_refl | now split]. }
  destruct H3 as ((D3 & S3 & T3 & _ & _ & W3 & B3) & O3 & U3).
  destruct (calculatePerformanceIndex_frame a3)
    as ((D4 & S4 & T4 & _ & _ & W4 & B4) & O4 & U4).
  rewrite D4, D3, D2, D1, W4, W3, W2, W1, B4, B3, B2, B1, O4, U4, S4, S3, S2,
    T4, T3, T2.
  repeat split.
  - intros H. apply O3. rewrite O2. now apply O1.
  - intros H. apply U3. rewrite U2. now apply U1.
  - exact S1.
  - exact N1.
Qed.

Lemma length_tl_snoc (l : list number) (x : number) :
  List.length (tl (l ++ [x])) = List.length l.
Proof.
  destruct l as [|y l]; [reflexivity|].
  cbn [List.app tl]. rewrite length_app, Nat.add_1_r. reflexivity.
Qed.

Lemma length_snoc (l : list number) (x : number) :
  List.length (l ++ [x]) = S (List.length l).
Proof. rewrite length_app, Nat.add_1_r. reflexivity. Qed.

(** X20.  From construction on, whatever samples are fed, the five
    series of the analyzer keep one common length, and that length never
    exceeds 1000. *)
Theorem analyzer_history_bounded (samples : list Sample) :
  alignedData 1000 (data (feed samples constructor)).
Proof.
  unfold feed.
  assert (H0 : alignedData 1000 (data constructor)).
  { unfold alignedData, constructor.
    cbn [data time setpoint processVariable controlOutput error List.length].
    repeat split. apply Nat.le_0_l. }
  revert H0. generalize constructor.
  induction samples as [|s rest IH]; intros a Ha; [exact Ha|].
  cbn [fold_left]. apply IH.
  destruct (update_frame (fst (fst (fst s))) (snd (fst (fst s)))
              (snd (fst s)) (snd s) a) as (-> & _).
  destruct Ha as (H1 & H2 & H3 & H4 & H5).
  unfold alignedData. cbn [time setpoint processVariable controlOutput error].
  destruct (Nat.ltb 1000 _) eqn:E;
    cbn [time setpoint processVariable controlOutput error].
  - rewrite !length_tl_snoc. repeat split; assumption.
  - apply Nat.ltb_ge in E. rewrite !length_snoc in *.
    repeat split; first [congruence | exact E].
Qed.

(** X21.  After every [update], whatever the state before, the
    performance index lies within [[0, 100]] whenever it is a number. *)
Theorem performanceIndex_within_0_100 (t sp pv out : number)
  (a : PerformanceAnalyzer) :
  isNaN (performanceIndex (metrics (update t sp pv out a))) = false ->
  within zero (ofZ 100) (performanceIndex (metrics (update t sp pv out a)))
  = true.
Proof.
  assert (H : forall b,
             performanceIndex (metrics (calculatePerformanceIndex b)) =
             saturate zero (ofZ 100) (score (metrics b))) by reflexivity.
  unfold update. rewrite H. apply saturate_within. reflexivity.
Qed.

Lemma performanceIndex_within_0_100_witness :
  within zero (ofZ 100)
    (performanceIndex (metrics (update zero (ofZ 80) zero (ofZ 100)
                                  constructor))) = true.
Proof.
  apply (performanceIndex_within_0_100 zero (ofZ 80) zero (ofZ 100)
           constructor).
  vm_compute. reflexivity.
Defined.

(** X22.  From construction on, whatever samples are fed, overshoot and
    undershoot are never negative numbers. *)
Theorem overshoot_never_negative (samples : list Sample) :
  notNegative (overshoot (metrics (feed samples constructor))) = true /\
  notNegative (undershoot (metrics (feed samples constructor))) = true.
Proof.
  unfold feed.
  assert (H0 : notNegative (overshoot (metrics constructor)) = true /\
               notNegative (undershoot (metrics constructor)) = true)
    by (split; reflexivity).
  revert H0. generalize constructor.
  induction samples as [|s rest IH]; intros a Ha; [exact Ha|].
  cbn [fold_left]. apply IH.
  destruct (update_frame (fst (fst (fst s))) (snd (fst (fst s)))
              (snd (fst s)) (snd s) a) as (_ & _ & _ & O & U & _).
  destruct Ha as [Ho Hu]. split; [now apply O | now apply U].
Qed.

(** X23.  From construction on, a step episode, once detected, is never
    left by [update], and while one is on its start time is set. *)
Theorem step_episode_is_kept (samples more : list Sample) :
  let a := feed samples constructor in
  (isStepResponse a = true -> isNull (stepStartTime a) = false) /\
  (isStepResponse a = true -> isStepResponse (feed more a) = true).
Proof.
  cbv zeta. split.
  - unfold feed.
    assert (H0 : isStepResponse constructor = true ->
                 isNull (stepStartTime constructor) = false)
      by discriminate.
    revert H0. generalize constructor.
    induction samples as [|s rest IH]; intros a Ha; [exact Ha|].
    cbn [fold_left]. apply IH.
    destruct (update_frame (fst (fst (fst s))) (snd (fst (fst s)))
                (snd (fst s)) (snd s) a) as (_ & _ & _ & _ & _ & _ & N).
    now apply N.
  - generalize (feed samples constructor). unfold feed.
    induction more as [|s rest IH]; intros a Ha; [exact Ha|].
    cbn [fold_left]. apply IH.
    destruct (update_frame (fst (fst (fst s))) (snd (fst (fst s)))
                (snd (fst s)) (snd s) a) as (_ & _ & _ & _ & _ & S & _).
    now apply S.
Qed.

Lemma step_episode_is_kept_witness :
  isNull (stepStartTime sampleAnalyzer) = false /\
  isStepResponse (feed [(ofZ 2, ofZ 80, ofZ 10, zero)] sampleAnalyzer) = true.
Proof.
  pose proof (step_episode_is_kept
                [(zero, zero, zero, zero); (one, ofZ 80, zero, zero)]
                [(ofZ 2, ofZ 80, ofZ 10, zero)]) as [H1 H2].
  split; [apply H1 | apply H2]; vm_compute; reflexivity.
Defined.

End AnalyzerUpdate.

Section AnalyzerReports.

Import Analyzer.

(** X24.  [getRecommendation] never returns an empty list and never more
    than four recommendations. *)
Theorem getRecommendation_never_empty (a : PerformanceAnalyzer) :
  (1 <= List.length (getRecommendation a) <= 4)%nat.
Proof.
  unfold getRecommendation.
  destruct (gtb (overshoot (metrics a)) (ofZ 15)),
    (gtb (abs (steadyStateError (metrics a))) one),
    (truthy_opt (settlingTime (metrics a))
     && gtb (toNumber (settlingTime (metrics a))) (ofZ 15)),
    (gtb (controlVariability (metrics a)) (ofZ 100));
    cbn [List.app List.length Nat.eqb]; lia.
Qed.

(** X25.  Every point of the step response data is a sample of the
    series, taken at one index, whose time is not before the start of the
    step episode; outside a step episode there is no such data. *)
Theorem step_response_data_after_start (a : PerformanceAnalyzer) :
  (isStepResponse a = false -> getStepResponseData a = []) /\
  (forall point, In point (getStepResponseData a) ->
     exists start i,
       stepStartTime a = Some start /\
       geb (pt_time point) start = true /\
       (i < List.length (time (data a)))%nat /\
       point = mkPoint (nth i (time (data a)) NaN)
                 (nth i (processVariable (data a)) NaN)
                 (nth i (setpoint (data a)) NaN)
                 (nth i (controlOutput (data a)) NaN)).
Proof.
  unfold getStepResponseData. split.
  - intros ->. now destruct (stepStartTime a).
  - intros point Hin.
    destruct (stepStartTime a) as [start|]; [|contradiction].
    destruct (isStepResponse a); [|contradiction].
    cbn [negb] in Hin. apply in_map_iff in Hin as (i & <- & Hi).
    apply filter_In in Hi as [Hseq Hge]. apply in_seq in Hseq.
    exists start, i. repeat split; [exact Hge | lia].
Qed.

Lemma step_response_data_after_start_witness :
  exists start,
    stepStartTime sampleAnalyzer = Some start /\
    geb (pt_time (mkPoint one zero (ofZ 80) zero)) start = true.
Proof.
  destruct (proj2 (step_response_data_after_start sampleAnalyzer)
              (mkPoint one zero (ofZ 80) zero))
    as (start & i & Hs & Hge & _).
  - vm_compute. left. reflexivity.
  - exists start. split; assumption.
Defined.

Lemma find_none_forallb (f : Point -> bool) (l : list Point) :
  find f l = None <-> forallb (fun q => negb (f q)) l = true.
Proof.
  induction l as [|x l IH]; cbn; [now split|].
  destruct (f x); cbn; [split; discriminate | exact IH].
Qed.

Lemma find_snoc (f : Point -> bool) (l : list Point) (x : Point) :
  find f (l ++ [x]) =
  match find f l with
  | Some y => Some y
  | None => if f x then Some x else None
  end.
Proof.
  induction l as [|y l IH]; cbn; [reflexivity|].
  destruct (f y); [reflexivity | exact IH].
Qed.

Lemma forallb_rev (f : Point -> bool) (l : list Point) :
  forallb f (rev l) = forallb f l.
Proof.
  induction l as [|x l IH]; [reflexivity|].
  cbn [rev]. rewrite forallb_app, IH. cbn. rewrite andb_true_r.
  apply andb_comm.
Qed.

(** The first match from the end is the last match: nothing after it
    matches. *)
Lemma find_rev_last (f : Point -> bool) (l : list Point) (x : Point) :
  find f (rev l) = Some x ->
  exists before after,
    l = before ++ x :: after /\ f x = true /\
    forallb (fun q => negb (f q)) after = true.
Proof.
  induction l as [|y l IH]; [discriminate|].
  cbn [rev]. rewrite find_snoc.
  destruct (find f (rev l)) as [z|] eqn:E.
  - intros [= ->]. destruct (IH eq_refl) as (before & after & -> & Hx & Ha).
    exists (y :: before), after. now repeat split.
  - destruct (f y) eqn:Hy; [|discriminate]. intros [= <-].
    exists [], l. repeat split; [exact Hy|].
    apply find_none_forallb in E. now rewrite forallb_rev in E.
Qed.

(** X26.  The settling time that [calculateSettlingTime] stores is the
    time, counted from the start of the step, of the last point outside
    the band of 2% around the final value: every later point is inside.
    It is [null] exactly when no point is outside the band. *)
Theorem settling_time_is_last_excursion (stepData : list Point)
  (a : PerformanceAnalyzer) :
  let final := toNumber (stepEndValue a) in
  let band := mul final (settlingBand a) in
  let outside := outsideBand (add final band) (sub final band) in
  let result := settlingTime (metrics (calculateSettlingTime stepData a)) in
  (result = None <->
   forallb (fun q => negb (outside q)) stepData = true) /\
  (forall t, result = Some t ->
     exists before point after,
       stepData = before ++ point :: after /\
       outside point = true /\
       forallb (fun q => negb (outside q)) after = true /\
       t = sub (pt_time point) (toNumber (stepStartTime a))).
Proof.
  cbv zeta. unfold calculateSettlingTime.
  cbn [metrics set_metrics set_settlingTime settlingTime].
  match goal with
  | |- context [find ?f (rev stepData)] =>
      destruct (find f (rev stepData)) as [point|] eqn:E
  end.
  - split.
    + split; [discriminate|]. intros H.
      rewrite <- (forallb_rev _ stepData) in H.
      apply find_none_forallb in H. congruence.
    + intros t [= <-].
      destruct (find_rev_last _ _ _ E) as (before & after & -> & Hx & Ha).
      exists before, point, after. now repeat split.
  - split; [|discriminate].
    split; [intros _ | reflexivity].
    apply find_none_forallb in E. now rewrite forallb_rev in E.
Qed.

Lemma settling_time_is_last_excursion_witness :
  let final := toNumber (stepEndValue sampleAnalyzer) in
  let band := mul final (settlingBand sampleAnalyzer) in
  let outside := outsideBand (add final band) (sub final band) in
  exists before point after,
    sampleStepData = before ++ point :: after /\
    outside point = true /\
    forallb (fun q => negb (outside q)) after = true /\
    one = sub (pt_time point) (toNumber (stepStartTime sampleAnalyzer)).
Proof.
  refine (proj2 (settling_time_is_last_excursion sampleStepData
                   sampleAnalyzer) one _).
  vm_compute. reflexivity.
Defined.

(** X27.  Whatever the analyzer held, [reset] leaves it with empty
    series and no step episode; the nullable metrics that held a number
    hold 0, which the assessments treat as [null]: the unclamped score is
    100 and the only recommendation is the one for a well tuned loop. *)
Theorem reset_clears_assessment (a : PerformanceAnalyzer) :
  data (reset a) = mkData [] [] [] [] [] /\
  isStepResponse (reset a) = false /\
  getStepResponseData (reset a) = [] /\
  score (metrics (reset a)) = ofZ 100 /\
  getRecommendation (reset a) = ["Sistema bem sintonizado!"%string].
Proof.
  unfold reset, getRecommendation, score.
  cbn [data isStepResponse metrics settlingTime overshoot steadyStateError
       controlVariability getStepResponseData stepStartTime].
  destruct (settlingTime (metrics a)); repeat split; reflexivity.
Qed.

End AnalyzerReports.

(** * Properties of the rolling analyzer *)

Section RollingAnalyzer.

Import SystemAnalyzer.

Lemma rolling_update_history (sp pv mv ts : number) (a : SystemAnalyzer) :
  let h := dataHistory a in
  let pushed :=
    mkHistory (errors h ++ [sub sp pv]) (outputs h ++ [mv])
      (processValues h ++ [pv]) (timestamps h ++ [ts]) in
  dataHistory (update sp pv mv ts a) =
    if Nat.ltb 500 (List.length (errors pushed))
    then mkHistory (tl (errors pushed)) (tl (outputs pushed))
           (tl (processValues pushed)) (tl (timestamps pushed))
    else pushed.
Proof. reflexivity. Qed.

(** X28.  From construction on, whatever samples are fed, the four
    series of the rolling analyzer keep one common length, and that
    length never exceeds 500. *)
Theorem rolling_history_bounded (samples : list Sample) :
  alignedHistory 500 (dataHistory (feed samples constructor)).
Proof.
  unfold feed.
  assert (H0 : alignedHistory 500 (dataHistory constructor)).
  { unfold alignedHistory, constructor.
    cbn [dataHistory errors outputs processValues timestamps List.length].
    repeat split. apply Nat.le_0_l. }
  revert H0. generalize constructor.
  induction samples as [|s rest IH]; intros a Ha; [exact Ha|].
  cbn [fold_left]. apply IH.
  rewrite rolling_update_history. cbv zeta.
  destruct Ha as (H1 & H2 & H3 & H4).
  unfold alignedHistory. cbn [errors outputs processValues timestamps].
  destruct (Nat.ltb 500 _) eqn:E;
    cbn [errors outputs processValues timestamps].
  - rewrite !length_tl_snoc. repeat split; assumption.
  - apply Nat.ltb_ge in E. rewrite !length_snoc in *.
    repeat split; first [congruence | exact E].
Qed.

(** X29.  After every [update] of the rolling analyzer the overshoot is
    never a negative number, the settling time and the squared-error
    integral are left as they were, and the report carries exactly the
    stored metrics. *)
Theorem rolling_overshoot_never_negative (sp pv mv ts : number)
  (a : SystemAnalyzer) :
  let a' := update sp pv mv ts a in
  notNegative (overshoot (metrics a')) = true /\
  settlingTime (metrics a') = settlingTime (metrics a) /\
  ise (metrics a') = ise (metrics a) /\
  report_metrics (generateReport a') = metrics a'.
Proof.
  cbv zeta. unfold update, _calculateMetrics.
  cbn [metrics overshoot settlingTime ise generateReport report_metrics].
  repeat split. apply notNegative_Math_max.
Qed.

End RollingAnalyzer.
